(** * Multi-AI refinement framework

    A shallow embedding of the agent registry ([framework.py]), the mock
    provider ([providers.py]), the core data types ([core.py],
    [exceptions.py]), the CAIR refinement pipeline ([pipeline.py]) and
    the cost tracker ([cost.py]), followed by the properties of the
    specification that concern them and by further properties of the code.

    Conventions of the embedding:
    - Python [str] is [string], one character of the [string] for one
      character of the [str]; a slice [s[:50]] is
      [String.substring 0 50 s].
    - Python [float] is IEEE 754 binary64, modelled by [spec_float] with the
      operations of [SpecFloat] at precision 53 and maximal exponent 1024.
    - Python [dict] is a [gmap]; a keyword bag [**kwargs] is a
      [gmap string PyVal].
    - A method that mutates [self] takes the object and returns it updated,
      next to its result; a raised exception is the [Raise] result.  What
      was mutated before the exception was raised stays mutated. *)

From Stdlib Require Import ZArith Floats Lia.
From stdpp Require Import gmap strings list fin_maps.

Open Scope Z_scope.
Open Scope string_scope.

(** ** Python floats *)

Module PyFloat.

Abbreviation float := spec_float.

Definition add (x y : float) : float := SFadd prec emax x y.
Definition mul (x y : float) : float := SFmul prec emax x y.

(** [float(i)] for a Python [int]: the nearest binary64 value, ties to
    even.  (Python raises [OverflowError] where this rounds to infinity,
    that is from [2^1024 - 2^970] on; the only integer converted by the
    code below is a loop index, which reaches such a value only after
    that many completed rounds.) *)
Definition of_int (i : Z) : float := binary_normalize prec emax i 0 false.

(** [x >= y]: false as soon as one side is a NaN. *)
Definition ge (x y : float) : bool :=
  match SFcompare x y with
  | Some Eq | Some Gt => true
  | _ => false
  end.

(** [x > y] *)
Definition gt (x y : float) : bool :=
  match SFcompare x y with
  | Some Gt => true
  | _ => false
  end.

(** The literals of the source: [0.0], [0.7] and [0.1]. *)
Definition c0_0 : float := S754_zero false.
Definition c0_7 : float := S754_finite false 6305039478318694 (-53).
Definition c0_1 : float := S754_finite false 7205759403792794 (-56).

End PyFloat.

(** ** core.py *)

Inductive Role := GENERATOR | REVIEWER | REFINER | QA_ANALYST | ORCHESTRATOR.

(** [Role.value] *)
Definition Role_value (r : Role) : string :=
  match r with
  | GENERATOR => "generator"
  | REVIEWER => "reviewer"
  | REFINER => "refiner"
  | QA_ANALYST => "qa_analyst"
  | ORCHESTRATOR => "orchestrator"
  end.

Inductive ModelTier := PRO | FLASH.

Definition ModelTier_value (t : ModelTier) : string :=
  match t with
  | PRO => "pro"
  | FLASH => "flash"
  end.

#[global] Instance Role_eq_dec : EqDecision Role.
Proof. solve_decision. Defined.

Definition Role_index (r : Role) : nat :=
  match r with
  | GENERATOR => 0
  | REVIEWER => 1
  | REFINER => 2
  | QA_ANALYST => 3
  | ORCHESTRATOR => 4
  end%nat.

Definition Role_of_index (n : nat) : Role :=
  match n with
  | 0 => GENERATOR
  | 1 => REVIEWER
  | 2 => REFINER
  | 3 => QA_ANALYST
  | _ => ORCHESTRATOR
  end%nat.

#[global] Instance Role_countable : Countable Role.
Proof.
  refine (inj_countable' Role_index Role_of_index _).
  intros r. destruct r; reflexivity.
Defined.

(** The values a keyword bag or a context dictionary can hold. *)
Inductive PyVal :=
| VNone
| VBool (b : bool)
| VInt (z : Z)
| VFloat (f : PyFloat.float)
| VStr (s : string).

Abbreviation kwargs := (gmap string PyVal).

(** [RefinementResult.metadata], as [execute] builds it. *)
Record Metadata := {
  initial_prompt : string;
  context : option kwargs
}.

Record RefinementResult := {
  final_output : string;
  quality_score : PyFloat.float;
  iterations : nat;
  history : list string;
  metadata : Metadata
}.

(** ** exceptions.py, and the built-in exceptions the code can raise *)

Inductive Vendor := OpenAI | Anthropic | Gemini.

Inductive Error :=
| RoleNotConfiguredError (role : string)
| PromptNotFoundError (prompt_name : string)
| KeyError (key : string)
    (* [self._providers[provider_name]] on a name that is not cached *)
| TypeError
    (* [generate() got multiple values for keyword argument ...] *)
| OSError (filepath : string)
    (* [open(filepath, 'r')] failed: no such file, no permission, ... *)
| ValueError (filepath : string)
    (* [open(filepath, 'r')] refused the path: it holds a NUL character *)
| UnicodeDecodeError (filepath : string)
    (* [f.read()] met bytes that are no text in the default encoding *)
| VendorError (v : Vendor)
    (* an exception other than [ImportError] out of a vendor constructor *).

Inductive Result (A : Type) :=
| Ok (a : A)
| Raise (e : Error).
Arguments Ok {A} a.
Arguments Raise {A} e.

(** ** providers.py *)

Module MockProvider.

Record t := { call_count : Z }.

(** [__init__] *)
Definition init : t := {| call_count := 0 |}.

(** [generate]: returns the text and the provider after the call. *)
Definition generate (self : t) (prompt model : string)
    (temperature : PyFloat.float) (max_tokens : PyVal) (kw : kwargs)
  : string * t :=
  ("[Mock " +:+ model +:+ "] Response to: "
     +:+ String.substring 0 50 prompt +:+ "...",
   {| call_count := call_count self + 1 |}).

Definition get_available_models (self : t) : list string :=
  ["mock-gpt-4"; "mock-claude-3"; "mock-gemini-pro"].

End MockProvider.

(** A [generate] method on an instance of [MockProvider]: that of the
    class, or that of a subclass which overrides it. *)
Definition GenerateMethod : Type :=
  MockProvider.t -> string -> string -> PyFloat.float -> PyVal -> kwargs ->
  string * MockProvider.t.

(** A live provider instance: the mock, or one of the three vendor
    adapters (whose only state is a client object of the vendor's SDK). *)
Inductive Provider :=
| PMock (m : MockProvider.t)
| PVendor (v : Vendor).

(** How [open(filepath, 'r').read()] fails when it does: [open] raises an
    [OSError], [open] raises [ValueError] on a path with a NUL character,
    or [read] raises [UnicodeDecodeError]. *)
Inductive ReadFailure :=
| FailsOSError
| FailsValueError
| FailsUnicodeDecodeError.

(** What constructing a vendor adapter does in the running environment:
    the SDK is installed and its client is built, the import fails, or
    the SDK's client constructor raises something else. *)
Inductive CtorOutcome := CtorReturns | CtorImportError | CtorRaises.

(** The environment: the vendor SDKs and the file system.
    [vendor_generate] is what the [generate] method of a vendor adapter
    answers, a call into the vendor's SDK; [read_file] is what
    [open(filepath, 'r').read()] returns, [None] when it raises, and
    [read_failure] tells what it raises then. *)
Record Env := {
  vendor_ctor : Vendor -> CtorOutcome;
  vendor_generate :
    Vendor -> string -> string -> PyFloat.float -> PyVal -> kwargs ->
    Result string;
  read_file : string -> option string;
  read_failure : string -> ReadFailure
}.

(** The exception out of a failed [open(filepath, 'r').read()]. *)
Definition read_error (env : Env) (filepath : string) : Error :=
  match read_failure env filepath with
  | FailsOSError => OSError filepath
  | FailsValueError => ValueError filepath
  | FailsUnicodeDecodeError => UnicodeDecodeError filepath
  end.

(** [provider.generate(prompt, model, temperature, max_tokens, **kwargs)]
    on a live instance, by the class of the instance. *)
Definition Provider_generate (env : Env) (p : Provider)
    (prompt model : string) (temperature : PyFloat.float)
    (max_tokens : PyVal) (kw : kwargs) : Result string * Provider :=
  match p with
  | PMock m =>
    let '(text, m') :=
      MockProvider.generate m prompt model temperature max_tokens kw in
    (Ok text, PMock m')
  | PVendor v =>
    (vendor_generate env v prompt model temperature max_tokens kw, p)
  end.

(** ** framework.py *)

Module AIFramework.

(** One entry of [self._agents]: the dictionary literal of
    [configure_agent].  Its four fixed keys are parameters of the method,
    so [**kwargs] cannot contain them and the entry is a record plus the
    bag. *)
Record AgentConfig := {
  provider : string;
  model : string;
  tier : ModelTier;
  temperature : PyFloat.float;
  extra : kwargs
}.

Record t := {
  _agents : gmap Role AgentConfig;
  _providers : gmap string Provider;
  _prompts : gmap string string
}.

(** [__init__] *)
Definition init : t :=
  {| _agents := ∅; _providers := ∅; _prompts := ∅ |}.

Section WithEnv.
Variable env : Env.

(** [try: return V() except ImportError: return MockProvider()] *)
Definition try_vendor (v : Vendor) : Result Provider :=
  match vendor_ctor env v with
  | CtorReturns => Ok (PVendor v)
  | CtorImportError => Ok (PMock MockProvider.init)
  | CtorRaises => Raise (VendorError v)
  end.

Definition _get_provider (provider_name : string) : Result Provider :=
  if String.eqb provider_name "openai" then try_vendor OpenAI
  else if String.eqb provider_name "anthropic" then try_vendor Anthropic
  else if String.eqb provider_name "google"
          || String.eqb provider_name "gemini" then try_vendor Gemini
  else Ok (PMock MockProvider.init).

Definition configure_agent (self : t) (role : Role)
    (provider_name model_name : string) (tier_ : ModelTier)
    (temperature_ : PyFloat.float) (kw : kwargs) : Result unit * t :=
  let self1 :=
    {| _agents :=
         <[role := {| provider := provider_name; model := model_name;
                      tier := tier_; temperature := temperature_;
                      extra := kw |}]> (_agents self);
       _providers := _providers self;
       _prompts := _prompts self |} in
  match _providers self1 !! provider_name with
  | Some _ => (Ok tt, self1)
  | None =>
    match _get_provider provider_name with
    | Ok p =>
      (Ok tt,
       {| _agents := _agents self1;
          _providers := <[provider_name := p]> (_providers self1);
          _prompts := _prompts self1 |})
    | Raise e => (Raise e, self1)
    end
  end.

Definition load_prompt (self : t) (name filepath : string)
  : Result unit * t :=
  match read_file env filepath with
  | None => (Raise (read_error env filepath), self)
  | Some content =>
    (Ok tt,
     {| _agents := _agents self;
        _providers := _providers self;
        _prompts := <[name := content]> (_prompts self) |})
  end.

End WithEnv.

(** The keyword arguments [generate] receives from [dispatch] are
    [prompt], [model], [temperature] and the caller's bag: a bag that
    names [model] or [temperature] again is a [TypeError] at the call;
    [max_tokens] in the bag binds the parameter of that name.  (The bag of
    [dispatch] cannot name [role], [prompt] or [context], which are
    parameters of [dispatch] itself.) *)
Definition clashes (kw : kwargs) : bool :=
  bool_decide (is_Some (kw !! "model"))
  || bool_decide (is_Some (kw !! "temperature")).

(** The text of the last line of [dispatch]. *)
Definition placeholder (role : Role) (prompt : string) : string :=
  "[" +:+ Role_value role +:+ "] Response to: "
      +:+ String.substring 0 50 prompt +:+ "...".

(** The body of [dispatch].  [provider.generate] is a method call on the
    cached instance, which [isinstance(provider, MockProvider)] lets be
    of [MockProvider] or of a subclass of it: [generate] is the method the
    instance answers the call with. *)
Definition dispatch_via (generate : GenerateMethod) (self : t) (role : Role)
    (prompt : string) (context_ : option kwargs) (kw : kwargs)
  : Result string * t :=
  match _agents self !! role with
  | None => (Raise (RoleNotConfiguredError (Role_value role)), self)
  | Some agent_config =>
    let provider_name := provider agent_config in
    match _providers self !! provider_name with
    | None => (Raise (KeyError provider_name), self)
    | Some (PMock m) =>
      if clashes kw then (Raise TypeError, self)
      else
        let '(text, m') :=
          generate m prompt (model agent_config)
            (temperature agent_config)
            (default VNone (kw !! "max_tokens"))
            (delete "max_tokens" kw) in
        (Ok text,
         {| _agents := _agents self;
            _providers := <[provider_name := PMock m']> (_providers self);
            _prompts := _prompts self |})
    | Some (PVendor _) => (Ok (placeholder role prompt), self)
    end
  end.

(** [dispatch] on the instances [_get_provider] caches, whose class is
    [MockProvider] itself. *)
Definition dispatch (self : t) (role : Role) (prompt : string)
    (context_ : option kwargs) (kw : kwargs) : Result string * t :=
  dispatch_via MockProvider.generate self role prompt context_ kw.

Definition get_prompt (self : t) (name : string) : Result string :=
  match _prompts self !! name with
  | None => Raise (PromptNotFoundError name)
  | Some content => Ok content
  end.

End AIFramework.

(** ** pipeline.py *)

Module CAIRPipeline.

(** The pipeline object.  [framework] is the registry it creates in
    [__init__] and that callers configure through [pipeline.framework]. *)
Record t := {
  generator_role : Role;
  reviewer_role : Role;
  refiner_role : Role;
  qa_role : Role;
  max_iterations : Z;
  quality_threshold : PyFloat.float;
  framework : AIFramework.t
}.

(** [__init__] *)
Definition init (generator reviewer refiner qa : Role)
    (max_iterations_ : Z) (quality_threshold_ : PyFloat.float) : t :=
  {| generator_role := generator; reviewer_role := reviewer;
     refiner_role := refiner; qa_role := qa;
     max_iterations := max_iterations_;
     quality_threshold := quality_threshold_;
     framework := AIFramework.init |}.

(** The state [execute] runs on: the pipeline's registry, and, as an
    observation that the source does not keep, the list of the calls
    [self.framework.dispatch(role, prompt, ...)] made so far. *)
Record St := {
  fw : AIFramework.t;
  dispatched : list (Role * string)
}.

Definition M (A : Type) : Type := St -> Result A * St.

Definition ret {A} (a : A) : M A := fun s => (Ok a, s).

Definition bind {A B} (m : M A) (k : A -> M B) : M B :=
  fun s =>
    match m s with
    | (Ok a, s') => k a s'
    | (Raise e, s') => (Raise e, s')
    end.

Notation "'let!' x ':=' m 'in' k" := (bind m (fun x => k))
  (at level 10, x name, m at level 100, k at level 200).

(** [self.framework.dispatch(role=..., prompt=..., context=...)] *)
Definition call_dispatch (role : Role) (prompt : string)
    (context_ : option kwargs) : M string :=
  fun s =>
    let '(r, fw') := AIFramework.dispatch (fw s) role prompt context_ ∅ in
    (r, {| fw := fw'; dispatched := (dispatched s ++ [(role, prompt)])%list |}).

(** [0.7 + (iteration * 0.1)] *)
Definition placeholder_score (iteration : Z) : PyFloat.float :=
  PyFloat.add PyFloat.c0_7 (PyFloat.mul (PyFloat.of_int iteration) PyFloat.c0_1).

(** The body of [for iteration in range(self.max_iterations)], with
    [rounds] indices left to visit, the next one being [iteration].  It
    returns the three local variables the loop updates. *)
Fixpoint refine_loop (self : t) (context_ : option kwargs)
    (rounds : nat) (iteration : Z)
    (current_output : string) (quality_score_ : PyFloat.float)
    (history_ : list string)
  : M (string * PyFloat.float * list string) :=
  match rounds with
  | O => ret (current_output, quality_score_, history_)
  | S rounds' =>
    let! feedback := call_dispatch (reviewer_role self)
                  ("Review this output: " +:+ current_output) context_ in
    let! current_output := call_dispatch (refiner_role self)
                  ("Refine based on feedback: " +:+ feedback) context_ in
    let history_ := (history_ ++ [current_output])%list in
    let quality_score_ := placeholder_score iteration in
    if PyFloat.ge quality_score_ (quality_threshold self)
    then ret (current_output, quality_score_, history_)
    else refine_loop self context_ rounds' (iteration + 1)
           current_output quality_score_ history_
  end.

Definition execute (self : t) (initial_prompt_ : string)
    (context_ : option kwargs) : M RefinementResult :=
  let! current_output := call_dispatch (generator_role self)
                           initial_prompt_ context_ in
  let history_ := [current_output] in
  let! out := refine_loop self context_ (Z.to_nat (max_iterations self)) 0
                current_output PyFloat.c0_0 history_ in
  let '(current_output, quality_score_, history_) := out in
  ret {| final_output := current_output;
         quality_score := quality_score_;
         iterations := length history_;
         history := history_;
         metadata := {| initial_prompt := initial_prompt_;
                        context := context_ |} |}.

(** Running [execute] on the pipeline's own registry, from an empty
    observation list. *)
Definition run (self : t) (initial_prompt_ : string)
    (context_ : option kwargs) : Result RefinementResult * St :=
  execute self initial_prompt_ context_
    {| fw := framework self; dispatched := [] |}.

End CAIRPipeline.


(** ** Sequences of calls on a registry *)

Module Session.
Import AIFramework.

Inductive Call :=
| CallConfigure (role : Role) (provider_name model_name : string)
    (tier_ : ModelTier) (temperature_ : PyFloat.float) (kw : kwargs)
| CallDispatch (role : Role) (prompt : string)
    (context_ : option kwargs) (kw : kwargs)
| CallLoadPrompt (name filepath : string)
| CallGetPrompt (name : string).

(** The registry after one call, whether the call returned or raised. *)
Definition step (env : Env) (self : t) (c : Call) : t :=
  match c with
  | CallConfigure role pn mn tr temp kw =>
    snd (configure_agent env self role pn mn tr temp kw)
  | CallDispatch role prompt ctx kw => snd (dispatch self role prompt ctx kw)
  | CallLoadPrompt name filepath => snd (load_prompt env self name filepath)
  | CallGetPrompt _ => self
  end.

Definition run_calls (env : Env) (calls : list Call) (self : t) : t :=
  fold_left (step env) calls self.

(** The call is a [load_prompt] under the given name. *)
Definition loads (name : string) (c : Call) : bool :=
  match c with
  | CallLoadPrompt n _ => String.eqb n name
  | _ => false
  end.

End Session.

(** ** providers.py: the model lists of the vendor adapters *)

(** [get_available_models] of [OpenAIProvider], [AnthropicProvider] and
    [GeminiProvider]. *)
Definition Vendor_get_available_models (v : Vendor) : list string :=
  match v with
  | OpenAI => ["gpt-4"; "gpt-4-turbo"; "gpt-3.5-turbo"; "gpt-4o"]
  | Anthropic =>
    ["claude-3-opus-20240229"; "claude-3-sonnet-20240229";
     "claude-3-haiku-20240307"; "claude-3-5-sonnet-20240620"]
  | Gemini =>
    ["gemini-pro"; "gemini-pro-vision"; "gemini-1.5-pro"; "gemini-1.5-flash"]
  end.

(** [provider.get_available_models()] on a live instance. *)
Definition Provider_get_available_models (p : Provider) : list string :=
  match p with
  | PMock m => MockProvider.get_available_models m
  | PVendor v => Vendor_get_available_models v
  end.

(** ** cost.py *)

Module Cost.

(** A positive binary64 number, by mantissa and exponent. *)
Definition lit (m : positive) (e : Z) : PyFloat.float := S754_finite false m e.

(** One entry of [MODEL_COSTS]: USD per 1K tokens. *)
Record Pricing := { input : PyFloat.float; output : PyFloat.float }.

Definition MODEL_COSTS : gmap string Pricing :=
  list_to_map
    [ ("gpt-4",
       {| input := lit 8646911284551352 (-58) (* 0.03 *);
          output := lit 8646911284551352 (-57) (* 0.06 *) |});
      ("gpt-4-turbo",
       {| input := lit 5764607523034235 (-59) (* 0.01 *);
          output := lit 8646911284551352 (-58) (* 0.03 *) |});
      ("gpt-4o",
       {| input := lit 5764607523034235 (-60) (* 0.005 *);
          output := lit 8646911284551352 (-59) (* 0.015 *) |});
      ("gpt-3.5-turbo",
       {| input := lit 4611686018427388 (-63) (* 0.0005 *);
          output := lit 6917529027641082 (-62) (* 0.0015 *) |});
      ("claude-3-opus-20240229",
       {| input := lit 8646911284551352 (-59) (* 0.015 *);
          output := lit 5404319552844595 (-56) (* 0.075 *) |});
      ("claude-3-sonnet-20240229",
       {| input := lit 6917529027641082 (-61) (* 0.003 *);
          output := lit 8646911284551352 (-59) (* 0.015 *) |});
      ("claude-3-5-sonnet-20240620",
       {| input := lit 6917529027641082 (-61) (* 0.003 *);
          output := lit 8646911284551352 (-59) (* 0.015 *) |});
      ("claude-3-haiku-20240307",
       {| input := lit 4611686018427388 (-64) (* 0.00025 *);
          output := lit 5764607523034235 (-62) (* 0.00125 *) |});
      ("gemini-pro",
       {| input := lit 4611686018427388 (-64) (* 0.00025 *);
          output := lit 4611686018427388 (-63) (* 0.0005 *) |});
      ("gemini-1.5-pro",
       {| input := lit 8070450532247929 (-61) (* 0.0035 *);
          output := lit 6052837899185947 (-59) (* 0.0105 *) |});
      ("gemini-1.5-flash",
       {| input := lit 6456360425798343 (-64) (* 0.00035 *);
          output := lit 4842270319348757 (-62) (* 0.00105 *) |}) ].

(** What a method of the tracker does: it returns, or the division of
    its token count overflows. *)
Inductive Outcome (A : Type) :=
| Returns (a : A)
| RaisesOverflowError.
Arguments Returns {A} a.
Arguments RaisesOverflowError {A}.

(** A Python [int] as the operand of a true division: the integer
    itself, with exponent 0. *)
Definition operand (a : Z) : PyFloat.float :=
  match a with
  | Z0 => S754_zero false
  | Zpos p => S754_finite false p 0
  | Zneg p => S754_finite true p 0
  end.

(** [tokens / 1000] on a Python [int]: the quotient rounded once to the
    nearest binary64 number, [OverflowError] when that is out of range. *)
Definition per_thousand (tokens : Z) : Outcome PyFloat.float :=
  match SFdiv prec emax (operand tokens) (operand 1000) with
  | S754_infinity _ => RaisesOverflowError
  | q => Returns q
  end.

(** One entry of [call_history]. *)
Record Call := {
  model : string;
  input_tokens : Z;
  output_tokens : Z;
  cost : PyFloat.float
}.

End Cost.

Module CostTracker.
Import Cost.

Record t := {
  total_input_tokens : Z;
  total_output_tokens : Z;
  total_cost : PyFloat.float;
  call_history : list Call
}.

(** [__init__] *)
Definition init : t :=
  {| total_input_tokens := 0; total_output_tokens := 0;
     total_cost := PyFloat.c0_0; call_history := [] |}.

Definition estimate_cost (self : t) (model_ : string)
    (input_tokens_ output_tokens_ : Z) : Outcome PyFloat.float :=
  match MODEL_COSTS !! model_ with
  | None => Returns PyFloat.c0_0
  | Some pricing =>
    match per_thousand input_tokens_ with
    | RaisesOverflowError => RaisesOverflowError
    | Returns thousands_in =>
      let input_cost := PyFloat.mul thousands_in (input pricing) in
      match per_thousand output_tokens_ with
      | RaisesOverflowError => RaisesOverflowError
      | Returns thousands_out =>
        let output_cost := PyFloat.mul thousands_out (output pricing) in
        Returns (PyFloat.add input_cost output_cost)
      end
    end
  end.

Definition add_call (self : t) (model_ : string)
    (input_tokens_ output_tokens_ : Z) (cost_ : option PyFloat.float)
  : Outcome unit * t :=
  let estimated :=
    match cost_ with
    | None => estimate_cost self model_ input_tokens_ output_tokens_
    | Some c => Returns c
    end in
  match estimated with
  | RaisesOverflowError => (RaisesOverflowError, self)
  | Returns c =>
    (Returns tt,
     {| total_input_tokens := total_input_tokens self + input_tokens_;
        total_output_tokens := total_output_tokens self + output_tokens_;
        total_cost := PyFloat.add (total_cost self) c;
        call_history :=
          (call_history self
             ++ [ {| model := model_; input_tokens := input_tokens_;
                     output_tokens := output_tokens_; cost := c |} ])%list |})
  end.

(** The dictionary [get_summary] returns. *)
Record Summary := {
  total_calls : nat;
  summary_input_tokens : Z;   (* "total_input_tokens" *)
  summary_output_tokens : Z;  (* "total_output_tokens" *)
  total_tokens : Z;
  total_cost_usd : PyFloat.float
}.

Definition get_summary (self : t) : Summary :=
  {| total_calls := length (call_history self);
     summary_input_tokens := total_input_tokens self;
     summary_output_tokens := total_output_tokens self;
     total_tokens := total_input_tokens self + total_output_tokens self;
     total_cost_usd := total_cost self |}.

Definition reset (self : t) : t := init.

End CostTracker.

(** * Vocabulary of the properties *)

(** ** The mock provider *)

Module MockProviderSpec.
Import MockProvider.

(** The part of [prompt] that the answer quotes. *)
Definition excerpt (prompt : string) : string := String.substring 0 50 prompt.

(** The string of [n] times the letter X. *)
Definition xs (n : nat) : string :=
  String.string_of_list_ascii (List.repeat (Ascii.ascii_of_nat 88) n).

End MockProviderSpec.

(** ** The registry *)

Module AIFrameworkSpec.
Import AIFramework Session.

Definition binding (provider_name model_name : string) (tier_ : ModelTier)
    (temperature_ : PyFloat.float) (kw : kwargs) : AgentConfig :=
  {| provider := provider_name; model := model_name; tier := tier_;
     temperature := temperature_; extra := kw |}.



(** How a bag of options binds the parameters of [generate]: the entry
    [max_tokens] binds the parameter of that name, [None] by default, and
    the other entries are its [**kwargs]. *)
Definition max_tokens_of (kw : kwargs) : PyVal :=
  default VNone (kw !! "max_tokens").
Definition rest_of (kw : kwargs) : kwargs := delete "max_tokens" kw.

(** The options of the binding and those of the call, merged: the
    caller's over the binding's. *)
Definition merged (cfg : AgentConfig) (kw : kwargs) : kwargs :=
  kw ∪ extra cfg.

(** The registry after the call of [generate] has left the handle [p']
    under the name of the binding. *)
Definition with_handle (self : t) (cfg : AgentConfig) (p' : Provider) : t :=
  {| _agents := _agents self;
     _providers := <[provider cfg := p']> (_providers self);
     _prompts := _prompts self |}.

(** [dispatch] as the specification reads it: one call of [generate] on
    the handle of the role's binding, a mock provider (whose method is
    [generate]) or a vendor adapter, with the prompt, the bound model, the
    bound temperature and the merged options, whose answer is returned as
    it is. *)
Definition forwards_merged (env : Env) (generate : GenerateMethod)
    (self : t) (role : Role) (prompt : string) (ctx : option kwargs)
    (kw : kwargs) : Prop :=
  forall cfg p,
    _agents self !! role = Some cfg ->
    _providers self !! provider cfg = Some p ->
    let options := merged cfg kw in
    dispatch_via generate self role prompt ctx kw
    = match p with
      | PMock m =>
        let call :=
          generate m prompt (model cfg) (temperature cfg)
            (max_tokens_of options) (rest_of options) in
        (Ok (fst call), with_handle self cfg (PMock (snd call)))
      | PVendor v =>
        (vendor_generate env v prompt (model cfg) (temperature cfg)
           (max_tokens_of options) (rest_of options),
         self)
      end.

(** The [generate] of a subclass of [MockProvider] that tells whether it
    was given an option [seed]. *)
Definition seed_probe : GenerateMethod :=
  fun self prompt model temperature max_tokens kw =>
    (match kw !! "seed" with
     | Some _ => "seed given"
     | None => "no seed"
     end,
     {| MockProvider.call_count := MockProvider.call_count self + 1 |}).

(** An environment where the vendor SDKs are installed and answer. *)
Definition sdk_env : Env :=
  {| vendor_ctor := fun _ => CtorReturns;
     vendor_generate := fun _ _ _ _ _ _ => Ok "hello";
     read_file := fun _ => None;
     read_failure := fun _ => FailsOSError |}.

(** An environment without any vendor SDK. *)
Definition bare_env : Env :=
  {| vendor_ctor := fun _ => CtorImportError;
     vendor_generate := fun v _ _ _ _ _ => Raise (VendorError v);
     read_file := fun _ => None;
     read_failure := fun _ => FailsOSError |}.

Definition openai_registry : t :=
  snd (configure_agent sdk_env init GENERATOR "openai" "gpt-4" PRO
         PyFloat.c0_7 ∅).

Definition mock_registry : t :=
  snd (configure_agent bare_env init GENERATOR "test" "test-model" PRO
         PyFloat.c0_7 ∅).

(** A binding that stores an extra option. *)
Definition seeded_registry : t :=
  snd (configure_agent bare_env init GENERATOR "test" "test-model" PRO
         PyFloat.c0_7 {[ "seed" := VInt 42 ]}).

(** An environment with one readable file, the prompt file of the test
    suite. *)
Definition test_prompt_content : string :=
  "This is a test prompt with {placeholder}".

Definition file_env : Env :=
  {| vendor_ctor := fun _ => CtorImportError;
     vendor_generate := fun v _ _ _ _ _ => Raise (VendorError v);
     read_file := fun filepath =>
       if String.eqb filepath "test_prompt.txt"
       then Some test_prompt_content else None;
     read_failure := fun filepath =>
       if String.eqb filepath "binary.dat" then FailsUnicodeDecodeError
       else FailsOSError |}.

End AIFrameworkSpec.

(** ** The refinement pipeline *)

Module CAIRPipelineSpec.
Import AIFramework AIFrameworkSpec CAIRPipeline.

(** The number of rounds the loop runs with [rounds] indices left from
    [iteration] on: it leaves at the first index whose score passes the
    threshold. *)
Fixpoint rounds_run (threshold : PyFloat.float) (rounds : nat)
    (iteration : Z) : nat :=
  match rounds with
  | O => O
  | S rounds' =>
    if PyFloat.ge (placeholder_score iteration) threshold then 1%nat
    else S (rounds_run threshold rounds' (iteration + 1))
  end.

(** The score the loop leaves in [quality_score], [q0] when no round ran. *)
Fixpoint last_score (threshold : PyFloat.float) (rounds : nat)
    (iteration : Z) (q0 : PyFloat.float) : PyFloat.float :=
  match rounds with
  | O => q0
  | S rounds' =>
    let q := placeholder_score iteration in
    if PyFloat.ge q threshold then q
    else last_score threshold rounds' (iteration + 1) q
  end.

(** The roles dispatched to by [k] rounds, in order. *)
Fixpoint rounds_roles (self : t) (k : nat) : list Role :=
  match k with
  | O => []
  | S k' => reviewer_role self :: refiner_role self :: rounds_roles self k'
  end.

(** The number of dispatches to a role in an observation list. *)
Definition dispatches_to (role : Role) (roles : list Role) : nat :=
  length (filter (fun r => r = role) roles).

(** The role has a binding and the provider name of the binding is
    cached: what [configure_agent] establishes when it returns. *)
Definition ready (f : AIFramework.t) (role : Role) : Prop :=
  exists cfg,
    _agents f !! role = Some cfg /\ is_Some (_providers f !! provider cfg).

(** [CAIRPipeline(max_iterations=n, quality_threshold=q)] with the three
    roles of the loop configured on the provider name "test", as the test
    suite does. *)
Definition test_pipeline (n : Z) (q : PyFloat.float) : t :=
  let p := init GENERATOR REVIEWER REFINER QA_ANALYST n q in
  let configure f role :=
    snd (configure_agent bare_env f role "test" "test-model" PRO
           PyFloat.c0_7 ∅) in
  {| generator_role := generator_role p;
     reviewer_role := reviewer_role p;
     refiner_role := refiner_role p;
     qa_role := qa_role p;
     max_iterations := max_iterations p;
     quality_threshold := quality_threshold p;
     framework :=
       configure (configure (configure (framework p) GENERATOR) REVIEWER)
         REFINER |}.

(** The thresholds [0.75], [0.85] and [0.9]. *)
Definition c0_75 : PyFloat.float := S754_finite false 6755399441055744 (-53).
Definition c0_85 : PyFloat.float := S754_finite false 7656119366529843 (-53).
Definition c0_9 : PyFloat.float := S754_finite false 8106479329266893 (-53).

Definition test_context : option kwargs := Some {[ "key" := VStr "value" ]}.

Ltac solve_ready :=
  eexists; split; [reflexivity | eexists; reflexivity].

(** A pipeline with other roles over vendor handles, in an environment
    where the SDKs are installed. *)
Definition vendor_pipeline (n : Z) (q : PyFloat.float) : t :=
  let configure f role :=
    snd (configure_agent sdk_env f role "openai" "gpt-4" FLASH
           PyFloat.c0_1 ∅) in
  {| generator_role := ORCHESTRATOR;
     reviewer_role := QA_ANALYST;
     refiner_role := REFINER;
     qa_role := QA_ANALYST;
     max_iterations := n;
     quality_threshold := q;
     framework :=
       configure (configure (configure AIFramework.init ORCHESTRATOR)
                    QA_ANALYST) REFINER |}.

Ltac compare_cases :=
  repeat match goal with
  | H : context [Pos.compare_cont Eq ?a ?b] |- _ =>
    change (Pos.compare_cont Eq a b) with (Pos.compare a b) in H
  | |- context [Pos.compare_cont Eq ?a ?b] =>
    change (Pos.compare_cont Eq a b) with (Pos.compare a b)
  end;
  repeat match goal with
  | H : context [Z.compare ?a ?b] |- _ => destruct (Z.compare_spec a b)
  | |- context [Z.compare ?a ?b] => destruct (Z.compare_spec a b)
  | H : context [Pos.compare ?a ?b] |- _ => destruct (Pos.compare_spec a b)
  | |- context [Pos.compare ?a ?b] => destruct (Pos.compare_spec a b)
  end;
  cbn in *; subst; try discriminate; try reflexivity; try lia.

(** The scores of the rounds [0 .. n] are numbers and do not decrease. *)
Definition scores_sorted (n : nat) : bool :=
  forallb (fun i =>
             SFleb (placeholder_score (Z.of_nat i))
                   (placeholder_score (Z.of_nat i))
             && SFleb (placeholder_score (Z.of_nat i))
                      (placeholder_score (Z.of_nat (S i))))
          (seq 0 n).

(** The number of rounds over which the scores are evaluated below. *)
Definition score_rounds : nat := 1024.

End CAIRPipelineSpec.

(** ** The cost tracker *)

Module CostSpec.
Import Cost CostTracker.

(** The calls a user makes on a tracker. *)
Inductive Op :=
| OpAddCall (model_ : string) (input_tokens_ output_tokens_ : Z)
    (cost_ : option PyFloat.float)
| OpReset.

(** The tracker after one call, whether the call returned or raised. *)
Definition step (self : t) (op : Op) : t :=
  match op with
  | OpAddCall m i o c => snd (add_call self m i o c)
  | OpReset => reset self
  end.

Definition run_ops (ops : list Op) (self : t) : t := fold_left step ops self.

(** The sums over a call history: of the token counts, and of the costs
    added up from [0.0] in the order of the calls. *)
Definition sum_input (h : list Call) : Z :=
  foldr (fun c acc => input_tokens c + acc) 0 h.
Definition sum_output (h : list Call) : Z :=
  foldr (fun c acc => output_tokens c + acc) 0 h.
Definition sum_cost (h : list Call) : PyFloat.float :=
  fold_left (fun acc c => PyFloat.add acc (cost c)) h PyFloat.c0_0.

(** The totals are those of the history. *)
Definition consistent (self : t) : Prop :=
  total_input_tokens self = sum_input (call_history self)
  /\ total_output_tokens self = sum_output (call_history self)
  /\ total_cost self = sum_cost (call_history self).

(** The models the vendor adapters list. *)
Definition listed_models : list string :=
  (Vendor_get_available_models OpenAI
     ++ Vendor_get_available_models Anthropic
     ++ Vendor_get_available_models Gemini)%list.

(** The prices of the table, in the order of the source. *)
Definition price_list : list (string * (PyFloat.float * PyFloat.float)) :=
  (fun '(m, p) => (m, (input p, output p))) <$> map_to_list MODEL_COSTS.

End CostSpec.

(** ** The registry over sequences of calls *)

Module RegistrySpec.
Import AIFramework Session AIFrameworkSpec.

(** The class of a handle: the mock ([None]) or a vendor adapter. *)
Definition handle_class (p : Provider) : option Vendor :=
  match p with
  | PMock _ => None
  | PVendor v => Some v
  end.

(** Every binding names a cached provider. *)
Definition bound_cached (self : t) : Prop :=
  forall role cfg,
    _agents self !! role = Some cfg ->
    is_Some (_providers self !! provider cfg).

(** The call is a [configure_agent]. *)
Definition is_configure (c : Call) : bool :=
  match c with
  | CallConfigure _ _ _ _ _ _ => true
  | _ => false
  end.


(** An environment where the OpenAI client cannot be built although the
    package is installed. *)
Definition broken_env : Env :=
  {| vendor_ctor := fun v =>
       match v with
       | OpenAI => CtorRaises
       | _ => CtorImportError
       end;
     vendor_generate := fun v _ _ _ _ _ => Raise (VendorError v);
     read_file := fun _ => None;
     read_failure := fun _ => FailsOSError |}.

End RegistrySpec.

(** ** Runs of the pipeline *)

Module RunSpec.
Import AIFramework AIFrameworkSpec RegistrySpec CAIRPipeline CAIRPipelineSpec.

(** The threshold [1.0]. *)
Definition c1_0 : PyFloat.float := S754_finite false 4503599627370496 (-52).

(** Two registries with the same bindings and, under each name, handles
    of the same class. *)
Definition akin (f f' : AIFramework.t) : Prop :=
  _agents f = _agents f'
  /\ forall name,
       handle_class <$> _providers f !! name
       = handle_class <$> _providers f' !! name.

(** What an answer of [dispatch] begins with, before "] Response to: ". *)
Definition reply_prefix (f : AIFramework.t) (role : Role) : string :=
  match _agents f !! role with
  | None => ""
  | Some cfg =>
    match _providers f !! provider cfg with
    | Some (PMock _) => "[Mock " +:+ model cfg
    | Some (PVendor _) => "[" +:+ Role_value role
    | None => ""
    end
  end.

Definition reply (f : AIFramework.t) (role : Role) (prompt : string) : string :=
  reply_prefix f role +:+ "] Response to: "
    +:+ String.substring 0 50 prompt +:+ "...".

(** The draft a round of refinement produces. *)
Definition refined_draft (f : AIFramework.t) (reviewer refiner : Role)
  : string :=
  reply_prefix f refiner +:+ "] Response to: "
    +:+ "Refine based on feedback: "
    +:+ String.substring 0 24
          (reply_prefix f reviewer +:+ "] Response to: "
             +:+ "Review this output: ")
    +:+ "...".

(** The three roles of the loop are bound to one provider name. *)
Definition share (self : t) (name : string) : Prop :=
  forall role,
    role = generator_role self \/ role = reviewer_role self
    \/ role = refiner_role self ->
    exists cfg,
      _agents (framework self) !! role = Some cfg /\ provider cfg = name.

(** A pipeline whose reviewer has no binding. *)
Definition generator_only (n : Z) (q : PyFloat.float) : t :=
  {| generator_role := GENERATOR;
     reviewer_role := REVIEWER;
     refiner_role := REFINER;
     qa_role := QA_ANALYST;
     max_iterations := n;
     quality_threshold := q;
     framework := mock_registry |}.

(** The dispatches of [k] rounds that start from the draft [cur], with
    their prompts: in each round one to the reviewer on the current
    draft and one to the refiner on the reviewer's answer. *)
Fixpoint round_calls (f : AIFramework.t) (reviewer refiner : Role)
    (k : nat) (cur : string) : list (Role * string) :=
  match k with
  | O => []
  | S k' =>
    let review := "Review this output: " +:+ cur in
    (reviewer, review)
      :: (refiner, "Refine based on feedback: " +:+ reply f reviewer review)
      :: round_calls f reviewer refiner k' (refined_draft f reviewer refiner)
  end.

(** The registry after the dispatches of a list, made one after the
    other with the context [ctx] and no option. *)
Definition after_dispatches (ctx : option kwargs)
    (calls : list (Role * string)) (f : AIFramework.t) : AIFramework.t :=
  fold_left (fun f c => snd (dispatch f c.1 c.2 ctx ∅)) calls f.

(** The binary64 number [0.7 + j * 0.1]. *)
#[warning="-inexact-float"]
Definition binary64_score (j : Z) : spec_float :=
  SFadd prec emax (Prim2SF 0.7%float)
    (SFmul prec emax (binary_normalize prec emax j 0 false)
       (Prim2SF 0.1%float)).

(** A run under a budget of [N] rounds whose scores never reach the
    threshold, as the specification reads it: [N + 1] drafts, [N]
    dispatches to the reviewer role and [N] to the refiner role. *)
Definition each_role_N_times (self : t) (prompt : string)
    (ctx : option kwargs) (N : nat) : Prop :=
  max_iterations self = Z.of_nat N ->
  ready (framework self) (generator_role self) ->
  ready (framework self) (reviewer_role self) ->
  ready (framework self) (refiner_role self) ->
  (forall i : nat, (i < N)%nat ->
     SFleb (quality_threshold self) (binary64_score (Z.of_nat i)) = false) ->
  exists r s',
    run self prompt ctx = (Ok r, s')
    /\ length (history r) = S N
    /\ dispatches_to (reviewer_role self) (dispatched s').*1 = N
    /\ dispatches_to (refiner_role self) (dispatched s').*1 = N.

(** [CAIRPipeline(generator_role=..., reviewer_role=..., refiner_role=...,
    max_iterations=n, quality_threshold=q)] with its three roles
    configured on the provider name "test". *)
Definition pipeline_of_roles (generator reviewer refiner : Role) (n : Z)
    (q : PyFloat.float) : t :=
  let configure f role :=
    snd (configure_agent bare_env f role "test" "test-model" PRO
           PyFloat.c0_7 ∅) in
  {| generator_role := generator;
     reviewer_role := reviewer;
     refiner_role := refiner;
     qa_role := QA_ANALYST;
     max_iterations := n;
     quality_threshold := q;
     framework :=
       configure (configure (configure AIFramework.init generator) reviewer)
         refiner |}.

End RunSpec.

(** ** Rounding to binary64

    What [binary_round_aux] computes on a positive mantissa of at least
    53 digits whose number is in the normal range, in terms of integer
    division: the vocabulary in which the scores of the rounds are shown
    never to decrease. *)

Module Binary64Spec.
#[local] Close Scope string_scope.

(** [mrs] is [X] shifted right by [k] bits, with its round and sticky
    bits. *)
Definition shifted (X k : Z) (mrs : shr_record) : Prop :=
  shr_m mrs = X / 2 ^ k
  /\ shr_r mrs = (if k =? 0 then false else Z.odd (X / 2 ^ (k - 1)))
  /\ shr_s mrs = (if k =? 0 then false else negb (X mod 2 ^ (k - 1) =? 0)).

(** Rounding [X / 2^k] to the nearest integer, ties to even. *)
Definition rne (X k : Z) : Z :=
  let q := X / 2 ^ k in
  let rem := X mod 2 ^ k in
  if (2 ^ k <? 2 * rem) || ((2 ^ k =? 2 * rem) && Z.odd q) then q + 1 else q.

(** The float of a positive mantissa and an exponent, infinite when
    the exponent is out of range. *)
Definition out (M E : Z) : spec_float :=
  match M with
  | Zpos p => if E <=? 971 then S754_finite false p E else S754_infinity false
  | _ => S754_nan
  end.

(** The mantissa has at least 53 digits and the number is in the normal
    range. *)
Definition aligned (m e : Z) : Prop :=
  0 < m /\ 53 <= Zdigits2 m /\ -1074 <= e + Zdigits2 m - 53.

(** Rounding [m * 2^e] to binary64. *)
Definition round_pos (m e : Z) : spec_float :=
  let n := Zdigits2 m - 53 in
  let m1 := rne m n in
  if m1 <? 2 ^ 53 then out m1 (e + n) else out (2 ^ 52) (e + n + 1).

(** A positive binary64 number with a full mantissa and an exponent of
    at least [L], or the positive infinity. *)
Definition good (L : Z) (f : spec_float) : Prop :=
  f = S754_infinity false
  \/ exists P E,
       f = S754_finite false P E /\ 2 ^ 52 <= Zpos P < 2 ^ 53 /\ L <= E.

End Binary64Spec.

(** * Properties *)

(** ** Floats *)

(** The three constants of [PyFloat] are the binary64 values of the
    decimal literals of the source. *)
#[warning="-inexact-float"]
Lemma literals_binary64 :
  Prim2SF 0.0%float = PyFloat.c0_0
  /\ Prim2SF 0.7%float = PyFloat.c0_7
  /\ Prim2SF 0.1%float = PyFloat.c0_1.
Proof. repeat split; vm_compute; reflexivity. Qed.

#[warning="-inexact-float"]
Lemma thresholds_binary64 :
  Prim2SF 0.75%float = CAIRPipelineSpec.c0_75
  /\ Prim2SF 0.85%float = CAIRPipelineSpec.c0_85
  /\ Prim2SF 0.9%float = CAIRPipelineSpec.c0_9.
Proof. repeat split; vm_compute; reflexivity. Qed.

(** ** Slices *)

Section Slices.

Lemma substring_0_length (n : nat) (s : string) :
  String.length (String.substring 0 n s) = Nat.min n (String.length s).
Proof.
  revert s. induction n as [|n IH]; intros s.
  - destruct s; reflexivity.
  - destruct s as [|c s]; simpl; [reflexivity|]. now rewrite IH.
Qed.

Lemma substring_0_prefix (n : nat) (s : string) :
  String.prefix (String.substring 0 n s) s = true.
Proof.
  revert s. induction n as [|n IH]; intros s.
  - destruct s; reflexivity.
  - destruct s as [|c s]; simpl; [reflexivity|].
    destruct (Ascii.ascii_dec c c) as [_|Hne]; [apply IH | congruence].
Qed.

Lemma substring_0_app (pre rest : string) :
  String.substring 0 (String.length pre) (pre +:+ rest) = pre.
Proof.
  induction pre as [|c pre IH]; simpl.
  - destruct rest; reflexivity.
  - now rewrite IH.
Qed.

Lemma substring_0_short (n : nat) (s : string) :
  (String.length s <= n)%nat -> String.substring 0 n s = s.
Proof.
  revert s. induction n as [|n IH]; intros s Hlen.
  - destruct s; simpl in *; [reflexivity | lia].
  - destruct s as [|c s]; simpl in *; [reflexivity|].
    rewrite IH; [reflexivity | lia].
Qed.

End Slices.

(** ** The mock provider *)

Module MockProviderFacts.
Import MockProvider MockProviderSpec.

Lemma generate_text self prompt model temperature max_tokens kw :
  fst (generate self prompt model temperature max_tokens kw)
  = "[Mock " +:+ model +:+ "] Response to: " +:+ excerpt prompt +:+ "...".
Proof. reflexivity. Qed.

(** C6. [MockProvider.generate] is a total function of its arguments:
    its text is "[Mock <model>] Response to: <excerpt>..." where the
    excerpt is the prefix of the prompt of length min(50, len(prompt));
    the text is the same whatever the temperature, [max_tokens], the
    extra options and the counter are, and whatever follows the first 50
    characters of the prompt; and the call adds exactly one to
    [call_count]. *)
Theorem generate_echo (self : t) (prompt model : string)
    (temperature : PyFloat.float) (max_tokens : PyVal) (kw : kwargs) :
  let text := fst (generate self prompt model temperature max_tokens kw) in
  let self' := snd (generate self prompt model temperature max_tokens kw) in
  text = "[Mock " +:+ model +:+ "] Response to: " +:+ excerpt prompt +:+ "..."
  /\ String.prefix (excerpt prompt) prompt = true
  /\ String.length (excerpt prompt) = Nat.min 50 (String.length prompt)
  /\ (forall other temperature' max_tokens' kw',
        fst (generate other prompt model temperature' max_tokens' kw') = text)
  /\ (forall head tail tail',
        String.length head = 50%nat ->
        prompt = head +:+ tail ->
        fst (generate self (head +:+ tail') model temperature max_tokens kw)
        = text)
  /\ call_count self' = call_count self + 1.
Proof.
  cbn zeta. repeat split.
  - apply substring_0_prefix.
  - apply substring_0_length.
  - intros head tail tail' Hlen ->. unfold generate; cbn [fst].
    rewrite <- Hlen, !substring_0_app. reflexivity.
Qed.

Lemma generate_echo_witness :
  fst (generate init (xs 100) "m" PyFloat.c0_7 VNone ∅)
  = "[Mock m] Response to: " +:+ xs 50 +:+ "..."
  /\ fst (generate init (xs 50 +:+ "and more") "m" PyFloat.c0_7 VNone ∅)
     = fst (generate init (xs 100) "m" PyFloat.c0_7 VNone ∅)
  /\ call_count (snd (generate init (xs 100) "m" PyFloat.c0_7 VNone ∅)) = 1.
Proof.
  destruct (generate_echo init (xs 100) "m" PyFloat.c0_7 VNone ∅)
    as (Htext & _ & _ & _ & Htail & Hcount).
  split; [exact Htext|]. split; [|exact Hcount].
  apply (Htail (xs 50) (xs 50) "and more"); reflexivity.
Defined.

(** The scenario of the specification: a prompt of a hundred X is quoted
    up to its fiftieth character and no further. *)
Example generate_hundred_x :
  fst (generate init (xs 100) "m" PyFloat.c0_7 VNone ∅)
  = "[Mock m] Response to: " +:+ xs 50 +:+ "...".
Proof. reflexivity. Qed.

End MockProviderFacts.

(** ** The registry *)

Module AIFrameworkFacts.
Import AIFramework Session AIFrameworkSpec.

(** *** Dispatch *)

(** Only the handle under the dispatched role's provider name can change,
    and no name enters or leaves the cache. *)
Lemma dispatch_agents self role prompt ctx kw :
  _agents (snd (dispatch self role prompt ctx kw)) = _agents self.
Proof.
  unfold dispatch, dispatch_via. destruct (_agents self !! role) as [cfg|]; [|reflexivity].
  destruct (_providers self !! provider cfg) as [[m|v]|]; try reflexivity.
  destruct (clashes kw); reflexivity.
Qed.

Lemma dispatch_prompts self role prompt ctx kw :
  _prompts (snd (dispatch self role prompt ctx kw)) = _prompts self.
Proof.
  unfold dispatch, dispatch_via. destruct (_agents self !! role) as [cfg|]; [|reflexivity].
  destruct (_providers self !! provider cfg) as [[m|v]|]; try reflexivity.
  destruct (clashes kw); reflexivity.
Qed.

Lemma dispatch_cached self role prompt ctx kw (name : string) :
  is_Some (_providers (snd (dispatch self role prompt ctx kw)) !! name)
  <-> is_Some (_providers self !! name).
Proof.
  unfold dispatch, dispatch_via. destruct (_agents self !! role) as [cfg|]; [|reflexivity].
  destruct (_providers self !! provider cfg) as [[m|v]|] eqn:Hp;
    try reflexivity.
  destruct (clashes kw); [reflexivity|]. cbn.
  destruct (decide (provider cfg = name)) as [<-|Hne].
  - rewrite lookup_insert_eq, Hp. split; eauto.
  - rewrite lookup_insert_ne by done. reflexivity.
Qed.

Lemma clashes_empty : clashes ∅ = false.
Proof. reflexivity. Qed.

(** The two branches of [dispatch] on a configured role. *)
Lemma dispatch_mock self role prompt ctx kw cfg m :
  _agents self !! role = Some cfg ->
  _providers self !! provider cfg = Some (PMock m) ->
  clashes kw = false ->
  dispatch self role prompt ctx kw
  = (Ok ("[Mock " +:+ model cfg +:+ "] Response to: "
           +:+ String.substring 0 50 prompt +:+ "..."),
     {| _agents := _agents self;
        _providers :=
          <[provider cfg := PMock {| MockProvider.call_count :=
                                       MockProvider.call_count m + 1 |}]>
            (_providers self);
        _prompts := _prompts self |}).
Proof.
  intros Hcfg Hm Hkw. unfold dispatch, dispatch_via. now rewrite Hcfg, Hm, Hkw.
Qed.

Lemma dispatch_vendor self role prompt ctx kw cfg v :
  _agents self !! role = Some cfg ->
  _providers self !! provider cfg = Some (PVendor v) ->
  dispatch self role prompt ctx kw = (Ok (placeholder role prompt), self).
Proof. intros Hcfg Hv. unfold dispatch, dispatch_via. now rewrite Hcfg, Hv. Qed.

(** C4. Dispatching to a role without a binding raises
    [RoleNotConfiguredError] carrying the role's value, and the registry
    that comes back is the one that went in: bindings, provider cache
    (and so every mock provider's [call_count]) and prompt table. *)
Theorem dispatch_unconfigured (self : t) (role : Role) (prompt : string)
    (ctx : option kwargs) (kw : kwargs) :
  _agents self !! role = None ->
  dispatch self role prompt ctx kw
  = (Raise (RoleNotConfiguredError (Role_value role)), self).
Proof. intros Hnone. unfold dispatch, dispatch_via. now rewrite Hnone. Qed.

Lemma dispatch_unconfigured_witness :
  dispatch init GENERATOR "Test prompt" None ∅
  = (Raise (RoleNotConfiguredError "generator"), init).
Proof. apply (dispatch_unconfigured init GENERATOR). reflexivity. Defined.

(** *** Configuration *)

Lemma configure_agents env self role pn mn tr temp kw :
  _agents (snd (configure_agent env self role pn mn tr temp kw))
  = <[role := binding pn mn tr temp kw]> (_agents self).
Proof.
  unfold configure_agent; cbn.
  destruct (_providers self !! pn); [reflexivity|].
  destruct (_get_provider env pn); reflexivity.
Qed.

Lemma configure_prompts env self role pn mn tr temp kw :
  _prompts (snd (configure_agent env self role pn mn tr temp kw))
  = _prompts self.
Proof.
  unfold configure_agent; cbn.
  destruct (_providers self !! pn); [reflexivity|].
  destruct (_get_provider env pn); reflexivity.
Qed.

(** C7. After two configurations of one role, whatever the two bindings
    and whether or not the calls returned, the role's entry is the second
    binding alone, extra options included (nothing of the first is kept),
    and the entries of the other roles are what they were. *)
Theorem configure_overwrites (env : Env) (self : t) (role : Role)
    (pn1 mn1 : string) (tr1 : ModelTier) (temp1 : PyFloat.float)
    (kw1 : kwargs)
    (pn2 mn2 : string) (tr2 : ModelTier) (temp2 : PyFloat.float)
    (kw2 : kwargs) :
  let self1 := snd (configure_agent env self role pn1 mn1 tr1 temp1 kw1) in
  let self2 := snd (configure_agent env self1 role pn2 mn2 tr2 temp2 kw2) in
  _agents self2 !! role = Some (binding pn2 mn2 tr2 temp2 kw2)
  /\ _agents self2 = <[role := binding pn2 mn2 tr2 temp2 kw2]> (_agents self)
  /\ (forall other, other <> role ->
        _agents self2 !! other = _agents self !! other).
Proof.
  cbn zeta. rewrite !configure_agents, insert_insert_eq. repeat split.
  - apply lookup_insert_eq.
  - intros other Hne. now rewrite lookup_insert_ne.
Qed.

Lemma configure_overwrites_witness :
  let self1 :=
    snd (configure_agent bare_env init GENERATOR "openai" "gpt-4" PRO
           PyFloat.c0_7 {[ "seed" := VInt 1 ]}) in
  let self2 :=
    snd (configure_agent bare_env self1 GENERATOR "test" "test-model" FLASH
           PyFloat.c0_1 ∅) in
  _agents self2 !! GENERATOR
  = Some (binding "test" "test-model" FLASH PyFloat.c0_1 ∅).
Proof.
  exact (proj1 (configure_overwrites bare_env init GENERATOR
                  "openai" "gpt-4" PRO PyFloat.c0_7 {[ "seed" := VInt 1 ]}
                  "test" "test-model" FLASH PyFloat.c0_1 ∅)).
Defined.

(** *** Prompts *)

Lemma step_prompts env self c name :
  loads name c = false ->
  _prompts (step env self c) !! name = _prompts self !! name.
Proof.
  destruct c as [role pn mn tr temp kw|role prompt ctx kw|n filepath|n];
    cbn [step loads]; intros Hl.
  - now rewrite configure_prompts.
  - now rewrite dispatch_prompts.
  - unfold load_prompt. destruct (read_file env filepath); [|reflexivity].
    cbn. apply String.eqb_neq in Hl. now rewrite lookup_insert_ne.
  - reflexivity.
Qed.

Lemma run_calls_prompts env calls self name :
  forallb (fun c => negb (loads name c)) calls = true ->
  _prompts (run_calls env calls self) !! name = _prompts self !! name.
Proof.
  revert self. induction calls as [|c calls IH]; intros self Hall.
  - reflexivity.
  - cbn in Hall. apply andb_prop in Hall as [Hc Hall].
    unfold run_calls in *. cbn [fold_left].
    rewrite IH by exact Hall. apply step_prompts.
    now apply negb_true_iff.
Qed.

(** C8. If reading the file gives [content], [load_prompt] returns and
    [get_prompt] on the same name then returns [content] itself, also
    after any further calls that do not load that name again; and on a
    fresh registry, after any calls none of which loads the name,
    [get_prompt] raises [PromptNotFoundError] with that name. *)
Theorem prompt_round_trip (env : Env) (name : string) :
  (forall self filepath content,
      read_file env filepath = Some content ->
      exists self',
        load_prompt env self name filepath = (Ok tt, self')
        /\ get_prompt self' name = Ok content
        /\ forall calls,
             forallb (fun c => negb (loads name c)) calls = true ->
             get_prompt (run_calls env calls self') name = Ok content)
  /\ (forall calls,
        forallb (fun c => negb (loads name c)) calls = true ->
        get_prompt (run_calls env calls init) name
        = Raise (PromptNotFoundError name)).
Proof.
  split.
  - intros self filepath content Hread. unfold load_prompt. rewrite Hread.
    eexists; split; [reflexivity|].
    assert (Hget : forall calls,
               forallb (fun c => negb (loads name c)) calls = true ->
               get_prompt
                 (run_calls env calls
                    {| _agents := _agents self;
                       _providers := _providers self;
                       _prompts := <[name := content]> (_prompts self) |})
                 name = Ok content).
    { intros calls Hall. unfold get_prompt.
      rewrite run_calls_prompts by exact Hall. cbn.
      now rewrite lookup_insert_eq. }
    split; [exact (Hget [] eq_refl) | exact Hget].
  - intros calls Hall. unfold get_prompt.
    rewrite run_calls_prompts by exact Hall. reflexivity.
Qed.

Lemma prompt_round_trip_witness :
  (exists self',
      load_prompt file_env init "test" "test_prompt.txt" = (Ok tt, self')
      /\ get_prompt self' "test" = Ok test_prompt_content)
  /\ get_prompt
       (run_calls file_env
          [CallLoadPrompt "other" "test_prompt.txt";
           CallDispatch GENERATOR "Test prompt" None ∅] init) "test"
     = Raise (PromptNotFoundError "test").
Proof.
  destruct (prompt_round_trip file_env "test") as [Hload Hnever]. split.
  - destruct (Hload init "test_prompt.txt" test_prompt_content eq_refl)
      as (self' & Hl & Hg & _).
    exists self'. split; assumption.
  - apply Hnever. reflexivity.
Defined.

(** *** Provider handles *)


Lemma _get_provider_returns env name :
  (forall v, vendor_ctor env v <> CtorRaises) ->
  exists p, _get_provider env name = Ok p.
Proof.
  intros Hctor. unfold _get_provider, try_vendor.
  repeat match goal with
         | |- context [if ?b then _ else _] => destruct b
         | |- context [vendor_ctor env ?v] =>
           let H := fresh in
           pose proof (Hctor v) as H; destruct (vendor_ctor env v)
         end; try congruence; eauto.
Qed.

Lemma _get_provider_import_error env name :
  (forall v, vendor_ctor env v = CtorImportError) ->
  _get_provider env name = Ok (PMock MockProvider.init).
Proof.
  intros Himp. unfold _get_provider, try_vendor. rewrite !Himp.
  repeat match goal with |- context [if ?b then _ else _] => destruct b end;
    reflexivity.
Qed.





(** *** Dispatch on a configured role *)

(** [dispatch] whatever the [generate] method of the cached mock
    instance is. *)
Lemma dispatch_via_mock generate self role prompt ctx kw cfg m :
  _agents self !! role = Some cfg ->
  _providers self !! provider cfg = Some (PMock m) ->
  clashes kw = false ->
  dispatch_via generate self role prompt ctx kw
  = (Ok (fst (generate m prompt (model cfg) (temperature cfg)
                (max_tokens_of kw) (rest_of kw))),
     with_handle self cfg
       (PMock (snd (generate m prompt (model cfg) (temperature cfg)
                      (max_tokens_of kw) (rest_of kw))))).
Proof.
  intros Hcfg Hm Hkw. unfold dispatch_via. rewrite Hcfg, Hm, Hkw.
  unfold max_tokens_of, rest_of, with_handle.
  now destruct (generate m prompt (model cfg) (temperature cfg)
                  (default VNone (kw !! "max_tokens"))
                  (delete "max_tokens" kw)).
Qed.

Lemma dispatch_via_vendor generate self role prompt ctx kw cfg v :
  _agents self !! role = Some cfg ->
  _providers self !! provider cfg = Some (PVendor v) ->
  dispatch_via generate self role prompt ctx kw
  = (Ok (placeholder role prompt), self).
Proof. intros Hcfg Hv. unfold dispatch_via. now rewrite Hcfg, Hv. Qed.

(** C1 as stated does not hold, at three inputs.  With the generator
    bound to an OpenAI handle, [dispatch] does not return what the
    handle's [generate] answers.  With the generator bound to a mock
    handle and an option [model] in the call, [dispatch] returns no text
    of [generate].  With an option stored in the generator's binding and
    none in the call, [generate] is not given the stored option. *)
Lemma dispatch_not_as_stated :
  ~ forwards_merged sdk_env MockProvider.generate openai_registry GENERATOR
      "Test prompt" None ∅
  /\ ~ forwards_merged bare_env MockProvider.generate mock_registry GENERATOR
        "Test prompt" None {[ "model" := VStr "gpt-4" ]}
  /\ ~ forwards_merged bare_env seed_probe seeded_registry GENERATOR
        "Test prompt" None ∅.
Proof.
  split; [|split]; intros H.
  - specialize (H (binding "openai" "gpt-4" PRO PyFloat.c0_7 ∅)
                  (PVendor OpenAI) eq_refl eq_refl).
    apply (f_equal fst) in H. vm_compute in H. discriminate H.
  - specialize (H (binding "test" "test-model" PRO PyFloat.c0_7 ∅)
                  (PMock MockProvider.init) eq_refl eq_refl).
    apply (f_equal fst) in H. vm_compute in H. discriminate H.
  - specialize (H (binding "test" "test-model" PRO PyFloat.c0_7
                     {[ "seed" := VInt 42 ]})
                  (PMock MockProvider.init) eq_refl eq_refl).
    apply (f_equal fst) in H. vm_compute in H. discriminate H.
Qed.

Example dispatch_vendor_text :
  fst (dispatch openai_registry GENERATOR "Test prompt" None ∅)
  = Ok "[generator] Response to: Test prompt...".
Proof. reflexivity. Qed.

Example dispatch_seed_probe_text :
  fst (dispatch_via seed_probe seeded_registry GENERATOR "Test prompt" None ∅)
  = Ok "no seed"
  /\ fst (dispatch_via seed_probe seeded_registry GENERATOR "Test prompt" None
            {[ "seed" := VInt 7 ]})
     = Ok "seed given".
Proof. split; reflexivity. Qed.

(** C1, amended. On a role whose binding names a cached handle:
    if the handle is a mock provider and the options of the call name
    neither [model] nor [temperature], [dispatch] is one call of the
    handle's [generate], whatever that method does, with the prompt, the
    bound model, the bound temperature and the options of the call (the
    options stored in the binding are not passed), and it returns the
    text of that call as it is, the handle being left as the call leaves
    it; if the handle is a vendor adapter, [dispatch] calls no [generate]
    and returns "[<role>] Response to: <prompt[:50]>...", the registry
    being as it was. *)
Theorem dispatch_configured (generate : GenerateMethod) (self : t)
    (role : Role) (prompt : string) (ctx : option kwargs) (kw : kwargs)
    (cfg : AgentConfig) (p : Provider) :
  _agents self !! role = Some cfg ->
  _providers self !! provider cfg = Some p ->
  match p with
  | PMock m =>
    clashes kw = false ->
    let call :=
      generate m prompt (model cfg) (temperature cfg)
        (max_tokens_of kw) (rest_of kw) in
    dispatch_via generate self role prompt ctx kw
    = (Ok (fst call), with_handle self cfg (PMock (snd call)))
  | PVendor v =>
    dispatch_via generate self role prompt ctx kw
    = (Ok ("[" +:+ Role_value role +:+ "] Response to: "
             +:+ String.substring 0 50 prompt +:+ "..."),
       self)
  end.
Proof.
  intros Hcfg Hp. destruct p as [m|v].
  - intros Hkw. cbn zeta. now apply dispatch_via_mock.
  - now apply (dispatch_via_vendor generate self role prompt ctx kw cfg v).
Qed.

Lemma dispatch_configured_witness :
  dispatch mock_registry GENERATOR "Test prompt" None
    {[ "max_tokens" := VInt 100 ]}
  = (Ok "[Mock test-model] Response to: Test prompt...",
     {| _agents := _agents mock_registry;
        _providers :=
          <["test" := PMock {| MockProvider.call_count := 1 |}]>
            (_providers mock_registry);
        _prompts := _prompts mock_registry |}).
Proof.
  assert (Hcfg : _agents mock_registry !! GENERATOR
                 = Some (binding "test" "test-model" PRO PyFloat.c0_7 ∅))
    by reflexivity.
  assert (Hp : _providers mock_registry !! "test"
               = Some (PMock MockProvider.init)) by reflexivity.
  assert (Hkw : clashes {[ "max_tokens" := VInt 100 ]} = false)
    by reflexivity.
  exact (dispatch_configured MockProvider.generate mock_registry GENERATOR
           "Test prompt" None {[ "max_tokens" := VInt 100 ]} _ _ Hcfg Hp Hkw).
Defined.

End AIFrameworkFacts.

(** ** The refinement pipeline *)

Module CAIRPipelineFacts.
Import AIFramework AIFrameworkSpec AIFrameworkFacts CAIRPipeline
  CAIRPipelineSpec.

(** *** What the loop does, as functions of the budget and the threshold *)

Lemma rounds_run_le threshold rounds iteration :
  (rounds_run threshold rounds iteration <= rounds)%nat.
Proof.
  revert iteration. induction rounds as [|rounds IH]; intros iteration; cbn [rounds_run].
  - lia.
  - destruct (PyFloat.ge _ _); [lia|]. specialize (IH (iteration + 1)). lia.
Qed.

Lemma rounds_run_never threshold rounds iteration :
  (forall i : nat, (i < rounds)%nat ->
     PyFloat.ge (placeholder_score (iteration + Z.of_nat i)) threshold
     = false) ->
  rounds_run threshold rounds iteration = rounds.
Proof.
  revert iteration. induction rounds as [|rounds IH]; intros iteration Hno.
  - reflexivity.
  - cbn [rounds_run]. pose proof (Hno 0%nat ltac:(lia)) as H0.
    rewrite Z.add_0_r in H0. rewrite H0. f_equal. apply IH.
    intros i Hi. specialize (Hno (S i) ltac:(lia)).
    now replace (iteration + 1 + Z.of_nat i)
      with (iteration + Z.of_nat (S i)) by lia.
Qed.

Lemma rounds_run_first threshold rounds iteration (k : nat) :
  (k < rounds)%nat ->
  (forall i : nat, (i < k)%nat ->
     PyFloat.ge (placeholder_score (iteration + Z.of_nat i)) threshold
     = false) ->
  PyFloat.ge (placeholder_score (iteration + Z.of_nat k)) threshold = true ->
  rounds_run threshold rounds iteration = S k
  /\ forall q0, last_score threshold rounds iteration q0
                = placeholder_score (iteration + Z.of_nat k).
Proof.
  revert iteration k.
  induction rounds as [|rounds IH]; intros iteration k Hk Hno Hyes; [lia|].
  cbn [rounds_run last_score]. destruct k as [|k].
  - rewrite Z.add_0_r in Hyes. rewrite Hyes.
    split; [reflexivity|]. intros q0. now rewrite Z.add_0_r.
  - pose proof (Hno 0%nat ltac:(lia)) as H0.
    rewrite Z.add_0_r in H0. rewrite H0.
    destruct (IH (iteration + 1) k ltac:(lia)) as [Hrun Hscore].
    + intros i Hi. specialize (Hno (S i) ltac:(lia)).
      now replace (iteration + 1 + Z.of_nat i)
        with (iteration + Z.of_nat (S i)) by lia.
    + now replace (iteration + 1 + Z.of_nat k)
        with (iteration + Z.of_nat (S k)) by lia.
    + split; [now rewrite Hrun|]. intros q0. rewrite Hscore.
      f_equal. lia.
Qed.

Lemma dispatches_to_rounds self k role :
  dispatches_to role (rounds_roles self k)
  = ((if decide (reviewer_role self = role) then k else 0)
     + (if decide (refiner_role self = role) then k else 0))%nat.
Proof.
  unfold dispatches_to. induction k as [|k IH]; cbn [rounds_roles].
  - repeat case_decide; reflexivity.
  - rewrite !filter_cons. cbn [length] in *.
    repeat case_decide; cbn [length]; rewrite IH; lia.
Qed.

(** *** Dispatches that return *)

Lemma ready_after_dispatch f role prompt ctx kw other :
  ready (snd (dispatch f role prompt ctx kw)) other <-> ready f other.
Proof.
  unfold ready. rewrite dispatch_agents.
  split; intros [cfg [Hcfg Hp]]; exists cfg; (split; [exact Hcfg|]).
  - now apply dispatch_cached in Hp.
  - now apply dispatch_cached.
Qed.

Lemma dispatch_ready f role prompt ctx :
  ready f role -> exists text, fst (dispatch f role prompt ctx ∅) = Ok text.
Proof.
  intros [cfg [Hcfg [[m|v] Hp]]].
  - rewrite (dispatch_mock f role prompt ctx ∅ cfg m Hcfg Hp clashes_empty).
    eauto.
  - rewrite (dispatch_vendor f role prompt ctx ∅ cfg v Hcfg Hp). eauto.
Qed.

Lemma configure_ready env f role pn mn tr temp kw :
  fst (configure_agent env f role pn mn tr temp kw) = Ok tt ->
  ready (snd (configure_agent env f role pn mn tr temp kw)) role.
Proof.
  unfold ready, configure_agent; cbn.
  destruct (_providers f !! pn) as [p|] eqn:Hp; cbn.
  - intros _. eexists. rewrite lookup_insert_eq. split; [reflexivity|].
    cbn. rewrite Hp. eauto.
  - destruct (_get_provider env pn) as [p|e]; cbn; [|discriminate].
    intros _. eexists. rewrite lookup_insert_eq. split; [reflexivity|].
    cbn. rewrite lookup_insert_eq. eauto.
Qed.

Lemma call_dispatch_ready role prompt ctx s :
  ready (fw s) role ->
  exists text s',
    call_dispatch role prompt ctx s = (Ok text, s')
    /\ fst (dispatch (fw s) role prompt ctx ∅) = Ok text
    /\ dispatched s' = (dispatched s ++ [(role, prompt)])%list
    /\ forall other, ready (fw s') other <-> ready (fw s) other.
Proof.
  intros Hready. unfold call_dispatch.
  destruct (dispatch_ready (fw s) role prompt ctx Hready) as [text Htext].
  pose proof (fun other =>
                ready_after_dispatch (fw s) role prompt ctx ∅ other) as Hr.
  destruct (dispatch (fw s) role prompt ctx ∅) as [r f'].
  cbn [fst snd] in *. subst r.
  eexists _, _. repeat split; try reflexivity; apply Hr.
Qed.

(** *** The loop *)

Lemma refine_loop_runs self ctx rounds :
  forall iteration cur q0 h0 s,
    ready (fw s) (reviewer_role self) ->
    ready (fw s) (refiner_role self) ->
    last h0 = Some cur ->
    exists out h s',
      refine_loop self ctx rounds iteration cur q0 h0 s
      = (Ok (out,
             last_score (quality_threshold self) rounds iteration q0,
             (h0 ++ h)%list), s')
      /\ length h = rounds_run (quality_threshold self) rounds iteration
      /\ last (h0 ++ h)%list = Some out
      /\ (dispatched s').*1
         = ((dispatched s).*1
              ++ rounds_roles self
                   (rounds_run (quality_threshold self) rounds iteration))%list
      /\ forall other, ready (fw s') other <-> ready (fw s) other.
Proof.
  induction rounds as [|rounds IH]; intros iteration cur q0 h0 s Hrev Href Hlast.
  - exists cur, [], s. cbn. rewrite !app_nil_r. repeat split; done.
  - cbn [refine_loop rounds_run last_score]. unfold bind at 1.
    destruct (call_dispatch_ready (reviewer_role self)
                ("Review this output: " +:+ cur) ctx s Hrev)
      as (feedback & s1 & -> & _ & Hd1 & Hr1).
    unfold bind at 1.
    destruct (call_dispatch_ready (refiner_role self)
                ("Refine based on feedback: " +:+ feedback) ctx s1
                (proj2 (Hr1 _) Href))
      as (out & s2 & -> & _ & Hd2 & Hr2).
    assert (Hroles : (dispatched s2).*1
                     = ((dispatched s).*1
                          ++ [reviewer_role self; refiner_role self])%list).
    { rewrite Hd2, Hd1, !fmap_app, <- app_assoc. reflexivity. }
    destruct (PyFloat.ge (placeholder_score iteration)
                (quality_threshold self)).
    + exists out, [out], s2. unfold ret. repeat split.
      * apply last_snoc.
      * exact Hroles.
      * now rewrite Hr2, Hr1.
      * now rewrite Hr2, Hr1.
    + destruct (IH (iteration + 1) out (placeholder_score iteration)
                  (h0 ++ [out])%list s2) as (out' & h & s3 & -> & Hlen & Hl & Hd3 & Hr3).
      * now apply Hr2, Hr1.
      * now apply Hr2, Hr1.
      * apply last_snoc.
      * exists out', (out :: h), s3. rewrite <- app_assoc in *. cbn.
        repeat split.
        -- now rewrite Hlen.
        -- exact Hl.
        -- rewrite Hd3, Hroles, <- app_assoc. reflexivity.
        -- now rewrite Hr3, Hr2, Hr1.
        -- now rewrite Hr3, Hr2, Hr1.
Qed.

(** *** A run *)

(** With its three roles ready, [execute] returns; the result and the
    dispatches are those of one generation and of the rounds that
    [rounds_run] counts. *)
Lemma run_returns self prompt ctx :
  ready (framework self) (generator_role self) ->
  ready (framework self) (reviewer_role self) ->
  ready (framework self) (refiner_role self) ->
  let k := rounds_run (quality_threshold self)
             (Z.to_nat (max_iterations self)) 0 in
  exists r s' generated,
    run self prompt ctx = (Ok r, s')
    /\ fst (dispatch (framework self) (generator_role self) prompt ctx ∅)
       = Ok generated
    /\ head (history r) = Some generated
    /\ length (history r) = S k
    /\ iterations r = length (history r)
    /\ last (history r) = Some (final_output r)
    /\ quality_score r
       = last_score (quality_threshold self)
           (Z.to_nat (max_iterations self)) 0 PyFloat.c0_0
    /\ metadata r = {| initial_prompt := prompt; context := ctx |}
    /\ (dispatched s').*1 = generator_role self :: rounds_roles self k.
Proof.
  intros Hgen Hrev Href k. unfold run, execute. unfold bind at 1.
  destruct (call_dispatch_ready (generator_role self) prompt ctx
              {| fw := framework self; dispatched := [] |} Hgen)
    as (generated & s1 & -> & Htext & Hd1 & Hr1).
  unfold bind at 1.
  destruct (refine_loop_runs self ctx (Z.to_nat (max_iterations self)) 0
              generated PyFloat.c0_0 [generated] s1)
    as (out & h & s2 & -> & Hlen & Hl & Hd2 & Hr2).
  { now apply Hr1. }
  { now apply Hr1. }
  { reflexivity. }
  unfold ret. eexists _, s2, generated. cbn in *.
  repeat split; try done.
  - cbn. now rewrite Hlen.
  - rewrite Hd2, Hd1. reflexivity.
Qed.

Lemma last_score_index threshold rounds iteration q0 :
  last_score threshold rounds iteration q0
  = match rounds_run threshold rounds iteration with
    | O => q0
    | S j => placeholder_score (iteration + Z.of_nat j)
    end.
Proof.
  revert iteration q0.
  induction rounds as [|rounds IH]; intros iteration q0;
    cbn [last_score rounds_run]; [reflexivity|].
  destruct (PyFloat.ge (placeholder_score iteration) threshold).
  - now rewrite Z.add_0_r.
  - rewrite IH.
    destruct (rounds_run threshold rounds (iteration + 1)) as [|j].
    + now rewrite Z.add_0_r.
    + f_equal. lia.
Qed.

Lemma dispatches_to_cons role r roles :
  dispatches_to role (r :: roles)
  = ((if decide (r = role) then 1 else 0) + dispatches_to role roles)%nat.
Proof.
  unfold dispatches_to. rewrite filter_cons. now case_decide.
Qed.

(** [>=] on floats is [SFleb] with its sides exchanged. *)
Lemma ge_is_leb (x y : PyFloat.float) : PyFloat.ge x y = SFleb y x.
Proof.
  unfold SFleb, PyFloat.ge.
  destruct x as [[]|[]| |[] m1 e1], y as [[]|[]| |[] m2 e2];
    cbn; try reflexivity; compare_cases.
Qed.

(** The number of rounds run, by the scores: it is within the budget, no
    round before the last one run reached the threshold, and the last one
    run reached it if the budget was not used up. *)
Lemma rounds_run_spec threshold rounds iteration :
  let k := rounds_run threshold rounds iteration in
  (k <= rounds)%nat
  /\ (forall i : nat,
        (S i < k)%nat ->
        PyFloat.ge (placeholder_score (iteration + Z.of_nat i)) threshold
        = false)
  /\ ((k < rounds)%nat ->
      exists j : nat,
        k = S j
        /\ PyFloat.ge (placeholder_score (iteration + Z.of_nat j)) threshold
           = true).
Proof.
  cbn zeta. revert iteration.
  induction rounds as [|rounds IH]; intros iteration; cbn [rounds_run].
  - repeat split; intros; lia.
  - destruct (PyFloat.ge (placeholder_score iteration) threshold) eqn:Hnow.
    + split; [lia|]. split; [intros; lia|]. intros _. exists 0%nat.
      now rewrite Z.add_0_r.
    + destruct (IH (iteration + 1)) as (Hle & Hbefore & Hlast).
      repeat split.
      * lia.
      * intros [|i] Hi; [now rewrite Z.add_0_r|].
        replace (iteration + Z.of_nat (S i))
          with (iteration + 1 + Z.of_nat i) by lia.
        apply Hbefore. lia.
      * intros Hk. destruct (Hlast ltac:(lia)) as (j & Hj & Hmet).
        exists (S j). split; [now rewrite Hj|].
        now replace (iteration + Z.of_nat (S j))
          with (iteration + 1 + Z.of_nat j) by lia.
Qed.

(** *** The claims on [execute] *)

(** C3. If round [k] is within the budget and is the first whose score
    reaches the threshold, a run whose three roles can be dispatched to
    stops with it: it has dispatched to the generator role once and then
    to the reviewer and refiner roles for the rounds 0 .. k and for no
    later round; [iterations] is the length of the history, one draft
    for the generation and one for each of the [k + 1] rounds run,
    whatever [max_iterations] is; and the score returned is that of
    round [k]. *)
Theorem stops_at_first_met (self : t) (prompt : string)
    (ctx : option kwargs) (k : nat) :
  ready (framework self) (generator_role self) ->
  ready (framework self) (reviewer_role self) ->
  ready (framework self) (refiner_role self) ->
  Z.of_nat k < max_iterations self ->
  (forall i : nat, (i < k)%nat ->
     PyFloat.ge (placeholder_score (Z.of_nat i)) (quality_threshold self)
     = false) ->
  PyFloat.ge (placeholder_score (Z.of_nat k)) (quality_threshold self)
  = true ->
  exists r s',
    run self prompt ctx = (Ok r, s')
    /\ (dispatched s').*1 = generator_role self :: rounds_roles self (S k)
    /\ length (dispatched s') = (1 + 2 * S k)%nat
    /\ length (history r) = (1 + S k)%nat
    /\ iterations r = length (history r)
    /\ quality_score r = placeholder_score (Z.of_nat k).
Proof.
  intros Hgen Hrev Href Hk Hbefore Hmet.
  destruct (run_returns self prompt ctx Hgen Hrev Href)
    as (r & s' & generated & Hrun & _ & _ & Hlen & Hit & _ & Hq & _ & Hd).
  destruct (rounds_run_first (quality_threshold self)
              (Z.to_nat (max_iterations self)) 0 k ltac:(lia)
              Hbefore Hmet) as [Hrounds Hscore].
  rewrite Hrounds in Hlen, Hd. rewrite Hscore in Hq.
  exists r, s'. repeat split; try assumption.
  apply (f_equal length) in Hd. rewrite length_fmap in Hd. rewrite Hd.
  clear. cbn [length]. f_equal. induction k as [|k IH]; cbn in *; lia.
Qed.

Lemma stops_at_first_met_witness :
  exists r s',
    run (test_pipeline 5 c0_75) "Test prompt" test_context = (Ok r, s')
    /\ (dispatched s').*1 = [GENERATOR; REVIEWER; REFINER; REVIEWER; REFINER]
    /\ length (dispatched s') = 5%nat
    /\ length (history r) = 3%nat
    /\ iterations r = length (history r)
    /\ quality_score r = placeholder_score 1.
Proof.
  apply (stops_at_first_met (test_pipeline 5 c0_75) "Test prompt"
           test_context 1).
  - solve_ready.
  - solve_ready.
  - solve_ready.
  - reflexivity.
  - intros [|i] Hi; [reflexivity | lia].
  - reflexivity.
Defined.

(** C5. With [max_iterations = 0], a run whose generator role can be
    dispatched to makes that one dispatch and returns the result whose
    history is the generated text alone, whose final output is that
    text, whose [iterations] is 1 and whose score is the initial [0.0]. *)
Theorem zero_iterations (self : t) (prompt : string)
    (ctx : option kwargs) :
  max_iterations self = 0 ->
  ready (framework self) (generator_role self) ->
  exists generated s',
    run self prompt ctx
    = (Ok {| final_output := generated;
             quality_score := PyFloat.c0_0;
             iterations := 1;
             history := [generated];
             metadata := {| initial_prompt := prompt; context := ctx |} |},
       s')
    /\ dispatch (framework self) (generator_role self) prompt ctx ∅
       = (Ok generated, fw s')
    /\ dispatched s' = [(generator_role self, prompt)].
Proof.
  intros Hzero Hgen. unfold run, execute. rewrite Hzero. cbn [Z.to_nat].
  unfold bind at 1.
  destruct (dispatch_ready (framework self) (generator_role self) prompt
              ctx Hgen) as [generated Htext].
  unfold call_dispatch. cbn [fw dispatched].
  destruct (dispatch (framework self) (generator_role self) prompt ctx ∅)
    as [res f'].
  cbn [fst] in Htext. subst res.
  exists generated, {| fw := f';
                       dispatched := [(generator_role self, prompt)] |}.
  repeat split.
Qed.

Lemma zero_iterations_witness :
  exists generated s',
    run (test_pipeline 0 c0_85) "Test prompt" test_context
    = (Ok {| final_output := generated;
             quality_score := PyFloat.c0_0;
             iterations := 1;
             history := [generated];
             metadata := {| initial_prompt := "Test prompt";
                            context := test_context |} |},
       s')
    /\ dispatch (framework (test_pipeline 0 c0_85)) GENERATOR
         "Test prompt" test_context ∅
       = (Ok generated, fw s')
    /\ dispatched s' = [(GENERATOR, "Test prompt")].
Proof.
  apply (zero_iterations (test_pipeline 0 c0_85) "Test prompt"
           test_context).
  - reflexivity.
  - solve_ready.
Defined.

Example zero_iterations_text :
  fst (run (test_pipeline 0 c0_85) "Test prompt" test_context)
  = Ok {| final_output := "[Mock test-model] Response to: Test prompt...";
          quality_score := PyFloat.c0_0;
          iterations := 1;
          history := ["[Mock test-model] Response to: Test prompt..."];
          metadata := {| initial_prompt := "Test prompt";
                         context := test_context |} |}.
Proof. reflexivity. Qed.

(** C10. Two runs under the same [max_iterations] and the same
    [quality_threshold], each with its three roles ready to be dispatched
    to, return, whatever their registries, roles, prompts and contexts
    are, histories of the same length after the same number of
    dispatches, and the same score.  The number [k] of rounds run and the
    score are fixed by the budget, the threshold and the binary64 numbers
    [0.7 + j * 0.1] alone: [k] is within the budget, none of the numbers
    of the rounds before the last reaches the threshold, the number of
    the last round reaches it if the budget was not used up, and the
    score returned is the number of the last round ([0.0] when no round
    ran). *)
#[warning="-inexact-float"]
Theorem rounds_and_score_of_budget (self1 self2 : t)
    (prompt1 prompt2 : string) (ctx1 ctx2 : option kwargs) :
  max_iterations self1 = max_iterations self2 ->
  quality_threshold self1 = quality_threshold self2 ->
  ready (framework self1) (generator_role self1) ->
  ready (framework self1) (reviewer_role self1) ->
  ready (framework self1) (refiner_role self1) ->
  ready (framework self2) (generator_role self2) ->
  ready (framework self2) (reviewer_role self2) ->
  ready (framework self2) (refiner_role self2) ->
  let score (j : nat) : spec_float :=
    SFadd prec emax (Prim2SF 0.7%float)
      (SFmul prec emax (binary_normalize prec emax (Z.of_nat j) 0 false)
         (Prim2SF 0.1%float)) in
  exists r1 s1 r2 s2,
    run self1 prompt1 ctx1 = (Ok r1, s1)
    /\ run self2 prompt2 ctx2 = (Ok r2, s2)
    /\ length (history r1) = length (history r2)
    /\ iterations r1 = iterations r2
    /\ length (dispatched s1) = length (dispatched s2)
    /\ quality_score r1 = quality_score r2
    /\ exists k : nat,
         length (history r1) = S k
         /\ length (dispatched s1) = S (2 * k)
         /\ (k <= Z.to_nat (max_iterations self1))%nat
         /\ (forall i : nat,
               (S i < k)%nat ->
               SFleb (quality_threshold self1) (score i) = false)
         /\ ((k < Z.to_nat (max_iterations self1))%nat ->
             exists j : nat,
               k = S j /\ SFleb (quality_threshold self1) (score j) = true)
         /\ quality_score r1
            = match k with
              | O => Prim2SF 0.0%float
              | S j => score j
              end.
Proof.
  intros HN Ht Hgen1 Hrev1 Href1 Hgen2 Hrev2 Href2 score.
  destruct (run_returns self1 prompt1 ctx1 Hgen1 Hrev1 Href1)
    as (r1 & s1 & g1 & Hrun1 & _ & _ & Hlen1 & Hit1 & _ & Hq1 & _ & Hd1).
  destruct (run_returns self2 prompt2 ctx2 Hgen2 Hrev2 Href2)
    as (r2 & s2 & g2 & Hrun2 & _ & _ & Hlen2 & Hit2 & _ & Hq2 & _ & Hd2).
  rewrite <- HN, <- Ht in Hlen2, Hq2, Hd2.
  assert (Hroles : forall self k,
             length (rounds_roles self k) = (2 * k)%nat).
  { intros self k. induction k as [|k IH]; cbn [rounds_roles length]; lia. }
  apply (f_equal length) in Hd1, Hd2. rewrite length_fmap in Hd1, Hd2.
  cbn [length] in Hd1, Hd2. rewrite Hroles in Hd1, Hd2.
  exists r1, s1, r2, s2. repeat split; try assumption; try congruence.
  destruct (rounds_run_spec (quality_threshold self1)
              (Z.to_nat (max_iterations self1)) 0)
    as (Hle & Hbefore & Hlast).
  exists (rounds_run (quality_threshold self1)
            (Z.to_nat (max_iterations self1)) 0).
  repeat split; try assumption.
  - intros i Hi. rewrite <- ge_is_leb. exact (Hbefore i Hi).
  - intros Hk. destruct (Hlast Hk) as (j & Hj & Hmet).
    exists j. split; [exact Hj|]. rewrite <- ge_is_leb. exact Hmet.
  - rewrite Hq1. apply last_score_index.
Qed.

#[warning="-inexact-float"]
Lemma rounds_and_score_of_budget_witness :
  exists r1 s1 r2 s2,
    run (test_pipeline 5 c0_75) "Test prompt" test_context = (Ok r1, s1)
    /\ run (vendor_pipeline 5 c0_75) "Create a REST API" None = (Ok r2, s2)
    /\ length (history r1) = length (history r2)
    /\ iterations r1 = iterations r2
    /\ length (dispatched s1) = length (dispatched s2)
    /\ quality_score r1 = quality_score r2
    /\ length (history r1) = 3%nat
    /\ quality_score r1 = Prim2SF 0.7999999999999999%float.
Proof.
  destruct (rounds_and_score_of_budget (test_pipeline 5 c0_75)
              (vendor_pipeline 5 c0_75) "Test prompt" "Create a REST API"
              test_context None)
    as (r1 & s1 & r2 & s2 & H1 & H2 & Hh & Hi & Hd & Hq & k & Hlen & _ & Hle
        & Hbefore & Hlast & Hscore).
  - reflexivity.
  - reflexivity.
  - solve_ready.
  - solve_ready.
  - solve_ready.
  - solve_ready.
  - solve_ready.
  - solve_ready.
  - change (quality_threshold (test_pipeline 5 c0_75)) with c0_75
      in Hbefore, Hlast.
    change (Z.to_nat (max_iterations (test_pipeline 5 c0_75))) with 5%nat
      in Hle, Hlast.
    assert (Hk : k = 2%nat).
    { destruct k as [|[|[|k]]].
      - destruct (Hlast ltac:(lia)) as (j & Hj & _). discriminate Hj.
      - destruct (Hlast ltac:(lia)) as (j & Hj & Hmet).
        injection Hj as <-. vm_compute in Hmet. discriminate Hmet.
      - reflexivity.
      - specialize (Hbefore 1%nat ltac:(lia)). vm_compute in Hbefore.
        discriminate Hbefore. }
    subst k. exists r1, s1, r2, s2. repeat split; assumption.
Defined.

(** *** The placeholder score over the first rounds *)

Lemma SFleb_trans x y z :
  SFleb x y = true -> SFleb y z = true -> SFleb x z = true.
Proof.
  unfold SFleb.
  destruct x as [[]|[]| |[] m1 e1], y as [[]|[]| |[] m2 e2],
           z as [[]|[]| |[] m3 e3];
    cbn; intros H1 H2; try discriminate; try reflexivity; compare_cases.
Qed.

Lemma SFcompare_le_gt x y t :
  SFleb x y = true -> SFcompare t y = Some Gt -> SFcompare x t = Some Lt.
Proof.
  unfold SFleb.
  destruct x as [[]|[]| |[] m1 e1], y as [[]|[]| |[] m2 e2],
           t as [[]|[]| |[] m3 e3];
    cbn; intros H1 H2; try discriminate; try reflexivity; compare_cases.
Qed.

Lemma score_step (n i : nat) :
  scores_sorted n = true ->
  (i < n)%nat ->
  SFleb (placeholder_score (Z.of_nat i)) (placeholder_score (Z.of_nat i))
  = true
  /\ SFleb (placeholder_score (Z.of_nat i))
           (placeholder_score (Z.of_nat (S i))) = true.
Proof.
  intros Hall Hi. unfold scores_sorted in Hall.
  rewrite forallb_forall in Hall.
  apply andb_prop. apply Hall. apply in_seq. lia.
Qed.

Lemma score_monotone (n d i : nat) :
  scores_sorted n = true ->
  (i + d < n)%nat ->
  SFleb (placeholder_score (Z.of_nat i))
        (placeholder_score (Z.of_nat (i + d))) = true.
Proof.
  intros Hall. induction d as [|d IH]; intros Hd.
  - rewrite Nat.add_0_r. apply (score_step n); [exact Hall | lia].
  - apply SFleb_trans with (placeholder_score (Z.of_nat (i + d))).
    + apply IH. lia.
    + replace (i + S d)%nat with (S (i + d)) by lia.
      apply (score_step n); [exact Hall | lia].
Qed.

Lemma threshold_above_sorted (n N : nat) (threshold : PyFloat.float) :
  scores_sorted n = true ->
  (N <= n)%nat ->
  PyFloat.gt threshold (placeholder_score (Z.of_nat N - 1)) = true ->
  forall i : nat, (i < N)%nat ->
    PyFloat.ge (placeholder_score (Z.of_nat i)) threshold = false.
Proof.
  intros Hall HN Hgt i Hi. unfold PyFloat.gt in Hgt. unfold PyFloat.ge.
  destruct (SFcompare threshold (placeholder_score (Z.of_nat N - 1)))
    as [[| |]|] eqn:Hcmp; try discriminate.
  replace (Z.of_nat N - 1) with (Z.of_nat (i + (N - 1 - i))) in Hcmp by lia.
  rewrite (SFcompare_le_gt _ _ _
             (score_monotone n (N - 1 - i) i Hall ltac:(lia)) Hcmp).
  reflexivity.
Qed.

Lemma scores_sorted_computed : scores_sorted score_rounds = true.
Proof. vm_compute. reflexivity. Qed.

(** The instance of C2 for the placeholder score: within the first
    [score_rounds] rounds, a threshold above the score of round [N - 1]
    is above the scores of all the rounds before it. *)
Lemma threshold_above_last_score (N : nat) (threshold : PyFloat.float) :
  (N <= score_rounds)%nat ->
  PyFloat.gt threshold (placeholder_score (Z.of_nat N - 1)) = true ->
  forall i : nat, (i < N)%nat ->
    PyFloat.ge (placeholder_score (Z.of_nat i)) threshold = false.
Proof.
  exact (fun HN =>
           threshold_above_sorted score_rounds N threshold
             scores_sorted_computed HN).
Qed.

(** So, with a budget of at most [score_rounds] rounds and a threshold
    above [0.7 + (N - 1) * 0.1], a run goes through all its [N] rounds. *)
Lemma above_last_score_runs_all (self : t) (prompt : string)
    (ctx : option kwargs) (N : nat) :
  max_iterations self = Z.of_nat N ->
  (N <= score_rounds)%nat ->
  ready (framework self) (generator_role self) ->
  ready (framework self) (reviewer_role self) ->
  ready (framework self) (refiner_role self) ->
  PyFloat.gt (quality_threshold self) (placeholder_score (Z.of_nat N - 1))
  = true ->
  exists r s',
    run self prompt ctx = (Ok r, s')
    /\ length (history r) = S N
    /\ (dispatched s').*1 = generator_role self :: rounds_roles self N.
Proof.
  intros HN Hbound Hgen Hrev Href Habove.
  destruct (run_returns self prompt ctx Hgen Hrev Href)
    as (r & s' & generated & Hrun & _ & _ & Hlen & _ & _ & _ & _ & Hd).
  rewrite HN, Nat2Z.id in Hlen, Hd.
  rewrite rounds_run_never in Hlen, Hd
    by exact (threshold_above_last_score N _ Hbound Habove).
  exists r, s'. repeat split; assumption.
Qed.

(** The scores are binary64 numbers: that of round 2 is the float below
    [0.9], so that a threshold of [0.9] is first reached in round 3. *)
Example score_of_round_2 :
  placeholder_score 2 = S754_finite false 8106479329266892 (-53)
  /\ PyFloat.ge (placeholder_score 2) c0_9 = false
  /\ PyFloat.ge (placeholder_score 3) c0_9 = true.
Proof. repeat split; vm_compute; reflexivity. Qed.

End CAIRPipelineFacts.

(** ** Rounding to binary64

    [float(i)], [x * 0.1] and [0.7 + y] round a number that grows with
    their argument, and rounding to nearest keeps the order: the score
    [0.7 + i * 0.1] never decreases with the round [i]. *)

Module Binary64Facts.
Import CAIRPipeline CAIRPipelineSpec Binary64Spec.
#[local] Close Scope string_scope.

Lemma digits2_pos_bounds (p : positive) :
  2 ^ (Zpos (digits2_pos p) - 1) <= Zpos p < 2 ^ Zpos (digits2_pos p).
Proof.
  induction p as [p IH|p IH|]; cbn [digits2_pos].
  - rewrite Pos2Z.inj_succ.
    replace (Z.succ (Zpos (digits2_pos p)) - 1) with (Z.succ (Zpos (digits2_pos p) - 1)) by lia.
    rewrite !Z.pow_succ_r by lia. lia.
  - rewrite Pos2Z.inj_succ.
    replace (Z.succ (Zpos (digits2_pos p)) - 1) with (Z.succ (Zpos (digits2_pos p) - 1)) by lia.
    rewrite !Z.pow_succ_r by lia. lia.
  - cbn. lia.
Qed.

Lemma Zdigits2_bounds (m : Z) :
  0 < m -> 2 ^ (Zdigits2 m - 1) <= m < 2 ^ Zdigits2 m.
Proof. destruct m as [|p|p]; try lia. intros _. apply digits2_pos_bounds. Qed.

Lemma Zdigits2_unique (m d : Z) :
  2 ^ (d - 1) <= m < 2 ^ d -> 0 < d -> Zdigits2 m = d.
Proof.
  intros [Hlo Hhi] Hd.
  assert (Hm : 0 < m). { pose proof (Z.pow_pos_nonneg 2 (d - 1)). lia. }
  pose proof (Zdigits2_bounds m Hm) as [Hlo' Hhi'].
  assert (0 < Zdigits2 m) by (destruct m; cbn; lia).
  assert (d - 1 < Zdigits2 m).
  { apply (Z.pow_lt_mono_r_iff 2); lia. }
  assert (Zdigits2 m - 1 < d).
  { apply (Z.pow_lt_mono_r_iff 2); lia. }
  lia.
Qed.

Lemma shr_1_nonneg (m : Z) (r s : bool) :
  0 <= m ->
  shr_1 {| shr_m := m; shr_r := r; shr_s := s |}
  = {| shr_m := m / 2; shr_r := Z.odd m; shr_s := r || s |}.
Proof.
  intros Hm. rewrite <- Z.div2_div.
  destruct m as [|[p|p|]|p]; try lia; reflexivity.
Qed.

Lemma mod_pow2_succ (X k : Z) :
  0 <= k ->
  X mod 2 ^ (k + 1) = X mod 2 ^ k + 2 ^ k * ((X / 2 ^ k) mod 2).
Proof.
  intros Hk. rewrite Z.pow_add_r, Z.pow_1_r by lia.
  apply Z.rem_mul_r; [|lia]. pose proof (Z.pow_pos_nonneg 2 k). lia.
Qed.

Lemma shr_1_shifted (X k : Z) (mrs : shr_record) :
  0 <= X -> 0 <= k -> shifted X k mrs -> shifted X (k + 1) (shr_1 mrs).
Proof.
  intros HX Hk. destruct mrs as [m r s]. unfold shifted; cbn [shr_m shr_r shr_s].
  intros (Hm & Hr & Hs).
  assert (Hpos : 0 < 2 ^ k) by (apply Z.pow_pos_nonneg; lia).
  rewrite shr_1_nonneg by (subst m; apply Z.div_pos; lia).
  cbn [shr_m shr_r shr_s].
  replace (k + 1 - 1) with k by lia.
  replace (k + 1 =? 0) with false by (symmetry; apply Z.eqb_neq; lia).
  split; [|split].
  - subst m. rewrite Z.pow_add_r, Z.pow_1_r by lia.
    rewrite Z.div_div by lia. reflexivity.
  - now subst m.
  - destruct (Z.eqb_spec k 0) as [->|Hk0].
    + subst r s. cbn. rewrite Z.mod_1_r. reflexivity.
    + subst r s.
      replace k with (k - 1 + 1) at 3 by lia.
      rewrite mod_pow2_succ by lia.
      assert (Hpos' : 0 < 2 ^ (k - 1)) by (apply Z.pow_pos_nonneg; lia).
      pose proof (Z.mod_pos_bound X (2 ^ (k - 1)) Hpos') as Hb.
      rewrite Zodd_mod.
      pose proof (Z.mod_pos_bound (X / 2 ^ (k - 1)) 2 ltac:(lia)) as Hb2.
      destruct (Z.eqb_spec ((X / 2 ^ (k - 1)) mod 2) 1) as [H1|H1];
        destruct (Z.eqb_spec (X mod 2 ^ (k - 1)) 0) as [H0|H0]; cbn;
        symmetry.
      * apply negb_true_iff, Z.eqb_neq. nia.
      * apply negb_true_iff, Z.eqb_neq. nia.
      * apply negb_false_iff, Z.eqb_eq. nia.
      * apply negb_true_iff, Z.eqb_neq. nia.
Qed.

Lemma iter_pos_shifted (p : positive) :
  forall X k mrs,
    0 <= X -> 0 <= k -> shifted X k mrs ->
    shifted X (k + Zpos p) (SpecFloat.iter_pos shr_1 p mrs).
Proof.
  induction p as [p IH|p IH|]; intros X k mrs HX Hk H; cbn [SpecFloat.iter_pos].
  - replace (k + Zpos p~1) with (k + 1 + Zpos p + Zpos p) by lia.
    apply IH; [lia | lia |]. apply IH; [lia | lia |].
    now apply shr_1_shifted.
  - replace (k + Zpos p~0) with (k + Zpos p + Zpos p) by lia.
    apply IH; [lia | lia |]. now apply IH.
  - now apply shr_1_shifted.
Qed.

Lemma shr_shifted (m e n : Z) :
  0 <= m -> 0 <= n ->
  exists mrs,
    shr {| shr_m := m; shr_r := false; shr_s := false |} e n = (mrs, e + n)
    /\ shifted m n mrs.
Proof.
  intros Hm Hn.
  assert (H0 : shifted m 0 {| shr_m := m; shr_r := false; shr_s := false |}).
  { unfold shifted; cbn. now rewrite Z.div_1_r. }
  destruct n as [|p|p]; [| |lia]; cbn [shr].
  - eexists. split; [now rewrite Z.add_0_r | exact H0].
  - eexists. split; [reflexivity|].
    apply (iter_pos_shifted p m 0 _ Hm ltac:(lia) H0).
Qed.

Lemma round_shifted (X k : Z) (mrs : shr_record) :
  0 <= X -> 0 <= k -> shifted X k mrs ->
  round_nearest_even (shr_m mrs) (loc_of_shr_record mrs) = rne X k.
Proof.
  intros HX Hk. destruct mrs as [m r s].
  unfold shifted; cbn [shr_m shr_r shr_s]. intros (Hm & Hr & Hs).
  unfold rne. cbn zeta.
  destruct (Z.eqb_spec k 0) as [->|Hk0].
  - subst r s m. cbn. rewrite Z.mod_1_r, Z.div_1_r. reflexivity.
  - assert (HP : 0 < 2 ^ (k - 1)) by (apply Z.pow_pos_nonneg; lia).
    assert (H2P : 2 ^ k = 2 * 2 ^ (k - 1)).
    { replace k with (k - 1 + 1) at 1 by lia.
      rewrite Z.pow_add_r, Z.pow_1_r by lia. lia. }
    set (P := 2 ^ (k - 1)) in *.
    pose proof (mod_pow2_succ X (k - 1) ltac:(lia)) as Hmod.
    replace (k - 1 + 1) with k in Hmod by lia. fold P in Hmod.
    pose proof (Z.mod_pos_bound X P HP) as Hb.
    pose proof (Z.mod_pos_bound (X / P) 2 ltac:(lia)) as Hb2.
    rewrite Zodd_mod in Hr.
    assert (Hq : X / P = 2 * (X / 2 ^ k) + (X / P) mod 2).
    { rewrite H2P, (Z.mul_comm 2 P), <- Z.div_div by lia.
      pose proof (Z.div_mod (X / P) 2 ltac:(lia)). lia. }
    rewrite Hmod.
    destruct (Z.eqb_spec ((X / P) mod 2) 1) as [H1|H1];
      destruct (Z.eqb_spec (X mod P) 0) as [H0|H0];
      subst r s m; cbn [negb loc_of_shr_record round_nearest_even].
    + rewrite H1, H0.
      replace (2 ^ k <? 2 * (0 + P * 1)) with false
        by (symmetry; apply Z.ltb_ge; lia).
      replace (2 ^ k =? 2 * (0 + P * 1)) with true
        by (symmetry; apply Z.eqb_eq; lia).
      cbn [orb andb]. rewrite <- Z.negb_even.
      now destruct (Z.even (X / 2 ^ k)).
    + replace (2 ^ k <? 2 * (X mod P + P * ((X / P) mod 2))) with true
        by (symmetry; apply Z.ltb_lt; nia).
      reflexivity.
    + replace (2 ^ k <? 2 * (X mod P + P * ((X / P) mod 2))) with false
        by (symmetry; apply Z.ltb_ge; nia).
      replace (2 ^ k =? 2 * (X mod P + P * ((X / P) mod 2))) with false
        by (symmetry; apply Z.eqb_neq; nia).
      reflexivity.
    + replace (2 ^ k <? 2 * (X mod P + P * ((X / P) mod 2))) with false
        by (symmetry; apply Z.ltb_ge; nia).
      replace (2 ^ k =? 2 * (X mod P + P * ((X / P) mod 2))) with false
        by (symmetry; apply Z.eqb_neq; nia).
      reflexivity.
Qed.

Lemma rne_bounds (X k : Z) :
  0 <= k -> X / 2 ^ k <= rne X k <= X / 2 ^ k + 1.
Proof.
  intros Hk. unfold rne. cbn zeta.
  destruct ((2 ^ k <? 2 * (X mod 2 ^ k))
            || ((2 ^ k =? 2 * (X mod 2 ^ k)) && Z.odd (X / 2 ^ k))); lia.
Qed.

Lemma rne_exact (X : Z) : rne X 0 = X.
Proof. unfold rne. cbn. now rewrite Z.mod_1_r, Z.div_1_r. Qed.

Lemma rne_scale (X k j : Z) :
  0 <= k -> 0 <= j -> rne (X * 2 ^ j) (k + j) = rne X k.
Proof.
  intros Hk Hj. unfold rne. cbn zeta.
  assert (Hpk : 0 < 2 ^ k) by (apply Z.pow_pos_nonneg; lia).
  assert (Hpj : 0 < 2 ^ j) by (apply Z.pow_pos_nonneg; lia).
  rewrite Z.pow_add_r by lia.
  rewrite Z.div_mul_cancel_r by lia.
  rewrite Z.mul_mod_distr_r by lia.
  replace (2 ^ k * 2 ^ j <? 2 * (X mod 2 ^ k * 2 ^ j))
    with (2 ^ k <? 2 * (X mod 2 ^ k)).
  2:{ destruct (Z.ltb_spec (2 ^ k) (2 * (X mod 2 ^ k)));
        symmetry; [apply Z.ltb_lt | apply Z.ltb_ge]; nia. }
  replace (2 ^ k * 2 ^ j =? 2 * (X mod 2 ^ k * 2 ^ j))
    with (2 ^ k =? 2 * (X mod 2 ^ k)).
  2:{ destruct (Z.eqb_spec (2 ^ k) (2 * (X mod 2 ^ k)));
        symmetry; [apply Z.eqb_eq | apply Z.eqb_neq]; nia. }
  reflexivity.
Qed.

Lemma rne_mono (X1 X2 k : Z) :
  0 <= k -> X1 <= X2 -> rne X1 k <= rne X2 k.
Proof.
  intros Hk HX.
  assert (Hpk : 0 < 2 ^ k) by (apply Z.pow_pos_nonneg; lia).
  pose proof (Z.div_le_mono X1 X2 (2 ^ k) Hpk HX) as Hq.
  pose proof (rne_bounds X1 k Hk) as H1.
  pose proof (rne_bounds X2 k Hk) as H2.
  destruct (Z.eq_dec (X1 / 2 ^ k) (X2 / 2 ^ k)) as [Heq|Hne]; [|lia].
  pose proof (Z.div_mod X1 (2 ^ k) ltac:(lia)) as D1.
  pose proof (Z.div_mod X2 (2 ^ k) ltac:(lia)) as D2.
  assert (Hrem : X1 mod 2 ^ k <= X2 mod 2 ^ k) by nia.
  unfold rne. cbn zeta. rewrite <- Heq.
  destruct (Z.ltb_spec (2 ^ k) (2 * (X1 mod 2 ^ k)));
    destruct (Z.ltb_spec (2 ^ k) (2 * (X2 mod 2 ^ k)));
    destruct (Z.eqb_spec (2 ^ k) (2 * (X1 mod 2 ^ k)));
    destruct (Z.eqb_spec (2 ^ k) (2 * (X2 mod 2 ^ k)));
    destruct (Z.odd (X1 / 2 ^ k)); cbn [orb andb]; lia.
Qed.

Lemma aligned_quotient (m e : Z) :
  aligned m e ->
  2 ^ 52 <= m / 2 ^ (Zdigits2 m - 53) < 2 ^ 53.
Proof.
  intros (Hm & Hd & _).
  pose proof (Zdigits2_bounds m Hm) as [Hlo Hhi].
  set (d := Zdigits2 m) in *.
  assert (Hpn : 0 < 2 ^ (d - 53)) by (apply Z.pow_pos_nonneg; lia).
  assert (H1 : 2 ^ (d - 1) = 2 ^ 52 * 2 ^ (d - 53)).
  { rewrite <- Z.pow_add_r by lia. f_equal. lia. }
  assert (H2 : 2 ^ d = 2 ^ 53 * 2 ^ (d - 53)).
  { rewrite <- Z.pow_add_r by lia. f_equal. lia. }
  split.
  - apply Z.div_le_lower_bound; lia.
  - apply Z.div_lt_upper_bound; lia.
Qed.

Lemma aligned_rne (m e : Z) :
  aligned m e -> 2 ^ 52 <= rne m (Zdigits2 m - 53) <= 2 ^ 53.
Proof.
  intros H. pose proof (aligned_quotient m e H) as Hq.
  destruct H as (_ & Hd & _).
  pose proof (rne_bounds m (Zdigits2 m - 53) ltac:(lia)). lia.
Qed.

Lemma binary_round_aux_aligned (m e : Z) :
  aligned m e ->
  binary_round_aux prec emax false m e loc_Exact = round_pos m e.
Proof.
  intros Hal. pose proof (aligned_rne m e Hal) as Hm1.
  destruct Hal as (Hm & Hd & He).
  unfold binary_round_aux, shr_fexp, round_pos. cbn zeta.
  cbn [shr_record_of_loc].
  set (d := Zdigits2 m) in *.
  assert (Hf : fexp prec emax (d + e) - e = d - 53).
  { unfold fexp, emin, prec, emax. lia. }
  rewrite Hf.
  destruct (shr_shifted m e (d - 53) ltac:(lia) ltac:(lia))
    as (mrs & -> & Hsh).
  rewrite (round_shifted m (d - 53) mrs ltac:(lia) ltac:(lia) Hsh).
  set (m1 := rne m (d - 53)) in *.
  destruct (Z.ltb_spec m1 (2 ^ 53)) as [Hlt|Hge].
  - assert (Hd1 : Zdigits2 m1 = 53).
    { apply Zdigits2_unique; [|lia]. change (53 - 1) with 52. lia. }
    rewrite Hd1.
    assert (Hf1 : fexp prec emax (53 + (e + (d - 53))) - (e + (d - 53)) = 0).
    { unfold fexp, emin, prec, emax. lia. }
    rewrite Hf1. cbn [shr shr_m].
    unfold out. destruct m1 as [|p|p]; try lia. reflexivity.
  - assert (Heq : m1 = 2 ^ 53) by lia. rewrite Heq.
    change (Zdigits2 (2 ^ 53)) with 54.
    assert (Hf1 : fexp prec emax (54 + (e + (d - 53))) - (e + (d - 53)) = 1).
    { unfold fexp, emin, prec, emax. lia. }
    rewrite Hf1. cbn [shr SpecFloat.iter_pos].
    change (shr_1 {| shr_m := 2 ^ 53; shr_r := false; shr_s := false |})
      with {| shr_m := 2 ^ 52; shr_r := false; shr_s := false |}.
    cbn [shr_m]. reflexivity.
Qed.

Lemma out_good (L M E : Z) :
  2 ^ 52 <= M < 2 ^ 53 -> L <= E -> good L (out M E).
Proof.
  intros HM HE. unfold out. destruct M as [|p|p]; try lia.
  destruct (E <=? 971); [right | now left]. now exists p, E.
Qed.

Lemma round_pos_good (L m e : Z) :
  aligned m e -> L <= e -> good L (round_pos m e).
Proof.
  intros Hal HL. pose proof (aligned_rne m e Hal) as Hm1.
  destruct Hal as (Hm & Hd & He). unfold round_pos. cbn zeta.
  destruct (Z.ltb_spec (rne m (Zdigits2 m - 53)) (2 ^ 53)).
  - apply out_good; lia.
  - apply out_good; lia.
Qed.

Lemma out_leb (M1 E1 M2 E2 : Z) :
  0 < M1 -> 0 < M2 ->
  E1 < E2 \/ (E1 = E2 /\ M1 <= M2) ->
  SFleb (out M1 E1) (out M2 E2) = true.
Proof.
  intros H1 H2 Hle. unfold out.
  destruct M1 as [|p1|p1], M2 as [|p2|p2]; try lia.
  destruct (Z.leb_spec E1 971), (Z.leb_spec E2 971); try reflexivity.
  - unfold SFleb, SFcompare.
    change (Pos.compare_cont Eq p1 p2) with (Pos.compare p1 p2).
    destruct (Z.compare_spec E1 E2); try reflexivity; try lia.
    destruct (Pos.compare_spec p1 p2); try reflexivity; lia.
  - lia.
Qed.

Lemma round_pos_mono (L m1 e1 m2 e2 : Z) :
  aligned m1 e1 -> aligned m2 e2 -> L <= e1 -> L <= e2 ->
  m1 * 2 ^ (e1 - L) <= m2 * 2 ^ (e2 - L) ->
  SFleb (round_pos m1 e1) (round_pos m2 e2) = true.
Proof.
  intros Hal1 Hal2 HL1 HL2 Hle.
  pose proof (aligned_rne m1 e1 Hal1) as Hr1.
  pose proof (aligned_rne m2 e2 Hal2) as Hr2.
  destruct Hal1 as (Hm1 & Hd1 & He1), Hal2 as (Hm2 & Hd2 & He2).
  pose proof (Zdigits2_bounds m1 Hm1) as [Hlo1 Hhi1].
  pose proof (Zdigits2_bounds m2 Hm2) as [Hlo2 Hhi2].
  set (d1 := Zdigits2 m1) in *. set (d2 := Zdigits2 m2) in *.
  assert (Hp1 : 0 < 2 ^ (e1 - L)) by (apply Z.pow_pos_nonneg; lia).
  assert (Hp2 : 0 < 2 ^ (e2 - L)) by (apply Z.pow_pos_nonneg; lia).
  assert (HT : d1 + e1 <= d2 + e2).
  { assert (H : 2 ^ (d1 - 1 + (e1 - L)) < 2 ^ (d2 + (e2 - L))).
    { rewrite !Z.pow_add_r by lia. nia. }
    apply Z.pow_lt_mono_r_iff in H; lia. }
  assert (Hs1 : rne m1 (d1 - 53) = rne (m1 * 2 ^ (e1 - L)) (d1 - 53 + (e1 - L)))
    by (symmetry; apply rne_scale; lia).
  assert (Hs2 : rne m2 (d2 - 53) = rne (m2 * 2 ^ (e2 - L)) (d2 - 53 + (e2 - L)))
    by (symmetry; apply rne_scale; lia).
  assert (H52 : 0 < 2 ^ 52) by (apply Z.pow_pos_nonneg; lia).
  unfold round_pos. cbn zeta. fold d1 d2.
  set (r1 := rne m1 (d1 - 53)) in *. set (r2 := rne m2 (d2 - 53)) in *.
  destruct (Z.eq_dec (d1 + e1) (d2 + e2)) as [Heq|Hne].
  - assert (Hr : r1 <= r2).
    { rewrite Hs1, Hs2.
      replace (d2 - 53 + (e2 - L)) with (d1 - 53 + (e1 - L)) by lia.
      apply rne_mono; lia. }
    destruct (Z.ltb_spec r1 (2 ^ 53)), (Z.ltb_spec r2 (2 ^ 53));
      apply out_leb; lia.
  - destruct (Z.ltb_spec r1 (2 ^ 53)), (Z.ltb_spec r2 (2 ^ 53));
      apply out_leb; lia.
Qed.

Lemma good_leb_value (L : Z) (P1 : positive) (E1 : Z) (P2 : positive) (E2 : Z) :
  2 ^ 52 <= Zpos P1 < 2 ^ 53 -> 2 ^ 52 <= Zpos P2 < 2 ^ 53 ->
  L <= E1 -> L <= E2 ->
  SFleb (S754_finite false P1 E1) (S754_finite false P2 E2) = true ->
  Zpos P1 * 2 ^ (E1 - L) <= Zpos P2 * 2 ^ (E2 - L).
Proof.
  intros HP1 HP2 HL1 HL2. unfold SFleb, SFcompare.
  change (Pos.compare_cont Eq P1 P2) with (Pos.compare P1 P2).
  assert (Hp1 : 0 < 2 ^ (E1 - L)) by (apply Z.pow_pos_nonneg; lia).
  destruct (Z.compare_spec E1 E2) as [->|Hlt|Hgt]; [| |discriminate].
  - destruct (Pos.compare_spec P1 P2); try discriminate; intros _; nia.
  - intros _.
    assert (H : 2 ^ (E2 - L) = 2 ^ (E2 - E1) * 2 ^ (E1 - L)).
    { rewrite <- Z.pow_add_r by lia. f_equal. lia. }
    assert (H2 : 2 <= 2 ^ (E2 - E1)).
    { change 2 with (2 ^ 1) at 1. apply Z.pow_le_mono_r; lia. }
    change (2 ^ 53) with (2 * 2 ^ 52) in *. rewrite H. nia.
Qed.

Lemma Pos_iter_xO (p k : positive) :
  Zpos (Pos.iter xO p k) = Zpos p * 2 ^ Zpos k.
Proof.
  induction k as [|k IH] using Pos.peano_ind.
  - cbn [Pos.iter]. lia.
  - rewrite Pos.iter_succ, Pos2Z.inj_xO, IH, Pos2Z.inj_succ, Z.pow_succ_r by lia.
    lia.
Qed.

Lemma shl_align_value (mx : positive) (ex ez : Z) :
  ez <= ex ->
  Zpos (fst (shl_align mx ex ez)) = Zpos mx * 2 ^ (ex - ez)
  /\ snd (shl_align mx ex ez) = ez.
Proof.
  intros Hle. unfold shl_align.
  destruct (ez - ex) as [|k|k] eqn:Hk; try lia; cbn [fst snd].
  - replace (ex - ez) with 0 by lia. split; lia.
  - rewrite Pos_iter_xO. replace (ex - ez) with (Zpos k) by lia. split; lia.
Qed.

Lemma shl_align_keep (mx : positive) (ex ez : Z) :
  ex <= ez -> shl_align mx ex ez = (mx, ex).
Proof.
  intros Hle. unfold shl_align. destruct (ez - ex) eqn:Hk; try reflexivity. lia.
Qed.

Lemma Zdigits2_ge (m : Z) : 2 ^ 52 <= m -> 53 <= Zdigits2 m.
Proof.
  intros Hm. assert (0 < 2 ^ 52) by (apply Z.pow_pos_nonneg; lia).
  pose proof (Zdigits2_bounds m ltac:(lia)) as [_ Hhi].
  assert (Hlt : 2 ^ 52 < 2 ^ Zdigits2 m) by lia.
  apply Z.pow_lt_mono_r_iff in Hlt; [lia | lia |].
  destruct m; cbn; lia.
Qed.

(** [binary_round] on a mantissa that keeps its exponent. *)
Lemma binary_round_aligned (m : positive) (e : Z) :
  aligned (Zpos m) e ->
  binary_round prec emax false m e = round_pos (Zpos m) e.
Proof.
  intros Hal. unfold binary_round.
  rewrite shl_align_keep.
  - now apply binary_round_aux_aligned.
  - destruct Hal as (_ & Hd & _). cbn [Zdigits2] in Hd.
    unfold fexp, emin, prec, emax. lia.
Qed.

Lemma good_leb_infinity (L : Z) (f : spec_float) :
  good L f -> SFleb f (S754_infinity false) = true.
Proof. intros [->|(P & E & -> & _)]; reflexivity. Qed.

Lemma good_weaken (L L' : Z) (f : spec_float) :
  L' <= L -> good L f -> good L' f.
Proof.
  intros HL [->|(P & E & -> & HP & HE)]; [now left|].
  right. exists P, E. repeat split; lia.
Qed.

(** [float(i)] *)
Lemma of_int_round (i : Z) :
  1 <= i ->
  exists m e,
    aligned m e /\ -52 <= e
    /\ PyFloat.of_int i = round_pos m e
    /\ m * 2 ^ (e + 52) = i * 2 ^ 52.
Proof.
  intros Hi. destruct i as [|p|p]; try lia.
  unfold PyFloat.of_int, binary_normalize.
  pose proof (digits2_pos_bounds p) as [Hlo Hhi].
  set (d := Zpos (digits2_pos p)) in *.
  destruct (Z.le_gt_cases 53 d) as [Hd|Hd].
  - assert (Hal : aligned (Zpos p) 0).
    { split; [lia|]. cbn [Zdigits2]; fold d; lia. }
    exists (Zpos p), 0. split; [exact Hal|]. split; [lia|].
    split; [now apply binary_round_aligned | lia].
  - unfold binary_round. fold d.
    assert (Hf : fexp prec emax (d + 0) = d - 53).
    { unfold fexp, emin, prec, emax. lia. }
    rewrite Hf.
    destruct (shl_align_value p 0 (d - 53) ltac:(lia)) as [Hv He].
    destruct (shl_align p 0 (d - 53)) as [mz ez]. cbn [fst snd] in Hv, He.
    subst ez. replace (0 - (d - 53)) with (53 - d) in Hv by lia.
    assert (H1 : 2 ^ 52 = 2 ^ (d - 1) * 2 ^ (53 - d)).
    { rewrite <- Z.pow_add_r by lia. f_equal. lia. }
    assert (H2 : 2 ^ 53 = 2 ^ d * 2 ^ (53 - d)).
    { rewrite <- Z.pow_add_r by lia. f_equal. lia. }
    assert (Hp : 0 < 2 ^ (53 - d)) by (apply Z.pow_pos_nonneg; lia).
    assert (Hmz : 2 ^ 52 <= Zpos mz < 2 ^ 53) by (rewrite Hv, H1, H2; nia).
    assert (Hdz : Zdigits2 (Zpos mz) = 53).
    { apply Zdigits2_unique; [|lia]. change (53 - 1) with 52. exact Hmz. }
    assert (Hal : aligned (Zpos mz) (d - 53)).
    { split; [lia|]. rewrite Hdz. lia. }
    exists (Zpos mz), (d - 53). split; [exact Hal|]. split; [lia|].
    split.
    + now apply binary_round_aux_aligned.
    + rewrite Hv. replace (d - 53 + 52) with (d - 1) by lia.
      rewrite <- Z.mul_assoc, (Z.mul_comm (2 ^ (53 - d))), <- H1. reflexivity.
Qed.

Lemma of_int_good (i : Z) : 1 <= i -> good (-52) (PyFloat.of_int i).
Proof.
  intros Hi. destruct (of_int_round i Hi) as (m & e & Hal & He & -> & _).
  now apply round_pos_good.
Qed.

Lemma of_int_mono (i j : Z) :
  1 <= i <= j -> SFleb (PyFloat.of_int i) (PyFloat.of_int j) = true.
Proof.
  intros [Hi Hij].
  destruct (of_int_round i Hi) as (m1 & e1 & Hal1 & He1 & -> & Hv1).
  destruct (of_int_round j ltac:(lia)) as (m2 & e2 & Hal2 & He2 & -> & Hv2).
  apply (round_pos_mono (-52)); try assumption.
  replace (e1 - -52) with (e1 + 52) by lia.
  replace (e2 - -52) with (e2 + 52) by lia.
  rewrite Hv1, Hv2. apply Z.mul_le_mono_nonneg_r; [|lia].
  apply Z.pow_nonneg. lia.
Qed.

(** [x * 0.1] *)
Lemma mul_round (P : positive) (E : Z) :
  2 ^ 52 <= Zpos P < 2 ^ 53 -> -52 <= E ->
  aligned (Zpos P * 7205759403792794) (E - 56)
  /\ PyFloat.mul (S754_finite false P E) PyFloat.c0_1
     = round_pos (Zpos P * 7205759403792794) (E - 56).
Proof.
  intros HP HE.
  assert (H52 : 0 < 2 ^ 52) by (apply Z.pow_pos_nonneg; lia).
  assert (Hal : aligned (Zpos P * 7205759403792794) (E - 56)).
  { assert (Hd : 53 <= Zdigits2 (Zpos P * 7205759403792794))
      by (apply Zdigits2_ge; nia).
    split; [lia|]. split; [exact Hd | lia]. }
  split; [exact Hal|].
  unfold PyFloat.mul, PyFloat.c0_1, SFmul. cbn [xorb].
  rewrite Pos2Z.inj_mul. replace (E + -56) with (E - 56) by lia.
  now apply binary_round_aux_aligned.
Qed.

Lemma mul_good (x : spec_float) :
  good (-52) x -> good (-108) (PyFloat.mul x PyFloat.c0_1).
Proof.
  intros [->|(P & E & -> & HP & HE)]; [now left|].
  destruct (mul_round P E HP HE) as [Hal ->].
  apply round_pos_good; [exact Hal | lia].
Qed.

Lemma mul_mono (x1 x2 : spec_float) :
  good (-52) x1 -> good (-52) x2 ->
  SFleb x1 x2 = true ->
  SFleb (PyFloat.mul x1 PyFloat.c0_1) (PyFloat.mul x2 PyFloat.c0_1) = true.
Proof.
  intros H1 H2 Hle.
  pose proof (mul_good x1 H1) as Hg1.
  destruct H2 as [->|(P2 & E2 & -> & HP2 & HE2)].
  { now apply (good_leb_infinity (-108)). }
  destruct H1 as [->|(P1 & E1 & -> & HP1 & HE1)]; [discriminate Hle|].
  destruct (mul_round P1 E1 HP1 HE1) as [Hal1 ->].
  destruct (mul_round P2 E2 HP2 HE2) as [Hal2 ->].
  apply (round_pos_mono (-108)); try assumption; try lia.
  pose proof (good_leb_value (-52) P1 E1 P2 E2 HP1 HP2 HE1 HE2 Hle) as Hv.
  replace (E1 - 56 - -108) with (E1 - -52) by lia.
  replace (E2 - 56 - -108) with (E2 - -52) by lia.
  nia.
Qed.

(** [0.7 + y] *)
Lemma add_round (P : positive) (E : Z) :
  2 ^ 52 <= Zpos P < 2 ^ 53 -> -108 <= E ->
  exists S ez,
    aligned S ez /\ -108 <= ez
    /\ PyFloat.add PyFloat.c0_7 (S754_finite false P E) = round_pos S ez
    /\ S * 2 ^ (ez + 108) = 6305039478318694 * 2 ^ 55 + Zpos P * 2 ^ (E + 108).
Proof.
  intros HP HE.
  assert (H52 : 0 < 2 ^ 52) by (apply Z.pow_pos_nonneg; lia).
  unfold PyFloat.add, PyFloat.c0_7, SFadd. cbn [cond_Zopp].
  set (ez := Z.min (-53) E).
  destruct (shl_align_value 6305039478318694 (-53) ez ltac:(lia)) as [Hv7 _].
  destruct (shl_align_value P E ez ltac:(lia)) as [HvP _].
  set (a := fst (shl_align 6305039478318694 (-53) ez)) in *.
  set (b := fst (shl_align P E ez)) in *.
  assert (Hpa : 0 < 2 ^ (-53 - ez)) by (apply Z.pow_pos_nonneg; lia).
  assert (Hpb : 0 < 2 ^ (E - ez)) by (apply Z.pow_pos_nonneg; lia).
  change (Zpos a + Zpos b) with (Zpos (a + b)). cbn [binary_normalize].
  assert (Hal : aligned (Zpos (a + b)) ez).
  { assert (Hd : 53 <= Zdigits2 (Zpos (a + b))).
    { apply Zdigits2_ge. rewrite Pos2Z.inj_add, HvP. nia. }
    split; [lia|]. split; [exact Hd | lia]. }
  exists (Zpos (a + b)), ez. split; [exact Hal|]. split; [lia|]. split.
  - now apply binary_round_aligned.
  - rewrite Pos2Z.inj_add, Hv7, HvP, Z.mul_add_distr_r.
    rewrite <- !Z.mul_assoc, <- !Z.pow_add_r by lia.
    replace (-53 - ez + (ez + 108)) with 55 by lia.
    replace (E - ez + (ez + 108)) with (E + 108) by lia.
    reflexivity.
Qed.

Lemma add_base (y : spec_float) :
  good (-108) y -> SFleb PyFloat.c0_7 (PyFloat.add PyFloat.c0_7 y) = true.
Proof.
  intros [->|(P & E & -> & HP & HE)]; [reflexivity|].
  destruct (add_round P E HP HE) as (S & ez & Hal & Hez & -> & Hv).
  assert (Hal7 : aligned 6305039478318694 (-53)).
  { split; [lia|]. cbn. lia. }
  change PyFloat.c0_7 with (round_pos 6305039478318694 (-53)).
  apply (round_pos_mono (-108)); try assumption; try lia.
  replace (ez - -108) with (ez + 108) by lia. rewrite Hv.
  change (-53 - -108) with 55.
  assert (0 <= Zpos P * 2 ^ (E + 108)).
  { apply Z.mul_nonneg_nonneg; [lia|]. apply Z.pow_nonneg. lia. }
  lia.
Qed.

Lemma add_mono (y1 y2 : spec_float) :
  good (-108) y1 -> good (-108) y2 ->
  SFleb y1 y2 = true ->
  SFleb (PyFloat.add PyFloat.c0_7 y1) (PyFloat.add PyFloat.c0_7 y2) = true.
Proof.
  intros H1 H2 Hle.
  destruct H2 as [->|(P2 & E2 & -> & HP2 & HE2)].
  { destruct H1 as [->|(P1 & E1 & -> & HP1 & HE1)]; [reflexivity|].
    destruct (add_round P1 E1 HP1 HE1) as (S & ez & Hal & Hez & -> & _).
    apply (good_leb_infinity (-108)). now apply round_pos_good. }
  destruct H1 as [->|(P1 & E1 & -> & HP1 & HE1)]; [discriminate Hle|].
  destruct (add_round P1 E1 HP1 HE1) as (S1 & ez1 & Hal1 & Hez1 & -> & Hv1).
  destruct (add_round P2 E2 HP2 HE2) as (S2 & ez2 & Hal2 & Hez2 & -> & Hv2).
  apply (round_pos_mono (-108)); try assumption.
  pose proof (good_leb_value (-108) P1 E1 P2 E2 HP1 HP2 HE1 HE2 Hle) as Hv.
  replace (ez1 - -108) with (ez1 + 108) by lia.
  replace (ez2 - -108) with (ez2 + 108) by lia.
  replace (E1 - -108) with (E1 + 108) in Hv by lia.
  replace (E2 - -108) with (E2 + 108) in Hv by lia.
  rewrite Hv1, Hv2. lia.
Qed.

(** The scores of the rounds never decrease. *)
Lemma placeholder_score_mono (i j : Z) :
  0 <= i <= j ->
  SFleb (placeholder_score i) (placeholder_score j) = true.
Proof.
  intros [Hi Hij]. unfold placeholder_score.
  destruct (Z.eq_dec i 0) as [->|Hi0].
  - change (PyFloat.add PyFloat.c0_7
              (PyFloat.mul (PyFloat.of_int 0) PyFloat.c0_1))
      with PyFloat.c0_7.
    destruct (Z.eq_dec j 0) as [->|Hj0]; [reflexivity|].
    apply add_base, mul_good, of_int_good. lia.
  - apply add_mono.
    + apply mul_good, of_int_good. lia.
    + apply mul_good, of_int_good. lia.
    + apply mul_mono.
      * apply of_int_good. lia.
      * apply of_int_good. lia.
      * apply of_int_mono. lia.
Qed.

Lemma SFleb_ltb_not_leb (x y t : spec_float) :
  SFleb x y = true -> SFltb y t = true -> SFleb t x = false.
Proof.
  unfold SFleb, SFltb.
  destruct x as [[]|[]| |[] m1 e1], y as [[]|[]| |[] m2 e2],
           t as [[]|[]| |[] m3 e3];
    cbn; intros H1 H2; try discriminate; try reflexivity; compare_cases.
Qed.

(** A threshold above the score of round [N - 1] is above the scores of
    all the rounds before it, whatever [N] is. *)
Lemma threshold_above_score (N : nat) (threshold : PyFloat.float) :
  SFltb (placeholder_score (Z.of_nat N - 1)) threshold = true ->
  forall i : nat, (i < N)%nat ->
    SFleb threshold (placeholder_score (Z.of_nat i)) = false.
Proof.
  intros Habove i Hi.
  apply (SFleb_ltb_not_leb _ (placeholder_score (Z.of_nat N - 1)));
    [|exact Habove].
  apply placeholder_score_mono. lia.
Qed.

End Binary64Facts.

(** ** The cost tracker *)

Module CostFacts.
Import Cost CostTracker CostSpec.

(** The prices of [MODEL_COSTS] are the binary64 values of the decimal
    literals of the source. *)
#[warning="-inexact-float"]
Lemma prices_binary64 :
  (fun m => (fun p => (input p, output p)) <$> MODEL_COSTS !! m)
    <$> ["gpt-4"; "gpt-4-turbo"; "gpt-4o"; "gpt-3.5-turbo";
         "claude-3-opus-20240229"; "claude-3-sonnet-20240229";
         "claude-3-5-sonnet-20240620"; "claude-3-haiku-20240307";
         "gemini-pro"; "gemini-1.5-pro"; "gemini-1.5-flash"]
  = (fun '(a, b) => Some (Prim2SF a, Prim2SF b))
      <$> [(0.03, 0.06); (0.01, 0.03); (0.005, 0.015); (0.0005, 0.0015);
           (0.015, 0.075); (0.003, 0.015); (0.003, 0.015);
           (0.00025, 0.00125); (0.00025, 0.0005); (0.0035, 0.0105);
           (0.00035, 0.00105)]%float.
Proof. vm_compute. reflexivity. Qed.

(** [tokens / 1000] on some integers: an exact quotient, a quotient of
    an integer beyond 2^53 (rounded once, to [9007199254740992.0]), a
    negative one and one that is out of range. *)
#[warning="-inexact-float"]
Example per_thousand_values :
  per_thousand 1500 = Returns (Prim2SF 1.5%float)
  /\ per_thousand 9007199254740993000
     = Returns (Prim2SF 9007199254740992.0%float)
  /\ per_thousand (-5) = Returns (Prim2SF (-0.005)%float)
  /\ per_thousand (10 ^ 400) = RaisesOverflowError.
Proof. repeat split; vm_compute; reflexivity. Qed.

Lemma sum_input_snoc h c : sum_input (h ++ [c]) = sum_input h + input_tokens c.
Proof.
  unfold sum_input. induction h as [|x h IH]; cbn in *; [lia|].
  rewrite IH. lia.
Qed.

Lemma sum_output_snoc h c :
  sum_output (h ++ [c]) = sum_output h + output_tokens c.
Proof.
  unfold sum_output. induction h as [|x h IH]; cbn in *; [lia|].
  rewrite IH. lia.
Qed.

Lemma sum_cost_snoc h c :
  sum_cost (h ++ [c]) = PyFloat.add (sum_cost h) (cost c).
Proof. unfold sum_cost. now rewrite fold_left_app. Qed.

Lemma step_consistent self op : consistent self -> consistent (step self op).
Proof.
  intros (Hin & Hout & Hcost).
  destruct op as [m i o c|]; cbn [step]; [|repeat split].
  unfold add_call.
  destruct (match c with
            | Some c0 => Returns c0
            | None => estimate_cost self m i o
            end) as [c'|]; cbn [snd]; [|repeat split; assumption].
  unfold consistent;
    cbn [total_input_tokens total_output_tokens total_cost call_history].
  rewrite sum_input_snoc, sum_output_snoc, sum_cost_snoc.
  cbn [input_tokens output_tokens cost].
  now rewrite Hin, Hout, Hcost.
Qed.

Lemma run_ops_consistent ops self :
  consistent self -> consistent (run_ops ops self).
Proof.
  revert self. induction ops as [|op ops IH]; intros self Hc; [exact Hc|].
  unfold run_ops in *. cbn [fold_left]. apply IH. now apply step_consistent.
Qed.

(** After any calls of [add_call] and [reset] on a fresh tracker, whether
    they returned or raised, the totals are those of the recorded calls:
    the token totals are the sums of the token counts of [call_history],
    the total cost is its costs added up in order from [0.0], and the
    summary counts its entries and adds the two token totals. *)
Theorem totals_follow_history (ops : list Op) :
  let self := run_ops ops init in
  let summary := get_summary self in
  summary_input_tokens summary = sum_input (call_history self)
  /\ summary_output_tokens summary = sum_output (call_history self)
  /\ total_tokens summary
     = sum_input (call_history self) + sum_output (call_history self)
  /\ total_cost_usd summary = sum_cost (call_history self)
  /\ total_calls summary = length (call_history self).
Proof.
  cbn zeta. destruct (run_ops_consistent ops init) as (Hin & Hout & Hcost).
  { repeat split. }
  unfold get_summary; cbn. rewrite Hin, Hout, Hcost. repeat split.
Qed.

(** For a model that is not in [MODEL_COSTS], [estimate_cost] returns
    [0.0] whatever the token counts are, and [add_call] without a cost
    returns, having added the token counts to the totals and recorded the
    call with the cost [0.0]. *)
Theorem unpriced_model (self : t) (model_ : string)
    (input_tokens_ output_tokens_ : Z) :
  MODEL_COSTS !! model_ = None ->
  estimate_cost self model_ input_tokens_ output_tokens_
  = Returns PyFloat.c0_0
  /\ add_call self model_ input_tokens_ output_tokens_ None
     = (Returns tt,
        {| total_input_tokens := total_input_tokens self + input_tokens_;
           total_output_tokens := total_output_tokens self + output_tokens_;
           total_cost := PyFloat.add (total_cost self) PyFloat.c0_0;
           call_history :=
             (call_history self
                ++ [ {| model := model_; input_tokens := input_tokens_;
                        output_tokens := output_tokens_;
                        cost := PyFloat.c0_0 |} ])%list |}).
Proof.
  intros Hnone. unfold add_call, estimate_cost. rewrite Hnone. split; reflexivity.
Qed.

Lemma unpriced_model_witness :
  estimate_cost init "gemini-pro-vision" (10 ^ 400) 7 = Returns PyFloat.c0_0
  /\ add_call init "gemini-pro-vision" (10 ^ 400) 7 None
     = (Returns tt,
        {| total_input_tokens := total_input_tokens init + 10 ^ 400;
           total_output_tokens := total_output_tokens init + 7;
           total_cost := PyFloat.add (total_cost init) PyFloat.c0_0;
           call_history :=
             (call_history init
                ++ [ {| model := "gemini-pro-vision";
                        input_tokens := 10 ^ 400;
                        output_tokens := 7;
                        cost := PyFloat.c0_0 |} ])%list |}).
Proof.
  apply (unpriced_model init "gemini-pro-vision" (10 ^ 400) 7). reflexivity.
Defined.

Lemma prices_positive :
  map_Forall
    (fun _ p => exists mi ei mo eo,
         p = {| input := lit mi ei; output := lit mo eo |})
    MODEL_COSTS.
Proof.
  apply map_Forall_to_list.
  let l := eval vm_compute in (map_to_list MODEL_COSTS) in
  replace (map_to_list MODEL_COSTS) with l by (vm_compute; reflexivity).
  repeat (constructor; [do 4 eexists; reflexivity|]). constructor.
Qed.

(** A call without tokens costs [0.0], whatever the model is. *)
Theorem no_tokens_no_cost (self : t) (model_ : string) :
  estimate_cost self model_ 0 0 = Returns PyFloat.c0_0.
Proof.
  unfold estimate_cost.
  destruct (MODEL_COSTS !! model_) as [p|] eqn:Hp; [|reflexivity].
  destruct (prices_positive model_ p Hp) as (mi & ei & mo & eo & ->).
  reflexivity.
Qed.

Lemma listed_of_priced :
  map_Forall
    (fun m _ => m ∈ listed_models /\ m <> "gemini-pro-vision")
    MODEL_COSTS.
Proof.
  apply map_Forall_to_list.
  let l := eval vm_compute in (map_to_list MODEL_COSTS) in
  replace (map_to_list MODEL_COSTS) with l by (vm_compute; reflexivity). unfold listed_models. cbn [Vendor_get_available_models app].
  repeat (constructor; [split; [set_solver | discriminate]|]). constructor.
Qed.

(** The priced models are the models the three vendor adapters list, but
    for gemini-pro-vision, which the Gemini adapter lists and the table
    does not price; none of the models of the mock provider is priced. *)
Theorem priced_models (model_ : string) :
  (is_Some (MODEL_COSTS !! model_)
   <-> model_ ∈ listed_models /\ model_ <> "gemini-pro-vision")
  /\ (model_ ∈ MockProvider.get_available_models MockProvider.init ->
      MODEL_COSTS !! model_ = None).
Proof.
  split; [split|].
  - intros [p Hp]. exact (listed_of_priced model_ p Hp).
  - intros [Hin Hne]. unfold listed_models in Hin.
    cbn [Vendor_get_available_models app] in Hin.
    repeat (apply elem_of_cons in Hin as [->|Hin];
            [first [congruence | vm_compute; eauto]|]).
    now apply elem_of_nil in Hin.
  - unfold MockProvider.get_available_models. intros Hin.
    repeat (apply elem_of_cons in Hin as [->|Hin]; [reflexivity|]).
    now apply elem_of_nil in Hin.
Qed.

End CostFacts.

(** ** The registry over sequences of calls *)

Module RegistryFacts.
Import AIFramework Session AIFrameworkSpec AIFrameworkFacts RegistrySpec.

(** *** Dispatch *)

(** On a role bound to a mock handle, an extra option named [model] or
    [temperature] makes the call of [generate] a [TypeError]: [dispatch]
    raises it and the registry, the counter of the handle included, is as
    it was. *)
Theorem dispatch_option_clash (self : t) (role : Role) (prompt : string)
    (ctx : option kwargs) (kw : kwargs) (cfg : AgentConfig)
    (m : MockProvider.t) :
  _agents self !! role = Some cfg ->
  _providers self !! provider cfg = Some (PMock m) ->
  is_Some (kw !! "model") \/ is_Some (kw !! "temperature") ->
  dispatch self role prompt ctx kw = (Raise TypeError, self).
Proof.
  intros Hcfg Hm Hclash. unfold dispatch, dispatch_via. rewrite Hcfg, Hm.
  assert (Hc : clashes kw = true).
  { unfold clashes. apply orb_true_iff.
    destruct Hclash; [left | right]; now apply bool_decide_eq_true. }
  now rewrite Hc.
Qed.

Lemma dispatch_option_clash_witness :
  dispatch mock_registry GENERATOR "Test prompt" None
    {[ "model" := VStr "gpt-4" ]}
  = (Raise TypeError, mock_registry).
Proof.
  apply (dispatch_option_clash mock_registry GENERATOR "Test prompt" None
           {[ "model" := VStr "gpt-4" ]}
           (binding "test" "test-model" PRO PyFloat.c0_7 ∅)
           MockProvider.init).
  - reflexivity.
  - reflexivity.
  - left. eexists. reflexivity.
Defined.

(** [dispatch] looks at no more than the first 50 characters of the
    prompt and not at the context: two calls whose prompts agree on
    these characters give the same result and the same registry. *)
Theorem dispatch_reads_50 (self : t) (role : Role) (prompt1 prompt2 : string)
    (ctx1 ctx2 : option kwargs) (kw : kwargs) :
  String.substring 0 50 prompt1 = String.substring 0 50 prompt2 ->
  dispatch self role prompt1 ctx1 kw = dispatch self role prompt2 ctx2 kw.
Proof.
  intros H50. unfold dispatch, dispatch_via, placeholder, MockProvider.generate.
  destruct (_agents self !! role) as [cfg|]; [|reflexivity].
  destruct (_providers self !! provider cfg) as [[m|v]|]; [| |reflexivity].
  - destruct (clashes kw); [reflexivity|]. now rewrite H50.
  - now rewrite H50.
Qed.

Lemma dispatch_reads_50_witness :
  dispatch mock_registry GENERATOR (MockProviderSpec.xs 50 +:+ "one") None ∅
  = dispatch mock_registry GENERATOR (MockProviderSpec.xs 50 +:+ "two")
      (Some ∅) ∅.
Proof.
  apply (dispatch_reads_50 mock_registry GENERATOR). reflexivity.
Defined.

Lemma dispatch_keeps (self : t) (role : Role) (prompt : string)
    (ctx : option kwargs) (kw : kwargs) :
  let self' := snd (dispatch self role prompt ctx kw) in
  _agents self' = _agents self
  /\ _prompts self' = _prompts self
  /\ (forall name,
        handle_class <$> _providers self' !! name
        = handle_class <$> _providers self !! name)
  /\ (forall name cfg,
        _agents self !! role = Some cfg ->
        name <> provider cfg ->
        _providers self' !! name = _providers self !! name)
  /\ (forall name m,
        _providers self !! name = Some (PMock m) ->
        exists m',
          _providers self' !! name = Some (PMock m')
          /\ MockProvider.call_count m <= MockProvider.call_count m'
             <= MockProvider.call_count m + 1).
Proof.
  cbn zeta. split; [apply dispatch_agents|]. split; [apply dispatch_prompts|].
  unfold dispatch, dispatch_via.
  destruct (_agents self !! role) as [cfg|] eqn:Hcfg.
  2:{ repeat split; try done. intros name m Hm. exists m. split; [done|lia]. }
  destruct (_providers self !! provider cfg) as [[m0|v]|] eqn:Hp.
  2,3: repeat split; try done; intros name m Hm; exists m; split; [done|lia].
  destruct (clashes kw).
  { repeat split; try done. intros name m Hm. exists m. split; [done|lia]. }
  cbn [snd MockProvider.generate _providers]. repeat split.
  - intros name. destruct (decide (provider cfg = name)) as [<-|Hne].
    + now rewrite lookup_insert_eq, Hp.
    + now rewrite lookup_insert_ne.
  - intros name cfg' Hcfg' Hne. injection Hcfg' as <-.
    now rewrite lookup_insert_ne.
  - intros name m Hm. destruct (decide (provider cfg = name)) as [<-|Hne].
    + rewrite lookup_insert_eq. rewrite Hp in Hm. injection Hm as <-.
      eexists. split; [reflexivity|]. cbn. lia.
    + rewrite lookup_insert_ne by done. exists m. split; [done|lia].
Qed.

(** What a [dispatch] leaves as it is, whether it returns or raises:
    the bindings, the prompts, the names of the cache and the class of
    each handle, and the handles under every name but that of the
    dispatched role's binding; the counter of a mock handle grows by one
    at most. *)
Theorem dispatch_frame (self : t) (role : Role) (prompt : string)
    (ctx : option kwargs) (kw : kwargs) :
  let self' := snd (dispatch self role prompt ctx kw) in
  _agents self' = _agents self
  /\ _prompts self' = _prompts self
  /\ (forall name,
        handle_class <$> _providers self' !! name
        = handle_class <$> _providers self !! name)
  /\ (forall name cfg,
        _agents self !! role = Some cfg ->
        name <> provider cfg ->
        _providers self' !! name = _providers self !! name)
  /\ (forall name m,
        _providers self !! name = Some (PMock m) ->
        exists m',
          _providers self' !! name = Some (PMock m')
          /\ MockProvider.call_count m <= MockProvider.call_count m'
             <= MockProvider.call_count m + 1).
Proof. exact (dispatch_keeps self role prompt ctx kw). Qed.

(** *** Handles over a sequence of calls *)

Lemma step_handle env self c name :
  (forall m,
      _providers self !! name = Some (PMock m) ->
      exists m',
        _providers (step env self c) !! name = Some (PMock m')
        /\ MockProvider.call_count m <= MockProvider.call_count m')
  /\ (forall v,
        _providers self !! name = Some (PVendor v) ->
        _providers (step env self c) !! name = Some (PVendor v)).
Proof.
  destruct c as [role pn mn tr temp kw|role prompt ctx kw|n filepath|n];
    cbn [step].
  - assert (Hkeep : forall p, _providers self !! name = Some p ->
              _providers (snd (configure_agent env self role pn mn tr temp kw))
              !! name = Some p).
    { intros p Hp. unfold configure_agent; cbn.
      destruct (_providers self !! pn) as [q|] eqn:Hq; [exact Hp|].
      destruct (_get_provider env pn); [|exact Hp]. cbn.
      rewrite lookup_insert_ne; [exact Hp|]. intros ->. congruence. }
    split.
    + intros m Hm. exists m. split; [now apply Hkeep | lia].
    + intros v Hv. now apply Hkeep.
  - destruct (dispatch_keeps self role prompt ctx kw)
      as (_ & _ & Hclass & _ & Hcount).
    split.
    + intros m Hm. destruct (Hcount name m Hm) as (m' & Hm' & Hle).
      exists m'. split; [exact Hm' | lia].
    + intros v Hv. specialize (Hclass name). rewrite Hv in Hclass.
      destruct (_providers (snd (dispatch self role prompt ctx kw)) !! name)
        as [[m|v']|]; cbn in Hclass; congruence.
  - unfold load_prompt. destruct (read_file env filepath); cbn.
    + split; [intros m Hm; exists m; split; [done|lia] | done].
    + split; [intros m Hm; exists m; split; [done|lia] | done].
  - split; [intros m Hm; exists m; split; [done|lia] | done].
Qed.

(** A handle, once cached, stays under its name through any calls on
    the registry: a vendor adapter stays that adapter, a mock provider
    stays a mock provider and its counter never goes down. *)
Theorem handles_persist (env : Env) (calls : list Call) (self : t)
    (name : string) :
  (forall m,
      _providers self !! name = Some (PMock m) ->
      exists m',
        _providers (run_calls env calls self) !! name = Some (PMock m')
        /\ MockProvider.call_count m <= MockProvider.call_count m')
  /\ (forall v,
        _providers self !! name = Some (PVendor v) ->
        _providers (run_calls env calls self) !! name = Some (PVendor v)).
Proof.
  revert self. induction calls as [|c calls IH]; intros self.
  - split; [intros m Hm; exists m; split; [done|lia] | done].
  - unfold run_calls in *. cbn [fold_left].
    destruct (step_handle env self c name) as [Hmock Hvendor].
    destruct (IH (step env self c)) as [IHmock IHvendor].
    split.
    + intros m Hm. destruct (Hmock m Hm) as (m1 & Hm1 & Hle1).
      destruct (IHmock m1 Hm1) as (m2 & Hm2 & Hle2).
      exists m2. split; [exact Hm2 | lia].
    + intros v Hv. apply IHvendor. now apply Hvendor.
Qed.

Lemma handles_persist_witness :
  exists m',
    _providers
      (run_calls bare_env
         [CallDispatch GENERATOR "Test prompt" None ∅;
          CallConfigure REVIEWER "test" "other" FLASH PyFloat.c0_1 ∅;
          CallDispatch REVIEWER "Test prompt" None ∅]
         mock_registry) !! "test" = Some (PMock m')
    /\ MockProvider.call_count MockProvider.init <= MockProvider.call_count m'.
Proof.
  apply (handles_persist bare_env _ mock_registry "test"). reflexivity.
Defined.

(** *** Bindings and the cache *)

Lemma step_bound_cached env self c :
  (forall v, vendor_ctor env v <> CtorRaises) ->
  bound_cached self -> bound_cached (step env self c).
Proof.
  intros Hctor Hinv.
  destruct c as [role pn mn tr temp kw|role prompt ctx kw|n filepath|n];
    cbn [step].
  - unfold configure_agent; cbn.
    assert (Hother : forall (ps : gmap string Provider) r cfg,
               (forall name, is_Some (_providers self !! name) ->
                             is_Some (ps !! name)) ->
               is_Some (ps !! pn) ->
               <[role := {| provider := pn; model := mn; tier := tr;
                            temperature := temp; extra := kw |}]>
                 (_agents self) !! r = Some cfg ->
               is_Some (ps !! provider cfg)).
    { intros ps r cfg Hmono Hpn Hr.
      destruct (decide (role = r)) as [<-|Hne].
      - rewrite lookup_insert_eq in Hr. injection Hr as <-. exact Hpn.
      - rewrite lookup_insert_ne in Hr by done.
        apply Hmono. now apply (Hinv r). }
    destruct (_providers self !! pn) as [q|] eqn:Hq.
    + intros r cfg Hr. cbn in *.
      apply (Hother (_providers self) r cfg); [done | rewrite Hq; eauto | done].
    + destruct (_get_provider_returns env pn Hctor) as [p ->].
      intros r cfg Hr. cbn in *.
      apply (Hother (<[pn := p]> (_providers self)) r cfg); [| |done].
      * intros name Hn. destruct (decide (pn = name)) as [<-|Hne].
        -- rewrite lookup_insert_eq. eauto.
        -- now rewrite lookup_insert_ne.
      * rewrite lookup_insert_eq. eauto.
  - intros r cfg Hr. rewrite dispatch_agents in Hr.
    apply dispatch_cached. now apply (Hinv r).
  - unfold load_prompt. destruct (read_file env filepath); exact Hinv.
  - exact Hinv.
Qed.

(** Where the vendor constructors raise nothing but [ImportError],
    after any calls on a fresh registry every binding names a cached
    provider, so that no [dispatch] raises [KeyError]: it returns, or it
    raises [RoleNotConfiguredError] or [TypeError]. *)
Theorem no_key_error (env : Env) (calls : list Call) :
  (forall v, vendor_ctor env v <> CtorRaises) ->
  let self := run_calls env calls init in
  bound_cached self
  /\ forall role prompt ctx kw,
       (exists text, fst (dispatch self role prompt ctx kw) = Ok text)
       \/ fst (dispatch self role prompt ctx kw)
          = Raise (RoleNotConfiguredError (Role_value role))
       \/ fst (dispatch self role prompt ctx kw) = Raise TypeError.
Proof.
  intros Hctor. cbn zeta.
  assert (Hinv : forall self, bound_cached self ->
                              bound_cached (run_calls env calls self)).
  { induction calls as [|c calls IH]; intros self Hs; [exact Hs|].
    unfold run_calls in *. cbn [fold_left]. apply IH.
    now apply step_bound_cached. }
  assert (Hinit : bound_cached init).
  { intros role cfg Hr. cbn in Hr. now rewrite lookup_empty in Hr. }
  specialize (Hinv init Hinit). split; [exact Hinv|].
  intros role prompt ctx kw. unfold dispatch, dispatch_via.
  destruct (_agents (run_calls env calls init) !! role) as [cfg|] eqn:Hcfg;
    [|right; left; reflexivity].
  destruct (Hinv role cfg Hcfg) as [[m|v] ->].
  - destruct (clashes kw); [right; right; reflexivity | left; eauto].
  - left. eauto.
Qed.

Lemma no_key_error_witness :
  let self :=
    run_calls bare_env
      [CallConfigure GENERATOR "openai" "gpt-4" PRO PyFloat.c0_7 ∅;
       CallLoadPrompt "p" "missing.txt";
       CallConfigure GENERATOR "test" "test-model" PRO PyFloat.c0_7 ∅]
      init in
  bound_cached self
  /\ forall role prompt ctx kw,
       (exists text, fst (dispatch self role prompt ctx kw) = Ok text)
       \/ fst (dispatch self role prompt ctx kw)
          = Raise (RoleNotConfiguredError (Role_value role))
       \/ fst (dispatch self role prompt ctx kw) = Raise TypeError.
Proof.
  apply (no_key_error bare_env). intros v. discriminate.
Defined.

(** If building the provider raises, [configure_agent] raises the same
    after it has stored the binding: the role is then bound to a name
    that is not cached, and every [dispatch] to it raises [KeyError]
    with that name. *)
Theorem failed_configure (env : Env) (self : t) (role : Role)
    (name mn : string) (tr : ModelTier) (temp : PyFloat.float)
    (kw : kwargs) (e : Error) :
  _providers self !! name = None ->
  _get_provider env name = Raise e ->
  let self' :=
    {| _agents := <[role := binding name mn tr temp kw]> (_agents self);
       _providers := _providers self;
       _prompts := _prompts self |} in
  configure_agent env self role name mn tr temp kw = (Raise e, self')
  /\ forall prompt ctx kw',
       dispatch self' role prompt ctx kw' = (Raise (KeyError name), self').
Proof.
  intros Hnone Hget. cbn zeta. split.
  - unfold configure_agent; cbn. now rewrite Hnone, Hget.
  - intros prompt ctx kw'. unfold dispatch, dispatch_via; cbn.
    now rewrite lookup_insert_eq; cbn; rewrite Hnone.
Qed.

Lemma failed_configure_witness :
  let self' :=
    {| _agents :=
         <[GENERATOR := binding "openai" "gpt-4" PRO PyFloat.c0_7 ∅]>
           (_agents init);
       _providers := _providers init;
       _prompts := _prompts init |} in
  configure_agent broken_env init GENERATOR "openai" "gpt-4" PRO
    PyFloat.c0_7 ∅
  = (Raise (VendorError OpenAI), self')
  /\ forall prompt ctx kw',
       dispatch self' GENERATOR prompt ctx kw'
       = (Raise (KeyError "openai"), self').
Proof.
  apply (failed_configure broken_env init GENERATOR "openai" "gpt-4" PRO
           PyFloat.c0_7 ∅ (VendorError OpenAI)); reflexivity.
Defined.

(** *** Without the vendor packages *)

Lemma step_all_mock env self c :
  (forall v, vendor_ctor env v = CtorImportError) ->
  (forall name p, _providers self !! name = Some p -> handle_class p = None) ->
  forall name p,
    _providers (step env self c) !! name = Some p -> handle_class p = None.
Proof.
  intros Himp Hinv name p.
  destruct c as [role pn mn tr temp kw|role prompt ctx kw|n filepath|n];
    cbn [step].
  - unfold configure_agent; cbn.
    destruct (_providers self !! pn) as [q|] eqn:Hq; [apply Hinv|].
    rewrite (_get_provider_import_error env pn Himp). cbn.
    destruct (decide (pn = name)) as [<-|Hne].
    + rewrite lookup_insert_eq. now intros [= <-].
    + rewrite lookup_insert_ne by done. apply Hinv.
  - intros Hp.
    destruct (dispatch_keeps self role prompt ctx kw) as (_ & _ & Hclass & _).
    specialize (Hclass name). rewrite Hp in Hclass. cbn in Hclass.
    destruct (_providers self !! name) as [q|] eqn:Hq; [|discriminate].
    cbn in Hclass. injection Hclass as ->. now apply (Hinv name q).
  - unfold load_prompt. destruct (read_file env filepath); apply Hinv.
  - apply Hinv.
Qed.

(** Where importing the vendor packages fails, every handle cached by
    any calls on a fresh registry is a mock provider, also under the
    names openai, anthropic, google and gemini; so a [dispatch] that
    returns has called [generate] of a mock provider and returns its
    text, "[Mock <bound model>] Response to: <prompt[:50]>...". *)
Theorem all_mock_without_packages (env : Env) (calls : list Call) :
  (forall v, vendor_ctor env v = CtorImportError) ->
  let self := run_calls env calls init in
  (forall name p, _providers self !! name = Some p -> exists m, p = PMock m)
  /\ forall role prompt ctx kw text,
       fst (dispatch self role prompt ctx kw) = Ok text ->
       exists cfg,
         _agents self !! role = Some cfg
         /\ text = "[Mock " +:+ model cfg +:+ "] Response to: "
                      +:+ String.substring 0 50 prompt +:+ "...".
Proof.
  intros Himp. cbn zeta.
  assert (Hinv : forall self,
             (forall name p, _providers self !! name = Some p ->
                             handle_class p = None) ->
             forall name p,
               _providers (run_calls env calls self) !! name = Some p ->
               handle_class p = None).
  { induction calls as [|c calls IH]; intros self Hs; [exact Hs|].
    unfold run_calls in *. cbn [fold_left]. apply IH.
    now apply step_all_mock. }
  assert (Hmock : forall name p,
             _providers (run_calls env calls init) !! name = Some p ->
             exists m, p = PMock m).
  { intros name p Hp.
    assert (Hc : handle_class p = None).
    { apply (Hinv init) with name; [|exact Hp].
      intros n q Hq. cbn in Hq. now rewrite lookup_empty in Hq. }
    destruct p as [m|v]; [eauto | discriminate]. }
  split; [exact Hmock|].
  intros role prompt ctx kw text. unfold dispatch, dispatch_via.
  destruct (_agents (run_calls env calls init) !! role) as [cfg|] eqn:Hcfg;
    [|discriminate].
  destruct (_providers (run_calls env calls init) !! provider cfg)
    as [p|] eqn:Hp; [|discriminate].
  destruct (Hmock _ _ Hp) as [m ->].
  destruct (clashes kw); [discriminate|]. cbn. intros [= <-]. eauto.
Qed.

Lemma all_mock_without_packages_witness :
  let self :=
    run_calls bare_env
      [CallConfigure GENERATOR "openai" "gpt-4" PRO PyFloat.c0_7 ∅;
       CallConfigure REVIEWER "gemini" "gemini-pro" FLASH PyFloat.c0_1 ∅]
      init in
  (forall name p, _providers self !! name = Some p -> exists m, p = PMock m)
  /\ forall role prompt ctx kw text,
       fst (dispatch self role prompt ctx kw) = Ok text ->
       exists cfg,
         _agents self !! role = Some cfg
         /\ text = "[Mock " +:+ model cfg +:+ "] Response to: "
                      +:+ String.substring 0 50 prompt +:+ "...".
Proof.
  apply (all_mock_without_packages bare_env). intros v. reflexivity.
Defined.

(** *** How calls compose *)

Lemma configure_snd env self role pn mn tr temp kw :
  snd (configure_agent env self role pn mn tr temp kw)
  = {| _agents := <[role := binding pn mn tr temp kw]> (_agents self);
       _providers :=
         match _providers self !! pn with
         | Some _ => _providers self
         | None =>
           match _get_provider env pn with
           | Ok p => <[pn := p]> (_providers self)
           | Raise _ => _providers self
           end
         end;
       _prompts := _prompts self |}.
Proof.
  unfold configure_agent; cbn.
  destruct (_providers self !! pn); [reflexivity|].
  destruct (_get_provider env pn); reflexivity.
Qed.

(** Two configurations of different roles can be made in either order:
    the registry that results is the same, whether the two name the
    same provider or not and whether building a provider raises or
    not. *)
Theorem configure_commute (env : Env) (self : t) (role1 role2 : Role)
    (pn1 mn1 : string) (tr1 : ModelTier) (temp1 : PyFloat.float)
    (kw1 : kwargs)
    (pn2 mn2 : string) (tr2 : ModelTier) (temp2 : PyFloat.float)
    (kw2 : kwargs) :
  role1 <> role2 ->
  snd (configure_agent env
         (snd (configure_agent env self role1 pn1 mn1 tr1 temp1 kw1))
         role2 pn2 mn2 tr2 temp2 kw2)
  = snd (configure_agent env
           (snd (configure_agent env self role2 pn2 mn2 tr2 temp2 kw2))
           role1 pn1 mn1 tr1 temp1 kw1).
Proof.
  intros Hne. rewrite !configure_snd. cbn [_agents _providers _prompts].
  f_equal.
  - now apply insert_insert_ne.
  - destruct (decide (pn1 = pn2)) as [<-|Hpn].
    + destruct (_providers self !! pn1) as [p|] eqn:Hp; [now rewrite Hp|].
      destruct (_get_provider env pn1) as [p|e]; [|now rewrite Hp].
      now rewrite lookup_insert_eq.
    + destruct (_providers self !! pn1) as [p1|] eqn:Hp1,
               (_providers self !! pn2) as [p2|] eqn:Hp2;
        rewrite ?Hp1, ?Hp2; try reflexivity.
      * destruct (_get_provider env pn2) as [q2|e2]; [|now rewrite Hp1].
        now rewrite lookup_insert_ne, Hp1 by done.
      * destruct (_get_provider env pn1) as [q1|e1]; [|now rewrite Hp2].
        now rewrite lookup_insert_ne, Hp2 by done.
      * destruct (_get_provider env pn1) as [q1|e1],
                 (_get_provider env pn2) as [q2|e2];
          rewrite ?lookup_insert_ne, ?Hp1, ?Hp2 by done; try reflexivity.
        now apply insert_insert_ne.
Qed.

Lemma configure_commute_witness :
  snd (configure_agent broken_env
         (snd (configure_agent broken_env init GENERATOR "openai" "gpt-4" PRO
                 PyFloat.c0_7 ∅))
         REVIEWER "test" "test-model" FLASH PyFloat.c0_1 ∅)
  = snd (configure_agent broken_env
           (snd (configure_agent broken_env init REVIEWER "test" "test-model"
                   FLASH PyFloat.c0_1 ∅))
           GENERATOR "openai" "gpt-4" PRO PyFloat.c0_7 ∅).
Proof.
  apply (configure_commute broken_env init GENERATOR REVIEWER). discriminate.
Defined.

Lemma dispatch_answer f f' role prompt ctx ctx' kw :
  _agents f = _agents f' ->
  (forall name,
      handle_class <$> _providers f !! name
      = handle_class <$> _providers f' !! name) ->
  fst (dispatch f role prompt ctx kw) = fst (dispatch f' role prompt ctx' kw).
Proof.
  intros Ha Hc. unfold dispatch, dispatch_via. rewrite <- Ha.
  destruct (_agents f !! role) as [cfg|]; [|reflexivity].
  specialize (Hc (provider cfg)).
  destruct (_providers f !! provider cfg) as [[m|v]|],
           (_providers f' !! provider cfg) as [[m'|v']|];
    cbn in Hc; try congruence; try reflexivity.
  destruct (clashes kw); reflexivity.
Qed.

(** What [dispatch] answers changes with [configure_agent] only: after
    any calls of [dispatch], [load_prompt] and [get_prompt], a dispatch
    returns the text, or raises the error, that it would have returned or
    raised before them. *)
Theorem answers_stable (env : Env) (calls : list Call) (self : t)
    (role : Role) (prompt : string) (ctx : option kwargs) (kw : kwargs) :
  forallb (fun c => negb (is_configure c)) calls = true ->
  fst (dispatch (run_calls env calls self) role prompt ctx kw)
  = fst (dispatch self role prompt ctx kw).
Proof.
  intros Hall.
  enough (Hakin : _agents (run_calls env calls self) = _agents self
                  /\ forall name,
                       handle_class <$> _providers (run_calls env calls self)
                                          !! name
                       = handle_class <$> _providers self !! name).
  { destruct Hakin as [Ha Hc]. now apply dispatch_answer. }
  revert self. induction calls as [|c calls IH]; intros self; [now split|].
  cbn in Hall. apply andb_prop in Hall as [Hc Hall].
  unfold run_calls in *. cbn [fold_left].
  destruct (IH Hall (step env self c)) as [Ha Hcl].
  assert (Hstep : _agents (step env self c) = _agents self
                  /\ forall name,
                       handle_class <$> _providers (step env self c) !! name
                       = handle_class <$> _providers self !! name).
  { destruct c as [r pn mn tr temp kw0|r p0 c0 kw0|n filepath|n];
      cbn [step]; [discriminate| | |now split].
    - destruct (dispatch_keeps self r p0 c0 kw0) as (Hag & _ & Hclass & _).
      now split.
    - unfold load_prompt. destruct (read_file env filepath); now split. }
  destruct Hstep as [Ha' Hcl']. split; [congruence|].
  intros name. now rewrite Hcl, Hcl'.
Qed.

Lemma answers_stable_witness :
  fst (dispatch
         (run_calls bare_env
            [CallDispatch GENERATOR "one" None ∅;
             CallLoadPrompt "p" "missing.txt";
             CallDispatch GENERATOR "two" None ∅] mock_registry)
         GENERATOR "Test prompt" None ∅)
  = fst (dispatch mock_registry GENERATOR "Test prompt" None ∅).
Proof.
  apply (answers_stable bare_env _ mock_registry GENERATOR). reflexivity.
Defined.

(** *** Prompts *)



Example load_prompt_undecodable :
  load_prompt file_env init "p" "binary.dat"
  = (Raise (UnicodeDecodeError "binary.dat"), init).
Proof. reflexivity. Qed.

End RegistryFacts.

(** ** Runs of the pipeline *)

Module RunFacts.
Import AIFramework AIFrameworkSpec AIFrameworkFacts RegistrySpec RegistryFacts
  CAIRPipeline CAIRPipelineSpec CAIRPipelineFacts RunSpec.

(** *** Runs that raise *)

(** Without a binding for the generator role, [execute] raises the
    [RoleNotConfiguredError] of that role at its first dispatch, with
    the registry as it was. *)
Theorem generator_unconfigured (self : t) (prompt : string)
    (ctx : option kwargs) :
  _agents (framework self) !! generator_role self = None ->
  run self prompt ctx
  = (Raise (RoleNotConfiguredError (Role_value (generator_role self))),
     {| fw := framework self;
        dispatched := [(generator_role self, prompt)] |}).
Proof.
  intros Hnone. unfold run, execute, bind, call_dispatch, dispatch, dispatch_via.
  cbn [fw dispatched]. now rewrite Hnone.
Qed.

Lemma generator_unconfigured_witness :
  run (init GENERATOR REVIEWER REFINER QA_ANALYST 3 c0_85) "Test prompt" None
  = (Raise (RoleNotConfiguredError "generator"),
     {| fw := AIFramework.init;
        dispatched := [(GENERATOR, "Test prompt")] |}).
Proof.
  apply (generator_unconfigured
           (init GENERATOR REVIEWER REFINER QA_ANALYST 3 c0_85)).
  reflexivity.
Defined.

Lemma call_dispatch_unconfigured role prompt ctx s :
  _agents (fw s) !! role = None ->
  call_dispatch role prompt ctx s
  = (Raise (RoleNotConfiguredError (Role_value role)),
     {| fw := fw s;
        dispatched := (dispatched s ++ [(role, prompt)])%list |}).
Proof. intros Hnone. unfold call_dispatch, dispatch, dispatch_via. now rewrite Hnone. Qed.

Lemma call_dispatch_returns role prompt ctx s :
  ready (fw s) role ->
  exists text,
    dispatch (fw s) role prompt ctx ∅
    = (Ok text, snd (dispatch (fw s) role prompt ctx ∅))
    /\ call_dispatch role prompt ctx s
       = (Ok text,
          {| fw := snd (dispatch (fw s) role prompt ctx ∅);
             dispatched := (dispatched s ++ [(role, prompt)])%list |}).
Proof.
  intros Hready. destruct (dispatch_ready (fw s) role prompt ctx Hready)
    as [text Htext].
  exists text. unfold call_dispatch.
  destruct (dispatch (fw s) role prompt ctx ∅) as [res f'].
  cbn [fst snd] in *. now subst res.
Qed.

(** With the generator role ready and at least one round to run, a
    reviewer role or a refiner role without a binding makes [execute]
    raise the [RoleNotConfiguredError] of that role in the first round;
    the dispatches made before it stay made (a mock provider has counted
    them) and no result is returned. *)
Theorem round_role_unconfigured (self : t) (prompt : string)
    (ctx : option kwargs) :
  ready (framework self) (generator_role self) ->
  0 < max_iterations self ->
  exists generated f1,
    dispatch (framework self) (generator_role self) prompt ctx ∅
    = (Ok generated, f1)
    /\ (_agents (framework self) !! reviewer_role self = None ->
        run self prompt ctx
        = (Raise (RoleNotConfiguredError (Role_value (reviewer_role self))),
           {| fw := f1;
              dispatched :=
                [(generator_role self, prompt);
                 (reviewer_role self,
                  "Review this output: " +:+ generated)] |}))
    /\ (ready (framework self) (reviewer_role self) ->
        _agents (framework self) !! refiner_role self = None ->
        exists feedback f2,
          dispatch f1 (reviewer_role self)
            ("Review this output: " +:+ generated) ctx ∅
          = (Ok feedback, f2)
          /\ run self prompt ctx
             = (Raise (RoleNotConfiguredError
                         (Role_value (refiner_role self))),
                {| fw := f2;
                   dispatched :=
                     [(generator_role self, prompt);
                      (reviewer_role self,
                       "Review this output: " +:+ generated);
                      (refiner_role self,
                       "Refine based on feedback: " +:+ feedback)] |})).
Proof.
  intros Hgen Hpos.
  destruct (call_dispatch_returns (generator_role self) prompt ctx
              {| fw := framework self; dispatched := [] |} Hgen)
    as (generated & Hd & Hcall).
  cbn [fw dispatched app] in Hd, Hcall.
  set (f1 := snd (dispatch (framework self) (generator_role self) prompt
                    ctx ∅)) in *.
  exists generated, f1. split; [exact Hd|].
  assert (Hag : _agents f1 = _agents (framework self))
    by apply dispatch_agents.
  destruct (Z.to_nat (max_iterations self)) as [|n] eqn:Hn; [lia|].
  split.
  - intros Hnone. unfold run, execute. unfold bind at 1. rewrite Hcall.
    rewrite Hn. cbn [refine_loop]. unfold bind.
    rewrite call_dispatch_unconfigured by (cbn [fw]; now rewrite Hag).
    reflexivity.
  - intros Hrev Hnone.
    assert (Hrev1 : ready f1 (reviewer_role self))
      by now apply ready_after_dispatch.
    destruct (call_dispatch_returns (reviewer_role self)
                ("Review this output: " +:+ generated) ctx
                {| fw := f1; dispatched := [(generator_role self, prompt)] |}
                Hrev1) as (feedback & Hd2 & Hcall2).
    cbn [fw dispatched] in Hd2, Hcall2.
    set (f2 := snd (dispatch f1 (reviewer_role self)
                      ("Review this output: " +:+ generated) ctx ∅)) in *.
    exists feedback, f2. split; [exact Hd2|].
    unfold run, execute. unfold bind at 1. rewrite Hcall.
    rewrite Hn. cbn [refine_loop]. unfold bind. rewrite Hcall2.
    rewrite call_dispatch_unconfigured.
    + reflexivity.
    + cbn [fw]. unfold f2. now rewrite dispatch_agents, Hag.
Qed.

Lemma round_role_unconfigured_witness :
  exists generated f1,
    dispatch mock_registry GENERATOR "Test prompt" None ∅ = (Ok generated, f1)
    /\ run (generator_only 3 c0_85) "Test prompt" None
       = (Raise (RoleNotConfiguredError "reviewer"),
          {| fw := f1;
             dispatched :=
               [(GENERATOR, "Test prompt");
                (REVIEWER, "Review this output: " +:+ generated)] |}).
Proof.
  destruct (round_role_unconfigured (generator_only 3 c0_85) "Test prompt"
              None) as (generated & f1 & Hd & Hrev & _).
  - solve_ready.
  - reflexivity.
  - exists generated, f1. split; [exact Hd|]. apply Hrev. reflexivity.
Defined.

(** *** Runs that return *)

(** A run whose three roles are ready returns a history that begins
    with the generated text and ends with the final output; its length,
    which is [iterations], is at least 1 and at most [max_iterations + 1]
    (1 when [max_iterations] is zero or negative); the metadata is the
    prompt and the context. *)
Theorem result_shape (self : t) (prompt : string) (ctx : option kwargs) :
  ready (framework self) (generator_role self) ->
  ready (framework self) (reviewer_role self) ->
  ready (framework self) (refiner_role self) ->
  exists r s' generated,
    run self prompt ctx = (Ok r, s')
    /\ fst (dispatch (framework self) (generator_role self) prompt ctx ∅)
       = Ok generated
    /\ head (history r) = Some generated
    /\ last (history r) = Some (final_output r)
    /\ iterations r = length (history r)
    /\ 1 <= Z.of_nat (iterations r) <= 1 + Z.max 0 (max_iterations self)
    /\ metadata r = {| initial_prompt := prompt; context := ctx |}.
Proof.
  intros Hgen Hrev Href.
  destruct (run_returns self prompt ctx Hgen Hrev Href)
    as (r & s' & generated & Hrun & Hg & Hhead & Hlen & Hit & Hlast & _
        & Hmeta & _).
  exists r, s', generated. repeat split; try assumption.
  - lia.
  - rewrite Hit, Hlen.
    pose proof (rounds_run_le (quality_threshold self)
                  (Z.to_nat (max_iterations self)) 0). lia.
Qed.

Lemma result_shape_witness :
  exists r s' generated,
    run (test_pipeline (-2) c0_85) "Test prompt" test_context = (Ok r, s')
    /\ fst (dispatch (framework (test_pipeline (-2) c0_85)) GENERATOR
              "Test prompt" test_context ∅) = Ok generated
    /\ head (history r) = Some generated
    /\ last (history r) = Some (final_output r)
    /\ iterations r = length (history r)
    /\ 1 <= Z.of_nat (iterations r) <= 1 + Z.max 0 (-2)
    /\ metadata r
       = {| initial_prompt := "Test prompt"; context := test_context |}.
Proof.
  apply (result_shape (test_pipeline (-2) c0_85) "Test prompt" test_context);
    solve_ready.
Defined.

Lemma rounds_roles_elem self k role :
  role ∈ rounds_roles self k ->
  role = reviewer_role self \/ role = refiner_role self.
Proof.
  induction k as [|k IH]; cbn [rounds_roles]; intros Hin.
  - now apply elem_of_nil in Hin.
  - apply elem_of_cons in Hin as [->|Hin]; [now left|].
    apply elem_of_cons in Hin as [->|Hin]; [now right | now apply IH].
Qed.

(** [execute] dispatches to the generator, reviewer and refiner roles
    only: a run returns whether or not the QA role has a binding, and a
    QA role that is none of the three is never dispatched to. *)
Theorem qa_role_unused (self : t) (prompt : string) (ctx : option kwargs) :
  ready (framework self) (generator_role self) ->
  ready (framework self) (reviewer_role self) ->
  ready (framework self) (refiner_role self) ->
  exists r s',
    run self prompt ctx = (Ok r, s')
    /\ (forall role,
          role ∈ (dispatched s').*1 ->
          role = generator_role self \/ role = reviewer_role self
          \/ role = refiner_role self)
    /\ (qa_role self <> generator_role self ->
        qa_role self <> reviewer_role self ->
        qa_role self <> refiner_role self ->
        dispatches_to (qa_role self) (dispatched s').*1 = 0%nat).
Proof.
  intros Hgen Hrev Href.
  destruct (run_returns self prompt ctx Hgen Hrev Href)
    as (r & s' & generated & Hrun & _ & _ & _ & _ & _ & _ & _ & Hd).
  exists r, s'. split; [exact Hrun|]. rewrite Hd. split.
  - intros role Hin. apply elem_of_cons in Hin as [->|Hin]; [now left|].
    right. now apply rounds_roles_elem in Hin.
  - intros H1 H2 H3. rewrite dispatches_to_cons, dispatches_to_rounds.
    repeat case_decide; try congruence; lia.
Qed.

Lemma qa_role_unused_witness :
  exists r s',
    run (test_pipeline 3 c0_85) "Test prompt" None = (Ok r, s')
    /\ (forall role,
          role ∈ (dispatched s').*1 ->
          role = GENERATOR \/ role = REVIEWER \/ role = REFINER)
    /\ (QA_ANALYST <> GENERATOR -> QA_ANALYST <> REVIEWER ->
        QA_ANALYST <> REFINER ->
        dispatches_to QA_ANALYST (dispatched s').*1 = 0%nat).
Proof.
  apply (qa_role_unused (test_pipeline 3 c0_85) "Test prompt" None);
    solve_ready.
Defined.

(** *** Thresholds *)

Lemma ge_of_leb (x y : PyFloat.float) :
  SFleb y x = true -> PyFloat.ge x y = true.
Proof.
  unfold SFleb, PyFloat.ge.
  destruct x as [[]|[]| |[] m1 e1], y as [[]|[]| |[] m2 e2];
    cbn; intros H; try discriminate; try reflexivity; compare_cases.
Qed.

Lemma rounds_run_bound threshold rounds iteration (j : nat) :
  PyFloat.ge (placeholder_score (iteration + Z.of_nat j)) threshold = true ->
  (rounds_run threshold rounds iteration <= S j)%nat.
Proof.
  revert iteration j.
  induction rounds as [|rounds IH]; intros iteration j Hmet;
    cbn [rounds_run]; [lia|].
  destruct (PyFloat.ge (placeholder_score iteration) threshold) eqn:Hnow;
    [lia|].
  destruct j as [|j].
  - rewrite Z.add_0_r in Hmet. congruence.
  - specialize (IH (iteration + 1) j).
    replace (iteration + 1 + Z.of_nat j) with (iteration + Z.of_nat (S j))
      in IH by lia.
    specialize (IH Hmet). lia.
Qed.

(** With a threshold of at most [1.0], the loop has left by the end of
    its fourth round whatever [max_iterations] is, since the score of
    that round is [1.0]: the history has at most five drafts and the
    score returned is between [0.0] and [1.0]. *)
Theorem threshold_up_to_one (self : t) (prompt : string)
    (ctx : option kwargs) :
  ready (framework self) (generator_role self) ->
  ready (framework self) (reviewer_role self) ->
  ready (framework self) (refiner_role self) ->
  SFleb (quality_threshold self) c1_0 = true ->
  exists r s',
    run self prompt ctx = (Ok r, s')
    /\ (length (history r) <= 5)%nat
    /\ SFleb PyFloat.c0_0 (quality_score r) = true
    /\ SFleb (quality_score r) c1_0 = true.
Proof.
  intros Hgen Hrev Href Hle.
  destruct (run_returns self prompt ctx Hgen Hrev Href)
    as (r & s' & generated & Hrun & _ & _ & Hlen & _ & _ & Hq & _ & _).
  assert (Hmet : PyFloat.ge (placeholder_score (0 + Z.of_nat 3))
                   (quality_threshold self) = true).
  { apply ge_of_leb. exact Hle. }
  pose proof (rounds_run_bound (quality_threshold self)
                (Z.to_nat (max_iterations self)) 0 3 Hmet) as Hbound.
  rewrite last_score_index in Hq.
  exists r, s'. split; [exact Hrun|]. split; [lia|].
  rewrite Hq.
  destruct (rounds_run (quality_threshold self)
              (Z.to_nat (max_iterations self)) 0) as [|[|[|[|[|k]]]]];
    try lia; split; vm_compute; reflexivity.
Qed.

Lemma threshold_up_to_one_witness :
  exists r s',
    run (test_pipeline 10 c0_9) "Test prompt" None = (Ok r, s')
    /\ (length (history r) <= 5)%nat
    /\ SFleb PyFloat.c0_0 (quality_score r) = true
    /\ SFleb (quality_score r) c1_0 = true.
Proof.
  apply (threshold_up_to_one (test_pipeline 10 c0_9) "Test prompt" None).
  - solve_ready.
  - solve_ready.
  - solve_ready.
  - reflexivity.
Defined.

(** With a threshold that is not a number, no score reaches it: the run
    goes through all the rounds of its budget and returns the score of
    the last one. *)
Theorem nan_threshold (self : t) (prompt : string) (ctx : option kwargs) :
  ready (framework self) (generator_role self) ->
  ready (framework self) (reviewer_role self) ->
  ready (framework self) (refiner_role self) ->
  quality_threshold self = S754_nan ->
  exists r s',
    run self prompt ctx = (Ok r, s')
    /\ length (history r) = S (Z.to_nat (max_iterations self))
    /\ quality_score r
       = match Z.to_nat (max_iterations self) with
         | O => PyFloat.c0_0
         | S j => placeholder_score (Z.of_nat j)
         end.
Proof.
  intros Hgen Hrev Href Hnan.
  destruct (run_returns self prompt ctx Hgen Hrev Href)
    as (r & s' & generated & Hrun & _ & _ & Hlen & _ & _ & Hq & _ & _).
  rewrite last_score_index in Hq.
  assert (Hall : rounds_run (quality_threshold self)
                   (Z.to_nat (max_iterations self)) 0
                 = Z.to_nat (max_iterations self)).
  { apply rounds_run_never. intros i _. rewrite Hnan.
    unfold PyFloat.ge. now destruct (placeholder_score (0 + Z.of_nat i)). }
  rewrite Hall in Hlen, Hq. exists r, s'. repeat split; assumption.
Qed.

Lemma nan_threshold_witness :
  exists r s',
    run (test_pipeline 4 S754_nan) "Test prompt" None = (Ok r, s')
    /\ length (history r) = 5%nat
    /\ quality_score r = placeholder_score 3.
Proof.
  apply (nan_threshold (test_pipeline 4 S754_nan) "Test prompt" None);
    try solve_ready.
  reflexivity.
Defined.

(** *** The drafts of the rounds *)

Lemma substring_0_0 (s : string) : String.substring 0 0 s = "".
Proof. now destruct s. Qed.

Lemma substring_0_empty (n : nat) : String.substring 0 n "" = "".
Proof. now destruct n. Qed.

Lemma append_cons (c : Ascii.ascii) (a b : string) :
  String c a +:+ b = String c (a +:+ b).
Proof. reflexivity. Qed.

Lemma append_empty_r (s : string) : s +:+ "" = s.
Proof.
  induction s as [|c s IH]; [reflexivity|]. now rewrite append_cons, IH.
Qed.

Lemma substring_0_append (n : nat) (a b : string) :
  String.substring 0 n (a +:+ b)
  = String.substring 0 n a +:+ String.substring 0 (n - String.length a) b.
Proof.
  revert n. induction a as [|c a IH]; intros n.
  - change ("" +:+ b) with b. rewrite substring_0_empty.
    cbn [String.length]. now rewrite Nat.sub_0_r.
  - rewrite append_cons. destruct n as [|n].
    + now rewrite !substring_0_0.
    + cbn [String.substring String.length Nat.sub].
      now rewrite IH, append_cons.
Qed.

Lemma substring_0_review (i : nat) (cur tail : string) :
  (i <= 20)%nat ->
  String.substring 0 i
    (String.substring 0 50 ("Review this output: " +:+ cur) +:+ tail)
  = String.substring 0 i "Review this output: ".
Proof.
  intros Hi.
  change (String.substring 0 50 ("Review this output: " +:+ cur) +:+ tail)
    with ("Review this output: " +:+ (String.substring 0 30 cur +:+ tail)).
  rewrite substring_0_append.
  replace (i - String.length "Review this output: ")%nat with 0%nat
    by (cbn; lia).
  now rewrite substring_0_0, append_empty_r.
Qed.

(** The first 24 characters of an answer to a review request do not
    depend on the draft under review. *)
Lemma review_head (pre cur tail : string) :
  String.substring 0 24
    (pre +:+ "] Response to: "
       +:+ String.substring 0 50 ("Review this output: " +:+ cur) +:+ tail)
  = String.substring 0 24
      (pre +:+ "] Response to: " +:+ "Review this output: ").
Proof.
  rewrite !(substring_0_append 24 pre). f_equal.
  rewrite !(substring_0_append _ "] Response to: "). f_equal.
  rewrite substring_0_review by (cbn; lia).
  reflexivity.
Qed.

Lemma akin_refl f : akin f f.
Proof. now split. Qed.

Lemma akin_trans f1 f2 f3 : akin f1 f2 -> akin f2 f3 -> akin f1 f3.
Proof.
  intros [Ha Hc] [Ha' Hc']. split; [congruence|].
  intros name. now rewrite Hc, Hc'.
Qed.

Lemma akin_dispatch f role prompt ctx kw :
  akin f (snd (dispatch f role prompt ctx kw)).
Proof.
  destruct (dispatch_keeps f role prompt ctx kw) as (Ha & _ & Hc & _).
  split; [now rewrite Ha | intros name; now rewrite Hc].
Qed.

Lemma akin_ready f f' role : akin f f' -> ready f role -> ready f' role.
Proof.
  intros [Ha Hc] (cfg & Hcfg & [p Hp]). exists cfg. rewrite <- Ha.
  split; [exact Hcfg|]. specialize (Hc (provider cfg)). rewrite Hp in Hc.
  destruct (_providers f' !! provider cfg); [eauto | discriminate].
Qed.

Lemma reply_prefix_akin f f' role :
  akin f f' -> reply_prefix f role = reply_prefix f' role.
Proof.
  intros [Ha Hc]. unfold reply_prefix. rewrite <- Ha.
  destruct (_agents f !! role) as [cfg|]; [|reflexivity].
  specialize (Hc (provider cfg)).
  destruct (_providers f !! provider cfg) as [[m|v]|],
           (_providers f' !! provider cfg) as [[m'|v']|];
    cbn in Hc; congruence.
Qed.

Lemma dispatch_reply f role prompt ctx :
  ready f role -> fst (dispatch f role prompt ctx ∅) = Ok (reply f role prompt).
Proof.
  intros (cfg & Hcfg & [[m|v] Hp]); unfold reply, reply_prefix;
    rewrite Hcfg, Hp.
  - now rewrite (dispatch_mock f role prompt ctx ∅ cfg m Hcfg Hp clashes_empty).
  - now rewrite (dispatch_vendor f role prompt ctx ∅ cfg v Hcfg Hp).
Qed.

Lemma refined_reply f reviewer refiner cur :
  reply f refiner
    ("Refine based on feedback: "
       +:+ reply f reviewer ("Review this output: " +:+ cur))
  = refined_draft f reviewer refiner.
Proof.
  unfold refined_draft, reply at 1.
  change (String.substring 0 50
            ("Refine based on feedback: "
               +:+ reply f reviewer ("Review this output: " +:+ cur)))
    with ("Refine based on feedback: "
            +:+ String.substring 0 24
                  (reply f reviewer ("Review this output: " +:+ cur))).
  unfold reply. rewrite review_head. reflexivity.
Qed.

Lemma call_dispatch_reply f0 role prompt ctx s :
  akin f0 (fw s) ->
  ready f0 role ->
  exists s',
    call_dispatch role prompt ctx s = (Ok (reply f0 role prompt), s')
    /\ akin f0 (fw s').
Proof.
  intros Hakin Hready.
  pose proof (akin_ready _ _ _ Hakin Hready) as Hready'.
  destruct (call_dispatch_returns role prompt ctx s Hready')
    as (text & Hd & Hcall).
  pose proof (dispatch_reply (fw s) role prompt ctx Hready') as Hreply.
  rewrite Hd in Hreply. cbn [fst] in Hreply. injection Hreply as ->.
  replace (reply (fw s) role prompt) with (reply f0 role prompt) in Hcall
    by (unfold reply; now rewrite (reply_prefix_akin f0 (fw s) role Hakin)).
  eexists. split; [exact Hcall|]. cbn [fw].
  eapply akin_trans; [exact Hakin | apply akin_dispatch].
Qed.

Lemma refine_loop_drafts self ctx rounds :
  forall iteration cur q0 h0 s,
    akin (framework self) (fw s) ->
    ready (framework self) (reviewer_role self) ->
    ready (framework self) (refiner_role self) ->
    exists out s',
      refine_loop self ctx rounds iteration cur q0 h0 s
      = (Ok (out,
             last_score (quality_threshold self) rounds iteration q0,
             (h0 ++ replicate
                      (rounds_run (quality_threshold self) rounds iteration)
                      (refined_draft (framework self) (reviewer_role self)
                         (refiner_role self)))%list), s')
      /\ akin (framework self) (fw s').
Proof.
  induction rounds as [|rounds IH]; intros iteration cur q0 h0 s Hakin Hrev Href.
  - exists cur, s. cbn. rewrite app_nil_r. now split.
  - cbn [refine_loop rounds_run last_score]. unfold bind at 1.
    destruct (call_dispatch_reply (framework self) (reviewer_role self)
                ("Review this output: " +:+ cur) ctx s Hakin Hrev)
      as (s1 & -> & Hakin1).
    unfold bind at 1.
    destruct (call_dispatch_reply (framework self) (refiner_role self)
                ("Refine based on feedback: "
                   +:+ reply (framework self) (reviewer_role self)
                         ("Review this output: " +:+ cur)) ctx s1 Hakin1 Href)
      as (s2 & -> & Hakin2).
    rewrite refined_reply.
    destruct (PyFloat.ge (placeholder_score iteration)
                (quality_threshold self)).
    + eexists _, s2. unfold ret. split; [reflexivity | exact Hakin2].
    + destruct (IH (iteration + 1)
                  (refined_draft (framework self) (reviewer_role self)
                     (refiner_role self))
                  (placeholder_score iteration)
                  (h0 ++ [refined_draft (framework self) (reviewer_role self)
                            (refiner_role self)])%list s2 Hakin2 Hrev Href)
        as (out & s3 & -> & Hakin3).
      exists out, s3. rewrite <- app_assoc. now split.
Qed.

(** Every round of refinement produces the same draft, which is fixed by
    the bindings of the reviewer and refiner roles: it depends neither on
    the initial prompt, nor on the context, nor on the generated text or
    any earlier draft.  The history of a run is the generated text
    followed by as many copies of that draft as rounds were run. *)
Theorem rounds_repeat_one_draft (self : t) (prompt : string)
    (ctx : option kwargs) :
  ready (framework self) (generator_role self) ->
  ready (framework self) (reviewer_role self) ->
  ready (framework self) (refiner_role self) ->
  exists r s',
    run self prompt ctx = (Ok r, s')
    /\ history r
       = reply (framework self) (generator_role self) prompt
           :: replicate
                (rounds_run (quality_threshold self)
                   (Z.to_nat (max_iterations self)) 0)
                (refined_draft (framework self) (reviewer_role self)
                   (refiner_role self))
    /\ ((1 < length (history r))%nat ->
        final_output r
        = refined_draft (framework self) (reviewer_role self)
            (refiner_role self)).
Proof.
  intros Hgen Hrev Href.
  destruct (run_returns self prompt ctx Hgen Hrev Href)
    as (r & s' & generated & Hrun & _ & _ & _ & _ & Hlast & _ & _ & _).
  exists r, s'. split; [exact Hrun|].
  unfold run, execute in Hrun. unfold bind at 1 in Hrun.
  destruct (call_dispatch_reply (framework self) (generator_role self) prompt
              ctx {| fw := framework self; dispatched := [] |}
              (akin_refl _) Hgen) as (s1 & Hcall & Hakin1).
  rewrite Hcall in Hrun. unfold bind at 1 in Hrun.
  destruct (refine_loop_drafts self ctx (Z.to_nat (max_iterations self)) 0
              (reply (framework self) (generator_role self) prompt)
              PyFloat.c0_0
              [reply (framework self) (generator_role self) prompt] s1
              Hakin1 Hrev Href) as (out & s2 & Hloop & _).
  rewrite Hloop in Hrun. unfold ret in Hrun. injection Hrun as <- <-.
  cbn [history final_output] in *. split; [reflexivity|].
  intros Hlen. cbn [app length] in *.
  destruct (rounds_run (quality_threshold self)
              (Z.to_nat (max_iterations self)) 0) as [|k]; [cbn in Hlen; lia|].
  change (reply (framework self) (generator_role self) prompt
            :: replicate (S k)
                 (refined_draft (framework self) (reviewer_role self)
                    (refiner_role self)))
    with ([reply (framework self) (generator_role self) prompt]
            ++ replicate (S k)
                 (refined_draft (framework self) (reviewer_role self)
                    (refiner_role self)))%list in Hlast.
  rewrite replicate_S_end, app_assoc, last_snoc in Hlast.
  now injection Hlast as <-.
Qed.

Lemma rounds_repeat_one_draft_witness :
  exists r s',
    run (test_pipeline 2 c0_85) "Create a REST endpoint" test_context
    = (Ok r, s')
    /\ history r
       = reply (framework (test_pipeline 2 c0_85)) GENERATOR
           "Create a REST endpoint"
           :: replicate
                (rounds_run c0_85 (Z.to_nat 2) 0)
                (refined_draft (framework (test_pipeline 2 c0_85)) REVIEWER
                   REFINER)
    /\ ((1 < length (history r))%nat ->
        final_output r
        = refined_draft (framework (test_pipeline 2 c0_85)) REVIEWER REFINER).
Proof.
  apply (rounds_repeat_one_draft (test_pipeline 2 c0_85)
           "Create a REST endpoint" test_context);
    solve_ready.
Defined.

Example refined_draft_of_test_pipeline :
  refined_draft (framework (test_pipeline 2 c0_85)) REVIEWER REFINER
  = "[Mock test-model] Response to: Refine based on feedback: [Mock test-model] Respon...".
Proof. reflexivity. Qed.

(** *** The counter of a shared mock provider *)

Lemma call_dispatch_counts f0 name role prompt ctx s (c : Z) :
  _agents (fw s) = _agents f0 ->
  (exists cfg, _agents f0 !! role = Some cfg /\ provider cfg = name) ->
  _providers (fw s) !! name = Some (PMock {| MockProvider.call_count := c |}) ->
  exists text s',
    call_dispatch role prompt ctx s = (Ok text, s')
    /\ _agents (fw s') = _agents f0
    /\ _providers (fw s') !! name
       = Some (PMock {| MockProvider.call_count := c + 1 |}).
Proof.
  intros Hag (cfg & Hcfg & Hname) Hm. subst name. rewrite <- Hag in Hcfg.
  unfold call_dispatch.
  rewrite (dispatch_mock (fw s) role prompt ctx ∅ cfg _ Hcfg Hm clashes_empty).
  eexists _, _. split; [reflexivity|]. cbn. split; [exact Hag|].
  now rewrite lookup_insert_eq.
Qed.

Lemma refine_loop_counts self name ctx rounds :
  share self name ->
  forall iteration cur q0 h0 s (c : Z),
    _agents (fw s) = _agents (framework self) ->
    _providers (fw s) !! name
    = Some (PMock {| MockProvider.call_count := c |}) ->
    exists out s',
      refine_loop self ctx rounds iteration cur q0 h0 s = (Ok out, s')
      /\ _providers (fw s') !! name
         = Some (PMock
                   {| MockProvider.call_count :=
                        c + 2 * Z.of_nat
                                  (rounds_run (quality_threshold self) rounds
                                     iteration) |}).
Proof.
  intros Hshare.
  induction rounds as [|rounds IH]; intros iteration cur q0 h0 s c Hag Hm.
  - eexists _, s. split; [reflexivity|]. cbn [rounds_run].
    now replace (c + 2 * Z.of_nat 0) with c by lia.
  - cbn [refine_loop rounds_run]. unfold bind at 1.
    destruct (call_dispatch_counts (framework self) name (reviewer_role self)
                ("Review this output: " +:+ cur) ctx s c Hag
                (Hshare (reviewer_role self) ltac:(auto)) Hm)
      as (feedback & s1 & -> & Hag1 & Hm1).
    unfold bind at 1.
    destruct (call_dispatch_counts (framework self) name (refiner_role self)
                ("Refine based on feedback: " +:+ feedback) ctx s1 (c + 1) Hag1
                (Hshare (refiner_role self) ltac:(auto)) Hm1)
      as (out & s2 & -> & Hag2 & Hm2).
    destruct (PyFloat.ge (placeholder_score iteration)
                (quality_threshold self)).
    + eexists _, s2. unfold ret. split; [reflexivity|].
      rewrite Hm2. do 3 f_equal. lia.
    + destruct (IH (iteration + 1) out (placeholder_score iteration)
                  (h0 ++ [out])%list s2 (c + 1 + 1) Hag2 Hm2)
        as (res & s3 & -> & Hm3).
      eexists _, s3. split; [reflexivity|]. rewrite Hm3. do 3 f_equal. lia.
Qed.

(** When the three roles of the loop are bound to one provider name and
    its handle is a mock provider, a run returns and the counter of the
    handle has grown by the number of its dispatches: one for the
    generation and two for each round run. *)
Theorem shared_counter (self : t) (name prompt : string)
    (ctx : option kwargs) (m : MockProvider.t) :
  share self name ->
  _providers (framework self) !! name = Some (PMock m) ->
  exists r s',
    run self prompt ctx = (Ok r, s')
    /\ _providers (fw s') !! name
       = Some (PMock
                 {| MockProvider.call_count :=
                      MockProvider.call_count m
                      + Z.of_nat (length (dispatched s')) |})
    /\ length (dispatched s') = (2 * length (history r) - 1)%nat.
Proof.
  intros Hshare Hm.
  assert (Hready : forall role,
             role = generator_role self \/ role = reviewer_role self
             \/ role = refiner_role self ->
             ready (framework self) role).
  { intros role Hrole. destruct (Hshare role Hrole) as (cfg & Hcfg & Hname).
    exists cfg. split; [exact Hcfg|]. rewrite Hname, Hm. eauto. }
  destruct (run_returns self prompt ctx
              (Hready (generator_role self) ltac:(auto))
              (Hready (reviewer_role self) ltac:(auto))
              (Hready (refiner_role self) ltac:(auto)))
    as (r & s' & generated & Hrun & _ & _ & Hlen & _ & _ & _ & _ & Hd).
  exists r, s'. split; [exact Hrun|].
  assert (Hdlen : length (dispatched s')
                  = (1 + 2 * rounds_run (quality_threshold self)
                             (Z.to_nat (max_iterations self)) 0)%nat).
  { apply (f_equal length) in Hd. rewrite length_fmap in Hd. rewrite Hd.
    cbn [length]. f_equal.
    generalize (rounds_run (quality_threshold self)
                  (Z.to_nat (max_iterations self)) 0).
    intros k. induction k as [|k IHk]; cbn [rounds_roles length]; lia. }
  split; [|lia].
  unfold run, execute in Hrun. unfold bind at 1 in Hrun.
  destruct m as [c].
  destruct (call_dispatch_counts (framework self) name (generator_role self)
              prompt ctx {| fw := framework self; dispatched := [] |} c
              eq_refl (Hshare (generator_role self) ltac:(auto)) Hm)
    as (text & s1 & Hcall & Hag1 & Hm1).
  rewrite Hcall in Hrun. unfold bind at 1 in Hrun.
  destruct (refine_loop_counts self name ctx
              (Z.to_nat (max_iterations self)) Hshare 0 text PyFloat.c0_0
              [text] s1 (c + 1) Hag1 Hm1)
    as ([[out q] h] & s2 & Hloop & Hm2).
  rewrite Hloop in Hrun. unfold ret in Hrun. injection Hrun as _ <-.
  rewrite Hm2, Hdlen. cbn [MockProvider.call_count]. do 3 f_equal. lia.
Qed.

Lemma shared_counter_witness :
  exists r s',
    run (test_pipeline 2 c0_85) "Test prompt" None = (Ok r, s')
    /\ _providers (fw s') !! "test"
       = Some (PMock
                 {| MockProvider.call_count :=
                      MockProvider.call_count MockProvider.init
                      + Z.of_nat (length (dispatched s')) |})
    /\ length (dispatched s') = (2 * length (history r) - 1)%nat.
Proof.
  apply (shared_counter (test_pipeline 2 c0_85) "test" "Test prompt" None).
  - intros role Hrole. eexists.
    destruct Hrole as [->|[->| ->]]; split; reflexivity.
  - reflexivity.
Defined.

(** *** Runs over vendor adapters *)





(** *** The placeholder score over the first rounds *)

Lemma above_last_score_runs_all_witness :
  exists r s',
    run (test_pipeline 3 c0_9) "Test prompt" None = (Ok r, s')
    /\ length (history r) = 4%nat
    /\ (dispatched s').*1
       = GENERATOR :: rounds_roles (test_pipeline 3 c0_9) 3.
Proof.
  apply (above_last_score_runs_all (test_pipeline 3 c0_9) "Test prompt" None 3).
  - reflexivity.
  - unfold score_rounds. lia.
  - solve_ready.
  - solve_ready.
  - solve_ready.
  - vm_compute. reflexivity.
Defined.

(** *** Runs that use up their budget *)

Lemma call_dispatch_exact f0 role prompt ctx s :
  akin f0 (fw s) ->
  ready f0 role ->
  call_dispatch role prompt ctx s
  = (Ok (reply f0 role prompt),
     {| fw := snd (dispatch (fw s) role prompt ctx ∅);
        dispatched := (dispatched s ++ [(role, prompt)])%list |})
  /\ akin f0 (snd (dispatch (fw s) role prompt ctx ∅)).
Proof.
  intros Hakin Hready.
  pose proof (akin_ready _ _ _ Hakin Hready) as Hready'.
  destruct (call_dispatch_returns role prompt ctx s Hready')
    as (text & Hd & Hcall).
  pose proof (dispatch_reply (fw s) role prompt ctx Hready') as Hreply.
  rewrite Hd in Hreply. cbn [fst] in Hreply. injection Hreply as ->.
  replace (reply (fw s) role prompt) with (reply f0 role prompt) in Hcall
    by (unfold reply; now rewrite (reply_prefix_akin f0 (fw s) role Hakin)).
  split; [exact Hcall|].
  eapply akin_trans; [exact Hakin | apply akin_dispatch].
Qed.

Lemma round_calls_roles self k cur :
  (round_calls (framework self) (reviewer_role self) (refiner_role self)
     k cur).*1
  = rounds_roles self k.
Proof.
  revert cur. induction k as [|k IH]; intros cur; [reflexivity|].
  cbn [round_calls rounds_roles]. rewrite !fmap_cons. cbn [fst].
  now rewrite IH.
Qed.

Lemma refine_loop_calls self ctx rounds :
  forall iteration cur q0 h0 s,
    akin (framework self) (fw s) ->
    ready (framework self) (reviewer_role self) ->
    ready (framework self) (refiner_role self) ->
    let k := rounds_run (quality_threshold self) rounds iteration in
    let calls :=
      round_calls (framework self) (reviewer_role self) (refiner_role self)
        k cur in
    exists out,
      refine_loop self ctx rounds iteration cur q0 h0 s
      = (Ok (out,
             last_score (quality_threshold self) rounds iteration q0,
             (h0 ++ replicate k
                      (refined_draft (framework self) (reviewer_role self)
                         (refiner_role self)))%list),
         {| fw := after_dispatches ctx calls (fw s);
            dispatched := (dispatched s ++ calls)%list |}).
Proof.
  induction rounds as [|rounds IH];
    intros iteration cur q0 h0 s Hakin Hrev Href; cbn zeta.
  - exists cur. cbn. rewrite !app_nil_r. now destruct s.
  - cbn [refine_loop rounds_run last_score]. unfold bind at 1.
    destruct (call_dispatch_exact (framework self) (reviewer_role self)
                ("Review this output: " +:+ cur) ctx s Hakin Hrev)
      as [-> Hakin1].
    set (s1 := {| fw := snd (dispatch (fw s) (reviewer_role self)
                               ("Review this output: " +:+ cur) ctx ∅);
                  dispatched :=
                    (dispatched s
                       ++ [(reviewer_role self,
                            "Review this output: " +:+ cur)])%list |}).
    unfold bind at 1.
    destruct (call_dispatch_exact (framework self) (refiner_role self)
                ("Refine based on feedback: "
                   +:+ reply (framework self) (reviewer_role self)
                         ("Review this output: " +:+ cur)) ctx s1 Hakin1 Href)
      as [-> Hakin2].
    rewrite refined_reply.
    destruct (PyFloat.ge (placeholder_score iteration)
                (quality_threshold self)).
    + eexists. unfold ret. cbn [round_calls]. unfold after_dispatches.
      cbn [fold_left fst snd fw dispatched s1].
      rewrite <- app_assoc. reflexivity.
    + destruct (IH (iteration + 1)
                  (refined_draft (framework self) (reviewer_role self)
                     (refiner_role self))
                  (placeholder_score iteration)
                  (h0 ++ [refined_draft (framework self) (reviewer_role self)
                            (refiner_role self)])%list
                  {| fw := snd (dispatch (fw s1) (refiner_role self)
                                  ("Refine based on feedback: "
                                     +:+ reply (framework self)
                                           (reviewer_role self)
                                           ("Review this output: " +:+ cur))
                                  ctx ∅);
                     dispatched :=
                       (dispatched s1
                          ++ [(refiner_role self,
                               "Refine based on feedback: "
                                 +:+ reply (framework self)
                                       (reviewer_role self)
                                       ("Review this output: " +:+ cur))])%list |}
                  Hakin2 Hrev Href) as (out & ->).
      exists out. cbn [round_calls]. unfold after_dispatches.
      cbn [fold_left fst snd fw dispatched s1 replicate].
      rewrite <- !app_assoc. reflexivity.
Qed.

(** C2 as stated does not hold when one role fills two of the three
    parts.  With the reviewer role also the refiner role and a budget of
    one round, that role is dispatched to twice; with the generator role
    also the reviewer role, it is dispatched to twice as well. *)
Lemma shared_role_dispatched_twice :
  ~ each_role_N_times (pipeline_of_roles GENERATOR REVIEWER REVIEWER 1 c0_85)
      "Test prompt" None 1
  /\ ~ each_role_N_times (pipeline_of_roles REVIEWER REVIEWER REFINER 1 c0_85)
        "Test prompt" None 1.
Proof.
  split; intros H.
  - destruct H as (r & s' & Hrun & _ & Hrev & _).
    + reflexivity.
    + solve_ready.
    + solve_ready.
    + solve_ready.
    + intros [|i] Hi; [reflexivity | lia].
    + destruct (run_returns
                  (pipeline_of_roles GENERATOR REVIEWER REVIEWER 1 c0_85)
                  "Test prompt" None)
        as (r0 & s0 & g & Hrun0 & _ & _ & _ & _ & _ & _ & _ & Hd);
        try solve_ready.
      rewrite Hrun0 in Hrun. injection Hrun as _ <-.
      rewrite Hd in Hrev. vm_compute in Hrev. discriminate Hrev.
  - destruct H as (r & s' & Hrun & _ & Hrev & _).
    + reflexivity.
    + solve_ready.
    + solve_ready.
    + solve_ready.
    + intros [|i] Hi; [reflexivity | lia].
    + destruct (run_returns
                  (pipeline_of_roles REVIEWER REVIEWER REFINER 1 c0_85)
                  "Test prompt" None)
        as (r0 & s0 & g & Hrun0 & _ & _ & _ & _ & _ & _ & _ & Hd);
        try solve_ready.
      rewrite Hrun0 in Hrun. injection Hrun as _ <-.
      rewrite Hd in Hrev. vm_compute in Hrev. discriminate Hrev.
Qed.

(** C2, amended. With a budget of [N] rounds and a threshold that none
    of the binary64 numbers [0.7 + i * 0.1], [i < N], reaches -- so with
    any threshold above [0.7 + (N - 1) * 0.1] -- a run whose three roles
    can be dispatched to returns a history of [N + 1] drafts, the
    generated text and [N] times the refined draft.  Its dispatches are
    one to the generator role with the prompt and then, [N] times, one
    to the reviewer role on the current draft followed by one to the
    refiner role on the reviewer's answer; the registry it leaves is the
    one these dispatches leave.  A role is so dispatched to once if it is
    the generator role, [N] times if it is the reviewer role and [N]
    times if it is the refiner role: the reviewer role and the refiner
    role exactly [N] times each when the three roles differ. *)
#[warning="-inexact-float"]
Theorem never_met_runs_all (self : t) (prompt : string)
    (ctx : option kwargs) (N : nat) :
  let score (j : Z) : spec_float :=
    SFadd prec emax (Prim2SF 0.7%float)
      (SFmul prec emax (binary_normalize prec emax j 0 false)
         (Prim2SF 0.1%float)) in
  max_iterations self = Z.of_nat N ->
  ready (framework self) (generator_role self) ->
  ready (framework self) (reviewer_role self) ->
  ready (framework self) (refiner_role self) ->
  (forall i : nat, (i < N)%nat ->
     SFleb (quality_threshold self) (score (Z.of_nat i)) = false)
  \/ SFltb (score (Z.of_nat N - 1)) (quality_threshold self) = true ->
  exists r s',
    run self prompt ctx = (Ok r, s')
    /\ length (history r) = S N
    /\ history r
       = reply (framework self) (generator_role self) prompt
           :: replicate N
                (refined_draft (framework self) (reviewer_role self)
                   (refiner_role self))
    /\ dispatched s'
       = (generator_role self, prompt)
           :: round_calls (framework self) (reviewer_role self)
                (refiner_role self) N
                (reply (framework self) (generator_role self) prompt)
    /\ (dispatched s').*1 = generator_role self :: rounds_roles self N
    /\ fw s' = after_dispatches ctx (dispatched s') (framework self)
    /\ (forall role,
          dispatches_to role (dispatched s').*1
          = ((if decide (generator_role self = role) then 1 else 0)
             + (if decide (reviewer_role self = role) then N else 0)
             + (if decide (refiner_role self = role) then N else 0))%nat)
    /\ (generator_role self <> reviewer_role self ->
        generator_role self <> refiner_role self ->
        reviewer_role self <> refiner_role self ->
        dispatches_to (reviewer_role self) (dispatched s').*1 = N
        /\ dispatches_to (refiner_role self) (dispatched s').*1 = N).
Proof.
  intros score HN Hgen Hrev Href Hthreshold.
  assert (Hnever : forall i : nat, (i < N)%nat ->
            PyFloat.ge (placeholder_score (0 + Z.of_nat i))
              (quality_threshold self) = false).
  { intros i Hi. rewrite ge_is_leb.
    destruct Hthreshold as [H|H]; [exact (H i Hi)|].
    exact (Binary64Facts.threshold_above_score N _ H i Hi). }
  unfold run, execute. unfold bind at 1.
  destruct (call_dispatch_exact (framework self) (generator_role self) prompt
              ctx {| fw := framework self; dispatched := [] |}
              (akin_refl _) Hgen) as [-> Hakin1].
  cbn [fw dispatched app]. unfold bind at 1.
  destruct (refine_loop_calls self ctx (Z.to_nat (max_iterations self)) 0
              (reply (framework self) (generator_role self) prompt)
              PyFloat.c0_0
              [reply (framework self) (generator_role self) prompt]
              {| fw := snd (dispatch (framework self) (generator_role self)
                              prompt ctx ∅);
                 dispatched := [(generator_role self, prompt)] |}
              Hakin1 Hrev Href) as (out & ->).
  rewrite HN, Nat2Z.id, (rounds_run_never _ N 0 Hnever).
  unfold ret. cbn [fw dispatched app].
  assert (Hcount : forall role,
            dispatches_to role
              (generator_role self :: rounds_roles self N)
            = ((if decide (generator_role self = role) then 1 else 0)
               + (if decide (reviewer_role self = role) then N else 0)
               + (if decide (refiner_role self = role) then N else 0))%nat).
  { intros role. rewrite dispatches_to_cons, dispatches_to_rounds. lia. }
  eexists _, _. split; [reflexivity|].
  cbn [history dispatched fw fmap list_fmap fst].
  change (list_fmap (Role * string)%type Role fst ?l) with (l.*1).
  rewrite round_calls_roles.
  split; [cbn [length]; now rewrite length_replicate|].
  split; [reflexivity|]. split; [reflexivity|]. split; [reflexivity|].
  split; [reflexivity|]. split; [exact Hcount|].
  intros H1 H2 H3. rewrite !Hcount.
  repeat case_decide; try congruence; lia.
Qed.

Lemma never_met_runs_all_witness :
  let self := test_pipeline 2 c0_85 in
  exists r s',
    run self "Test prompt" test_context = (Ok r, s')
    /\ length (history r) = 3%nat
    /\ history r
       = reply (framework self) GENERATOR "Test prompt"
           :: replicate 2 (refined_draft (framework self) REVIEWER REFINER)
    /\ dispatched s'
       = (GENERATOR, "Test prompt")
           :: round_calls (framework self) REVIEWER REFINER 2
                (reply (framework self) GENERATOR "Test prompt")
    /\ (dispatched s').*1 = GENERATOR :: rounds_roles self 2
    /\ fw s' = after_dispatches test_context (dispatched s') (framework self)
    /\ (forall role,
          dispatches_to role (dispatched s').*1
          = ((if decide (GENERATOR = role) then 1 else 0)
             + (if decide (REVIEWER = role) then 2 else 0)
             + (if decide (REFINER = role) then 2 else 0))%nat)
    /\ (GENERATOR <> REVIEWER -> GENERATOR <> REFINER ->
        REVIEWER <> REFINER ->
        dispatches_to REVIEWER (dispatched s').*1 = 2%nat
        /\ dispatches_to REFINER (dispatched s').*1 = 2%nat).
Proof.
  apply (never_met_runs_all (test_pipeline 2 c0_85) "Test prompt"
           test_context 2).
  - reflexivity.
  - solve_ready.
  - solve_ready.
  - solve_ready.
  - right. vm_compute. reflexivity.
Defined.

Example never_met_dispatches :
  snd (run (test_pipeline 1 c0_85) "Test prompt" None)
  = {| fw :=
         after_dispatches None
           [(GENERATOR, "Test prompt");
            (REVIEWER,
             "Review this output: [Mock test-model] Response to: Test prompt...");
            (REFINER,
             "Refine based on feedback: [Mock test-model] Response to: Review this output: [Mock test-model] Response to:...")]
           (framework (test_pipeline 1 c0_85));
       dispatched :=
         [(GENERATOR, "Test prompt");
          (REVIEWER,
           "Review this output: [Mock test-model] Response to: Test prompt...");
          (REFINER,
           "Refine based on feedback: [Mock test-model] Response to: Review this output: [Mock test-model] Response to:...")] |}.
Proof. reflexivity. Qed.

End RunFacts.
